(** * GCP disk-savings reporting scripts: a shallow embedding

    The development follows [gcp_disk_savings_calculator.py]: the collector
    [get_ssd_disk_data], the per-disk computation [calculate_savings], the
    totals and workbook of [create_excel_report] and the driver [main]. Of
    [new_report.py], the CSV variant of the same report, the region
    expression, the percentage of the summary and the read step that
    every run ends in are embedded; of [gcp_standard_disk_inventory.py],
    the collector [get_vm_disk_data], the sheet of [create_excel_report]
    and [main].

    Python values are modelled by [pyval]; Python [float]s and numpy
    [float64]s are IEEE binary64 numbers, here Rocq's primitive [float]
    (round to nearest, ties to even, as CPython and numpy compute); Python
    [int]s are [Z]; exceptions are values of [exn] carried by [res]. *)

From Stdlib Require Import ZArith List String Ascii Floats Permutation.
From stdpp Require Import gmap strings list.

Set Warnings "-inexact-float".
Local Open Scope Z_scope.
Local Open Scope string_scope.

(** ** Python values, exceptions *)

Inductive exn : Type :=
| KeyError (k : string)
| TypeError
| ValueError
| ZeroDivisionError
| OverflowError
| IndexError
| ApiError.

Inductive res (A : Type) : Type :=
| Ok (a : A)
| Raise (e : exn).
Arguments Ok {A} a.
Arguments Raise {A} e.

#[global] Instance res_ret : MRet res := fun A a => Ok a.
#[global] Instance res_bind : MBind res :=
  fun A B f m => match m with Ok a => f a | Raise e => Raise e end.
#[global] Instance res_fmap : FMap res :=
  fun A B f m => match m with Ok a => Ok (f a) | Raise e => Raise e end.

Inductive pyval : Type :=
| VStr (s : string)
| VInt (z : Z)
| VFloat (f : float).

(** A [dict] with string keys. *)
Abbreviation pydict := (gmap string pyval).

(** [d[k]] *)
Definition getitem {V : Type} (d : gmap string V) (k : string) : res V :=
  match d !! k with
  | Some v => Ok v
  | None => Raise (KeyError k)
  end.

(** [d.get(key, dflt)]: a key that is not a string equals no string key. *)
Definition dict_get {V : Type} (d : gmap string V) (key : pyval) (dflt : V) : V :=
  match key with
  | VStr k => default dflt (d !! k)
  | _ => dflt
  end.

(** ** Numbers *)

(** Quotient [n / d] rounded to the nearest integer, ties to even
    ([d > 0]). *)
Definition round_half_even (n d : Z) : Z :=
  let q := n / d in
  match 2 * (n mod d) ?= d with
  | Lt => q
  | Gt => q + 1
  | Eq => if Z.even q then q else q + 1
  end.

(** [float(z)] for an [int]: the nearest double, [OverflowError] beyond the
    range of doubles. *)
Definition int_to_float (z : Z) : res float :=
  match binary_normalize prec emax z 0 false with
  | S754_infinity _ => Raise OverflowError
  | sf => Ok (SF2Prim sf)
  end.

(** The operand of [x * price] and [x / y] with a float on the other side. *)
Definition as_float (v : pyval) : res float :=
  match v with
  | VFloat f => Ok f
  | VInt z => int_to_float z
  | VStr _ => Raise TypeError
  end.

(** [a / b] on Python floats. *)
Definition float_truediv (a b : float) : res float :=
  if (b =? 0)%float then Raise ZeroDivisionError else Ok (a / b)%float.

(** CPython's [round(x, ndigits)] on a float, [ndigits >= 0]: the exact
    binary value of [x] is rounded to [ndigits] decimals, ties to even, and
    the decimal result is converted back to the nearest double
    ([float.__round__], through dtoa and strtod). Zeros, infinities and
    nan round to themselves. *)
Definition py_round (x : float) (ndigits : nat) : float :=
  match Prim2SF x with
  | S754_finite s m e =>
      let scale := 10 ^ Z.of_nat ndigits in
      let k := match e with
               | Zneg p => round_half_even (Zpos m * scale) (2 ^ Zpos p)
               | _ => Zpos m * 2 ^ e * scale
               end in
      match k with
      | Zpos k' =>
          SF2Prim (SFdiv prec emax (S754_finite s k' 0)
                                   (S754_finite false (Z.to_pos scale) 0))
      | _ => SF2Prim (S754_zero s)
      end
  | _ => x
  end.

(** numpy's [rint]: the nearest integral double, ties to even. *)
Definition rint (x : float) : float :=
  match Prim2SF x with
  | S754_finite s m (Zneg p) =>
      SF2Prim (binary_normalize prec emax
                 (cond_Zopp s (round_half_even (Zpos m) (2 ^ Zpos p))) 0 s)
  | _ => x
  end.

Definition power_of_ten (n : nat) : float :=
  SF2Prim (binary_normalize prec emax (10 ^ Z.of_nat n) 0 false).

(** [round(x, decimals)] on a numpy [float64] scalar, [decimals > 0]:
    multiply, [rint], divide. *)
Definition np_round (x : float) (decimals : nat) : float :=
  (rint (x * power_of_ten decimals) / power_of_ten decimals)%float.

(** ** The price table *)

Abbreviation price_table := (gmap string (gmap string float)).

Definition DISK_PRICES : price_table :=
  {[ "us-west1" := {[ "pd-ssd" := 0.17%float; "pd-balanced" := 0.10%float ]};
     "default" := {[ "pd-ssd" := 0.17%float; "pd-balanced" := 0.10%float ]} ]}.

(** ** [calculate_savings] *)

(** The four local variables of the loop body. *)
Record costs : Type := {
  current_cost : float;
  balanced_cost : float;
  monthly_savings : float;
  annual_savings : float
}.

(** Lines 105-115: the loop body up to the four costs. The module-level
    table is read when the function runs; it is an argument here,
    instantiated by [DISK_PRICES] below. *)
Definition disk_costs (prices : price_table) (disk : pydict) : res costs :=
  region ← getitem disk "Region";
  size_gb ← getitem disk "Disk Size (GB)";
  dflt ← getitem prices "default";
  let region_prices := dict_get prices region dflt in
  ssd ← getitem region_prices "pd-ssd";
  size ← as_float size_gb;
  let current_cost := (size * ssd)%float in
  balanced ← getitem region_prices "pd-balanced";
  let balanced_cost := (size * balanced)%float in
  let monthly_savings := (current_cost - balanced_cost)%float in
  let annual_savings := (monthly_savings * 12)%float in
  Ok {| current_cost := current_cost;
        balanced_cost := balanced_cost;
        monthly_savings := monthly_savings;
        annual_savings := annual_savings |}.

(** Lines 118-131: the dict display, from the values it holds. *)
Definition record_of (name type size_gb zone region attached boot : pyval)
    (c : costs) (ratio : float) : pydict :=
  list_to_map
    [ ("Disk Name", name);
      ("Disk Type", type);
      ("Disk Size (GB)", size_gb);
      ("Zone", zone);
      ("Region", region);
      ("Attached To", attached);
      ("Is Boot Disk", boot);
      ("Current Monthly Cost (USD)", VFloat (py_round (current_cost c) 2));
      ("Balanced Monthly Cost (USD)", VFloat (py_round (balanced_cost c) 2));
      ("Monthly Savings (USD)", VFloat (py_round (monthly_savings c) 2));
      ("Annual Savings (USD)", VFloat (py_round (annual_savings c) 2));
      ("Savings Percentage", VFloat (py_round (ratio * 100) 1)) ].

(** Lines 104-131, one iteration: the dict appended for one disk. [region]
    and [size_gb] are the locals of lines 105 and 106; the other subscripts
    of [disk] and the division are evaluated in the order of the display. *)
Definition savings_record (prices : price_table) (disk : pydict) : res pydict :=
  c ← disk_costs prices disk;
  region ← getitem disk "Region";
  size_gb ← getitem disk "Disk Size (GB)";
  name ← getitem disk "Disk Name";
  type ← getitem disk "Disk Type";
  zone ← getitem disk "Zone";
  attached ← getitem disk "Attached To";
  boot ← getitem disk "Is Boot Disk";
  ratio ← float_truediv (monthly_savings c) (current_cost c);
  Ok (record_of name type size_gb zone region attached boot c ratio).

(** The loop over [disk_data], on values: the first exception ends it. *)
Fixpoint calculate_savings_with (prices : price_table) (disk_data : list pydict)
  : res (list pydict) :=
  match disk_data with
  | [] => Ok []
  | disk :: rest =>
      r ← savings_record prices disk;
      rs ← calculate_savings_with prices rest;
      Ok (r :: rs)
  end.

Definition calculate_savings (disk_data : list pydict) : res (list pydict) :=
  calculate_savings_with DISK_PRICES disk_data.

(** ** [calculate_savings] on the store

    The same function with the objects it touches made explicit: the input
    list and its dicts live in a store, [savings_data = []] and every dict
    literal allocate a new object, [append] writes to the list object it is
    called on. Strings and numbers are immutable and stay values. *)
Module Store.

Abbreviation loc := positive.

Inductive obj : Type :=
| ODict (d : pydict)
| OList (items : list loc).

Abbreviation heap := (gmap loc obj).

Definition alloc (o : obj) (h : heap) : heap * loc :=
  let l := fresh (dom h) in (<[l := o]> h, l).

(** [lst.append(item)] *)
Definition append (lst item : loc) (h : heap) : heap :=
  match h !! lst with
  | Some (OList items) => <[lst := OList (items ++ [item])]> h
  | _ => h
  end.

(** The loop body runs once per item of the list; an item that is not a
    dict cannot be subscripted with a string. *)
Fixpoint savings_loop (prices : price_table) (items : list loc)
    (savings_data : loc) (h : heap) : heap * res unit :=
  match items with
  | [] => (h, Ok ())
  | l :: rest =>
      match h !! l with
      | Some (ODict disk) =>
          match savings_record prices disk with
          | Ok r =>
              let '(h1, lr) := alloc (ODict r) h in
              savings_loop prices rest savings_data (append savings_data lr h1)
          | Raise e => (h, Raise e)
          end
      | _ => (h, Raise TypeError)
      end
  end.

(** Returns the final store and the location of [savings_data], or the
    exception that ended the call. Iterating over a dict yields its keys,
    which are strings: only an empty one passes. *)
Definition calculate_savings_with (prices : price_table) (disk_data : loc)
    (h : heap) : heap * res loc :=
  let '(h0, savings_data) := alloc (OList []) h in
  match h !! disk_data with
  | Some (OList items) =>
      let '(h1, r) := savings_loop prices items savings_data h0 in
      (h1, (fun _ => savings_data) <$> r)
  | Some (ODict d) =>
      (h0, if bool_decide (size d = 0%nat) then Ok savings_data else Raise TypeError)
  | None => (h0, Raise TypeError)
  end.

Definition calculate_savings (disk_data : loc) (h : heap) : heap * res loc :=
  calculate_savings_with DISK_PRICES disk_data h.

End Store.

(** ** pandas: the columns of [pd.DataFrame(data)] and [Series.sum] *)

(** [df[k]]: a column exists when some record has the key; a record
    without it contributes nan. *)
Definition column (k : string) (data : list pydict) : res (list pyval) :=
  if existsb (fun d => bool_decide (is_Some (d !! k))) data
  then Ok ((fun d => default (VFloat nan) (d !! k)) <$> data)
  else Raise (KeyError k).

Definition is_int (v : pyval) : bool :=
  match v with VInt _ => true | _ => false end.
Definition is_str (v : pyval) : bool :=
  match v with VStr _ => true | _ => false end.
Definition is_num (v : pyval) : bool := negb (is_str v).

Definition int_value (v : pyval) : Z :=
  match v with VInt z => z | _ => 0 end.
Definition str_value (v : pyval) : string :=
  match v with VStr s => s | _ => "" end.

Fixpoint floats_of (vals : list pyval) : res (list float) :=
  match vals with
  | [] => Ok []
  | v :: rest => x ← as_float v; xs ← floats_of rest; Ok (x :: xs)
  end.

(** The float64 reduction of [Series.sum()]: nan counts as zero, and the
    values are added as numpy's [add.reduce] adds a contiguous array, by
    pairwise summation ([DOUBLE_pairwise_sum]): fewer than eight values
    one after the other, up to 128 values with eight running sums that
    are combined at the end, more by halves. *)

(** [res += a[i]] over [xs]. *)
Definition add_all (res : float) (xs : list float) : float :=
  fold_left (fun acc x => (acc + x)%float) xs res.

(** [r[j] += a[i + j]] for [k] blocks of eight; the values left over. *)
Fixpoint add_blocks (k : nat) (r xs : list float) : list float * list float :=
  match k with
  | O => (r, xs)
  | S k' => add_blocks k' (zip_with (fun a x => (a + x)%float) r (take 8 xs)) (drop 8 xs)
  end.

(** The case of 8 to 128 values. *)
Definition block_sum (xs : list float) : float :=
  let '(r, rest) := add_blocks (length xs / 8 - 1) (take 8 xs) (drop 8 xs) in
  match r with
  | [r0; r1; r2; r3; r4; r5; r6; r7] =>
      add_all (((r0 + r1) + (r2 + r3)) + ((r4 + r5) + (r6 + r7)))%float rest
  | _ => add_all neg_zero xs
  end.

(** The recursion halves the length, so the length is fuel enough. *)
Fixpoint pairwise_sum (fuel : nat) (xs : list float) : float :=
  let n := length xs in
  if (n <? 8)%nat then add_all neg_zero xs
  else if (n <=? 128)%nat then block_sum xs
  else
    match fuel with
    | O => block_sum xs
    | S fuel' =>
        let n2 := (n / 2 - (n / 2) mod 8)%nat in
        (pairwise_sum fuel' (take n2 xs) + pairwise_sum fuel' (drop n2 xs))%float
    end.

(** The reduction starts from the identity of the addition, -0.0 (the sum
    of no value at all is 0.0). *)
Definition nansum (xs : list float) : float :=
  match xs with
  | [] => 0%float
  | _ =>
      (neg_zero
       + pairwise_sum (length xs) ((fun x => if is_nan x then 0 else x) <$> xs))%float
  end.

(** [Series.sum()] by the column's dtype: int64 (the exact sum here, inside
    the int64 range), float64 when a float occurs among numbers, object
    when strings occur. *)
Definition series_sum (vals : list pyval) : res pyval :=
  if forallb is_int vals then Ok (VInt (foldr Z.add 0 (int_value <$> vals)))
  else if forallb is_num vals then xs ← floats_of vals; Ok (VFloat (nansum xs))
  else if forallb is_str vals then Ok (VStr (String.concat "" (str_value <$> vals)))
  else Raise TypeError.

Definition column_sum (k : string) (data : list pydict) : res pyval :=
  vals ← column k data; series_sum vals.

(** [x > 0] *)
Definition gt_zero (v : pyval) : res bool :=
  match v with
  | VFloat f => Ok (0 <? f)%float
  | VInt z => Ok (0 <? z)%Z
  | VStr _ => Raise TypeError
  end.

(** [a / b] on numpy scalars: both operands as float64, no exception. *)
Definition np_truediv (a b : pyval) : res float :=
  x ← as_float a; y ← as_float b; Ok (x / y)%float.

(** [round(v, decimals)] on what [create_excel_report] rounds: a float64
    scalar, an int64 scalar or the int [0]. *)
Definition round_scalar (v : pyval) (decimals : nat) : res pyval :=
  match v with
  | VFloat f => Ok (VFloat (np_round f decimals))
  | VInt z => Ok (VInt z)
  | VStr _ => Raise TypeError
  end.

(** ** [create_excel_report] *)

(** Lines 144-150, the local variables of "Calculate totals". *)
Record totals : Type := {
  total_monthly_savings : pyval;
  total_annual_savings : pyval;
  total_current_cost : pyval;
  total_balanced_cost : pyval;
  total_disk_size : pyval;
  avg_savings_pct : pyval
}.

Definition report_totals (data : list pydict) : res totals :=
  tm ← column_sum "Monthly Savings (USD)" data;
  ta ← column_sum "Annual Savings (USD)" data;
  tc ← column_sum "Current Monthly Cost (USD)" data;
  tb ← column_sum "Balanced Monthly Cost (USD)" data;
  ts ← column_sum "Disk Size (GB)" data;
  positive_cost ← gt_zero tc;
  avg ← (if positive_cost : bool
         then q ← np_truediv tm tc; Ok (VFloat (q * 100))
         else Ok (VInt 0));
  Ok {| total_monthly_savings := tm;
        total_annual_savings := ta;
        total_current_cost := tc;
        total_balanced_cost := tb;
        total_disk_size := ts;
        avg_savings_pct := avg |}.

(** A worksheet cell: a value, or the string [f"{v}%"]. *)
Inductive cell : Type :=
| CVal (v : pyval)
| CPercent (v : pyval).

(** Lines 169-177: the seven values of the summary block, in order. *)
Record summary : Type := {
  disk_count : nat;
  disk_size : pyval;
  current_monthly_cost : pyval;
  projected_monthly_cost : pyval;
  potential_monthly_savings : pyval;
  potential_annual_savings : pyval;
  average_savings_percentage : cell
}.

Definition summary_data (data : list pydict) (t : totals) : res summary :=
  c ← round_scalar (total_current_cost t) 2;
  b ← round_scalar (total_balanced_cost t) 2;
  m ← round_scalar (total_monthly_savings t) 2;
  a ← round_scalar (total_annual_savings t) 2;
  p ← round_scalar (avg_savings_pct t) 1;
  Ok {| disk_count := length data;
        disk_size := total_disk_size t;
        current_monthly_cost := c;
        projected_monthly_cost := b;
        potential_monthly_savings := m;
        potential_annual_savings := a;
        average_savings_percentage := CPercent p |}.

(** Lines 210-221: one row of the detail table. *)
Definition detail_row (disk : pydict) : res (list cell) :=
  name ← getitem disk "Disk Name";
  size ← getitem disk "Disk Size (GB)";
  boot ← getitem disk "Is Boot Disk";
  attached ← getitem disk "Attached To";
  zone ← getitem disk "Zone";
  region ← getitem disk "Region";
  current ← getitem disk "Current Monthly Cost (USD)";
  balanced ← getitem disk "Balanced Monthly Cost (USD)";
  monthly ← getitem disk "Monthly Savings (USD)";
  annual ← getitem disk "Annual Savings (USD)";
  pct ← getitem disk "Savings Percentage";
  Ok [CVal name; CVal size; CVal boot; CVal attached; CVal zone; CVal region;
      CVal current; CVal balanced; CVal monthly; CVal annual; CPercent pct].

Fixpoint detail_rows (data : list pydict) : res (list (list cell)) :=
  match data with
  | [] => Ok []
  | disk :: rest => r ← detail_row disk; rs ← detail_rows rest; Ok (r :: rs)
  end.

Record workbook : Type := {
  wb_totals : totals;
  wb_summary : summary;
  wb_rows : list (list cell)
}.

(** [None] is the early [return False] (nothing is written); [Some wb] is
    the workbook saved before [return True]. The file system and the cell
    styles are not part of the model. *)
Definition create_excel_report (data : list pydict) : res (option workbook) :=
  match data with
  | [] => Ok None
  | _ =>
      t ← report_totals data;
      s ← summary_data data t;
      rows ← detail_rows data;
      Ok (Some {| wb_totals := t; wb_summary := s; wb_rows := rows |})
  end.

(** ** Strings *)

(** [s.split(sep)] for a one-character separator: never empty. *)
Fixpoint split_on (sep : ascii) (s : string) : list string :=
  match s with
  | EmptyString => [EmptyString]
  | String c s' =>
      if Ascii.eqb c sep then EmptyString :: split_on sep s'
      else match split_on sep s' with
           | seg :: segs => String c seg :: segs
           | [] => [String c EmptyString]
           end
  end.

(** [s.split(sep)[-1]] *)
Definition last_segment (sep : ascii) (s : string) : string :=
  List.last (split_on sep s) EmptyString.

(** [sep.join(parts)] *)
Fixpoint join (sep : ascii) (parts : list string) : string :=
  match parts with
  | [] => EmptyString
  | [p] => p
  | p :: rest => p ++ String sep (join sep rest)
  end.

(** [s[:stop]] *)
Definition slice_until (s : string) (stop : Z) : string :=
  let n := Z.of_nat (String.length s) in
  let stop' := if (stop <? 0)%Z then Z.max 0 (n + stop) else Z.min stop n in
  substring 0 (Z.to_nat stop') s.

Definition startswith (s p : string) : bool := String.prefix p s.

Definition endswith (s suffix : string) : bool :=
  let n := String.length s in
  let m := String.length suffix in
  (m <=? n)%nat && String.eqb (substring (n - m) m s) suffix.

(** [int(s)] on a string, whose characters are its code points (all below
    256 here). Outside ASCII a white space character (U+0085, U+00A0)
    stands for a blank and every other character is refused; then come
    surrounding white space as C's [isspace] sees it (9 to 13 and 32), an
    optional sign and decimal digits, single underscores between digits
    allowed. *)
Definition is_digit (c : ascii) : bool :=
  let n := nat_of_ascii c in (48 <=? n)%nat && (n <=? 57)%nat.

Definition is_space (c : ascii) : bool :=
  let n := nat_of_ascii c in
  ((9 <=? n)%nat && (n <=? 13)%nat) || (n =? 32)%nat.

Fixpoint spaces_to_ascii (s : string) : string :=
  match s with
  | EmptyString => EmptyString
  | String c s' =>
      let n := nat_of_ascii c in
      String (if (n =? 133)%nat || (n =? 160)%nat then " "%char else c)
             (spaces_to_ascii s')
  end.

Fixpoint parse_digits (s : string) (acc : Z) (after_digit : bool) : option Z :=
  match s with
  | EmptyString => if after_digit then Some acc else None
  | String c s' =>
      if is_digit c
      then parse_digits s' (10 * acc + Z.of_nat (nat_of_ascii c - 48)) true
      else if Ascii.eqb c "_" && after_digit then parse_digits s' acc false
      else None
  end.

Fixpoint lstrip (s : string) : string :=
  match s with
  | String c s' => if is_space c then lstrip s' else s
  | EmptyString => s
  end.

Definition strip (s : string) : string :=
  String.rev (lstrip (String.rev (lstrip s))).

Definition py_int (s : string) : res Z :=
  let parsed :=
    match strip (spaces_to_ascii s) with
    | String "-" ds => Z.opp <$> parse_digits ds 0 false
    | String "+" ds => parse_digits ds 0 false
    | ds => parse_digits ds 0 false
    end in
  match parsed with
  | Some z => Ok z
  | None => Raise ValueError
  end.

(** ** [get_ssd_disk_data] *)

(** What the Compute Engine client returns: the disks resource carries
    [name], [type] (a URL) and [sizeGb] (a decimal string), and [users]
    when attached; an instance lists its attached disks. A call that raises
    is a [Raise]. *)
Record gcp_disk : Type := {
  d_name : string;
  d_type : string;
  d_sizeGb : string;
  d_users : option (list string)
}.

Record attached_disk : Type := {
  ad_source : option string;
  ad_boot : option bool
}.

Record compute_api : Type := {
  zones_list : res (list string);
  disks_list : string -> res (list gcp_disk);
  instances_get : string -> string -> res (option (list attached_disk))
}.

(** Lines 75-78 *)
Definition is_boot_disk (disks : list attached_disk) (disk_name : string) : bool :=
  existsb (fun ad => endswith (default "" (ad_source ad)) disk_name
                     && default false (ad_boot ad)) disks.

(** Lines 57-82: the first user only. *)
Definition attachment (api : compute_api) (zone : string) (disk : gcp_disk)
  : string * bool :=
  match d_users disk with
  | Some (user :: _) =>
      let instance_name := last_segment "/" user in
      (instance_name,
       match instances_get api zone instance_name with
       | Ok instance => is_boot_disk (default [] instance) (d_name disk)
       | Raise _ => false
       end)
  | _ => ("Not attached", false)
  end.

(** Line 54 *)
Definition region_of_zone (zone : string) : string := slice_until zone (-2).

(** Lines 85-93 *)
Definition disk_record (api : compute_api) (zone : string) (disk : gcp_disk)
    (disk_type : string) (disk_size_gb : Z) : pydict :=
  let '(attached_to, is_boot) := attachment api zone disk in
  list_to_map
    [ ("Disk Name", VStr (d_name disk));
      ("Disk Type", VStr disk_type);
      ("Disk Size (GB)", VInt disk_size_gb);
      ("Zone", VStr zone);
      ("Region", VStr (region_of_zone zone));
      ("Attached To", VStr attached_to);
      ("Is Boot Disk", VStr (if is_boot then "Yes" else "No")) ].

(** Lines 46-93: the disks of one zone. An exception ([int] on a malformed
    size) leaves the loop for the handler of line 95: what was appended
    stays, the rest of the zone is skipped. *)
Fixpoint collect_disks (api : compute_api) (zone : string) (disks : list gcp_disk)
    (disk_data : list pydict) : list pydict :=
  match disks with
  | [] => disk_data
  | disk :: rest =>
      let disk_type := last_segment "/" (d_type disk) in
      if String.eqb disk_type "pd-ssd" then
        match py_int (d_sizeGb disk) with
        | Ok disk_size_gb =>
            collect_disks api zone rest
              (disk_data ++ [disk_record api zone disk disk_type disk_size_gb])
        | Raise _ => disk_data
        end
      else collect_disks api zone rest disk_data
  end.

(** Lines 40-96 *)
Fixpoint collect_zones (api : compute_api) (zones : list string)
    (disk_data : list pydict) : list pydict :=
  match zones with
  | [] => disk_data
  | zone :: rest =>
      collect_zones api rest
        match disks_list api zone with
        | Ok disks => collect_disks api zone disks disk_data
        | Raise _ => disk_data
        end
  end.

Definition get_ssd_disk_data (api : compute_api) : res (list pydict) :=
  zones ← zones_list api;
  let us_west1_zones := List.filter (fun zone => startswith zone "us-west1-") zones in
  Ok (collect_zones api us_west1_zones []).

(** ** [main] *)

Definition main (api : compute_api) : res (option workbook) :=
  disk_data ← get_ssd_disk_data api;
  match disk_data with
  | [] => Ok None
  | _ => savings_data ← calculate_savings disk_data; create_excel_report savings_data
  end.

(** ** [new_report.py] *)
Module NewReport.

Definition index (parts : list string) (i : nat) : res string :=
  match parts !! i with
  | Some p => Ok p
  | None => Raise IndexError
  end.

(** Lines 35 and 75: [zone.split('-')[0] + '-' + zone.split('-')[1]] *)
Definition region_of_zone (zone : string) : res string :=
  a ← index (split_on "-" zone) 0;
  b ← index (split_on "-" zone) 1;
  Ok (a ++ "-" ++ b).

(** Line 22 *)
Definition savings_percentage : float := 41.2%float.

(** Line 93: the summary's percentage for the records [output_df]. *)
Definition avg_savings_percentage (output_df : list pydict) : float :=
  savings_percentage.

End NewReport.

(** ** The specification's words *)

(** The zone with its last hyphen-separated segment removed. *)
Definition drop_last_segment (zone : string) : string :=
  join "-" (removelast (split_on "-" zone)).

(** ** Auxiliary notions *)

(** The two prices of both entries of the table. *)
Definition standard_prices : gmap string float :=
  {[ "pd-ssd" := 0.17%float; "pd-balanced" := 0.10%float ]}.

(** No occurrence of [sep] in [s]. *)
Fixpoint free_of (sep : ascii) (s : string) : bool :=
  match s with
  | EmptyString => true
  | String c s' => negb (Ascii.eqb c sep) && free_of sep s'
  end.

(** Where a collected record comes from. *)
Definition collected_from (api : compute_api) (zones : list string) (r : pydict) : Prop :=
  ∃ zone disks disk size,
    zone ∈ zones
    ∧ disks_list api zone = Ok disks
    ∧ disk ∈ disks
    ∧ last_segment "/" (d_type disk) = "pd-ssd"
    ∧ py_int (d_sizeGb disk) = Ok size
    ∧ r = disk_record api zone disk "pd-ssd" size.

(** The record of an SSD disk. *)
Definition is_ssd_record (r : pydict) : Prop :=
  r !! "Disk Type" = Some (VStr "pd-ssd").

(** The decoded double of a float value, to tell two of them apart. *)
Definition decode (v : pyval) : spec_float :=
  match v with
  | VFloat f => Prim2SF f
  | _ => S754_nan
  end.

(** ** Example inputs *)

(** A disk record as the collector builds it, unattached. *)
Definition example_disk (name : string) (size : pyval) (zone region : string) : pydict :=
  list_to_map
    [ ("Disk Name", VStr name); ("Disk Type", VStr "pd-ssd");
      ("Disk Size (GB)", size); ("Zone", VStr zone); ("Region", VStr region);
      ("Attached To", VStr "Not attached"); ("Is Boot Disk", VStr "No") ].

Definition disk_3 : pydict := example_disk "d" (VInt 3) "us-west1-a" "us-west1".

Definition disk_15 : pydict := example_disk "d" (VInt 15) "us-west1-a" "us-west1".

Definition disk_of_size (n : Z) : pydict :=
  example_disk "d" (VInt n) "us-west1-a" "us-west1".

(** The record a disk without cost would have. *)
Definition zero_cost_record : pydict :=
  record_of (VStr "d0") (VStr "pd-ssd") (VInt 0) (VStr "us-west1-a") (VStr "us-west1")
    (VStr "Not attached") (VStr "No")
    {| current_cost := 0; balanced_cost := 0; monthly_savings := 0; annual_savings := 0 |}
    0.

(** A project with one zone whose last segment is longer than a letter,
    holding one SSD disk. *)
Definition long_suffix_disk : gcp_disk :=
  {| d_name := "d1";
     d_type := "https://www.googleapis.com/compute/v1/projects/p/zones/us-west1-ai1a/diskTypes/pd-ssd";
     d_sizeGb := "100";
     d_users := None |}.

Definition long_suffix_api : compute_api :=
  {| zones_list := Ok ["us-west1-ai1a"];
     disks_list := fun _ => Ok [long_suffix_disk];
     instances_get := fun _ _ => Raise ApiError |}.

(** A project with an SSD disk and a standard disk in one zone. *)
Definition two_disk_api : compute_api :=
  {| zones_list := Ok ["us-west1-a"; "us-east1-b"];
     disks_list := fun _ =>
       Ok [ {| d_name := "d1"; d_type := "zones/us-west1-a/diskTypes/pd-ssd";
               d_sizeGb := "100"; d_users := None |};
            {| d_name := "d2"; d_type := "zones/us-west1-a/diskTypes/pd-standard";
               d_sizeGb := "10"; d_users := None |} ];
     instances_get := fun _ _ => Raise ApiError |}.

(** A store whose input list names the same dict twice. *)
Definition aliased_store : Store.heap :=
  {[ 1%positive := Store.ODict disk_3; 2%positive := Store.OList [1%positive; 1%positive] ]}.

(** ** Notions for the further properties *)

(** The keys a disk record must have for [calculate_savings], in the order
    in which the loop body first needs them after the costs. *)
Definition copied_keys : list string :=
  ["Disk Name"; "Disk Type"; "Zone"; "Attached To"; "Is Boot Disk"].

(** The keys of a row of the detail table. *)
Definition detail_keys : list string :=
  ["Disk Name"; "Disk Size (GB)"; "Is Boot Disk"; "Attached To"; "Zone"; "Region";
   "Current Monthly Cost (USD)"; "Balanced Monthly Cost (USD)";
   "Monthly Savings (USD)"; "Annual Savings (USD)"; "Savings Percentage"].

(** [z / 100] for an integer number of cents: the quotient of two exactly
    represented doubles, so the double nearest to the decimal value. *)
Definition cents (z : Z) : res float :=
  x ← int_to_float z; Ok (x / 100)%float.

(** For a size of [n] GB under the prices 0.17 and 0.10: the four rounded
    costs are the doubles nearest to 0.17 n, 0.10 n, 0.07 n and 0.84 n, the
    current cost is not zero and the rounded percentage is 41.2. *)
Definition size_exact (n : Z) : bool :=
  match int_to_float n, cents (17 * n), cents (10 * n), cents (7 * n), cents (84 * n) with
  | Ok x, Ok c, Ok b, Ok m, Ok a =>
      let cur := (x * 0.17)%float in
      let bal := (x * 0.10)%float in
      let mon := (cur - bal)%float in
      let ann := (mon * 12)%float in
      Leibniz.eqb (py_round cur 2) c
      && Leibniz.eqb (py_round bal 2) b
      && Leibniz.eqb (py_round mon 2) m
      && Leibniz.eqb (py_round ann 2) a
      && negb (cur =? 0)%float
      && Leibniz.eqb (py_round (mon / cur * 100) 1) 41.2
  | _, _, _, _, _ => false
  end.

(** [size_exact] on the [k] sizes from [n] on. *)
Fixpoint sizes_exact (k : nat) (n : Z) : bool :=
  match k with
  | O => true
  | S k' => size_exact n && sizes_exact k' (n + 1)
  end.

(** The largest size that is checked by evaluation: 16 TB, in GB. *)
Definition checked_disk_gb : Z := 16384.

(** Whether the loop of lines 46-93 keeps the disk. *)
Definition is_ssd (disk : gcp_disk) : bool :=
  String.eqb (last_segment "/" (d_type disk)) "pd-ssd".

(** The size of a disk whose [sizeGb] parses. *)
Definition size_of (disk : gcp_disk) : Z :=
  match py_int (d_sizeGb disk) with
  | Ok z => z
  | Raise _ => 0
  end.

(** The zones the collector visits. *)
Definition us_west1_zones (zones : list string) : list string :=
  List.filter (fun zone => startswith zone "us-west1-") zones.

(** What one zone adds to [disk_data]: lines 41-96 from an empty list. *)
Definition zone_part (api : compute_api) (zone : string) : list pydict :=
  match disks_list api zone with
  | Ok disks => collect_disks api zone disks []
  | Raise _ => []
  end.

(** The records of all SSD disks of a zone, in the order of the listing. *)
Definition zone_records (api : compute_api) (zone : string) (disks : list gcp_disk)
  : list pydict :=
  (fun disk => disk_record api zone disk "pd-ssd" (size_of disk)) <$> List.filter is_ssd disks.

(** The integer at key [k], 0 without one. *)
Definition int_at (k : string) (r : pydict) : Z :=
  int_value (default (VInt 0) (r !! k)).

(** The first key of the list that [disk] lacks. *)
Fixpoint first_missing (keys : list string) (disk : pydict) : option string :=
  match keys with
  | [] => None
  | k :: rest => if bool_decide (is_Some (disk !! k)) then first_missing rest disk else Some k
  end.

(** An SSD disk of zone us-west1-a. *)
Definition ssd_disk (name size : string) (users : option (list string)) : gcp_disk :=
  {| d_name := name;
     d_type := "zones/us-west1-a/diskTypes/pd-ssd";
     d_sizeGb := size;
     d_users := users |}.

(** A project whose first zone lists three SSD disks, the second with a
    size that is no integer, and whose second zone cannot be listed. *)
Definition malformed_api : compute_api :=
  {| zones_list := Ok ["us-west1-a"; "us-west1-b"];
     disks_list := fun zone =>
       if String.eqb zone "us-west1-a"
       then Ok [ssd_disk "d1" "100" None; ssd_disk "d2" "1e3" None; ssd_disk "d3" "50" None]
       else Raise ApiError;
     instances_get := fun _ _ => Raise ApiError |}.

(** A project with the boot disk of one instance and a disk of size 0. *)
Definition boot_disk_api : compute_api :=
  {| zones_list := Ok ["us-west1-a"];
     disks_list := fun _ =>
       Ok [ssd_disk "d1" "100" (Some ["zones/us-west1-a/instances/vm1"; "zones/us-west1-a/instances/vm2"]);
           ssd_disk "d0" "0" None];
     instances_get := fun _ instance =>
       if String.eqb instance "vm1"
       then Ok (Some [ {| ad_source := Some "zones/us-west1-a/disks/d1"; ad_boot := Some true |} ])
       else Raise ApiError |}.

(** The project of [two_disk_api] with other disks outside us-west1. *)
Definition two_disk_api' : compute_api :=
  {| zones_list := Ok ["us-west1-a"; "us-east1-b"];
     disks_list := fun zone =>
       if startswith zone "us-west1-" then disks_list two_disk_api zone
       else Ok [ssd_disk "e1" "7" None];
     instances_get := fun _ _ => Raise ApiError |}.

(** * [gcp_standard_disk_inventory.py] *)
Module Inventory.

(** ** The Compute API, as far as the collector reads it

    An absent field of a response is [None]; reading it with [d['k']]
    raises [KeyError]. *)

Record attached_disk : Type := {
  a_deviceName : option string;
  a_boot : option bool;
  a_source : option string
}.

Record instance : Type := {
  i_name : option string;
  i_disks : option (list attached_disk)
}.

Record disk_info : Type := {
  di_type : option string;
  di_sizeGb : option string
}.

Record compute_api : Type := {
  zones_list : res (list string);
  instances_list : string -> res (list instance);
  disks_get : string -> string -> res disk_info
}.

(** The dict of lines 66-73. *)
Record vm_disk : Type := {
  v_vm_name : string;
  v_boot_disk : string;
  v_disk_name : string;
  v_disk_type : string;
  v_disk_size_gb : Z;
  v_zone : string
}.

(** [d[k]] on a response. *)
Definition field {A : Type} (k : string) (o : option A) : res A :=
  match o with
  | Some v => Ok v
  | None => Raise (KeyError k)
  end.

(** ** [get_vm_disk_data] *)

(** Lines 40-73: one attached disk; the record to append, if any. *)
Definition disk_entry (api : compute_api) (zone vm_name : string) (disk : attached_disk)
  : res (option vm_disk) :=
  disk_name ← field "deviceName" (a_deviceName disk);
  is_boot ← field "boot" (a_boot disk);
  disk_url ← field "source" (a_source disk);
  let disk_name_from_url := last_segment "/" disk_url in
  disk_info ← disks_get api zone disk_name_from_url;
  disk_type_url ← field "type" (di_type disk_info);
  let disk_type := last_segment "/" disk_type_url in
  if String.eqb disk_type "pd-standard" then
    sizeGb ← field "sizeGb" (di_sizeGb disk_info);
    disk_size_gb ← py_int sizeGb;
    Ok (Some {| v_vm_name := vm_name;
                v_boot_disk := if is_boot : bool then "Yes" else "No";
                v_disk_name := disk_name_from_url;
                v_disk_type := disk_type;
                v_disk_size_gb := disk_size_gb;
                v_zone := zone |})
  else Ok None.

(** Lines 39-73: the disks of one instance. The list holds what has been
    appended; an exception leaves the loop with it. *)
Fixpoint collect_disks (api : compute_api) (zone vm_name : string)
    (disks : list attached_disk) (vm_disk_data : list vm_disk)
  : list vm_disk * res unit :=
  match disks with
  | [] => (vm_disk_data, Ok tt)
  | disk :: rest =>
      match disk_entry api zone vm_name disk with
      | Ok (Some r) => collect_disks api zone vm_name rest (vm_disk_data ++ [r])
      | Ok None => collect_disks api zone vm_name rest vm_disk_data
      | Raise e => (vm_disk_data, Raise e)
      end
  end.

(** Lines 35-73: the instances of one zone. *)
Fixpoint collect_instances (api : compute_api) (zone : string)
    (instances : list instance) (vm_disk_data : list vm_disk)
  : list vm_disk * res unit :=
  match instances with
  | [] => (vm_disk_data, Ok tt)
  | inst :: rest =>
      match field "name" (i_name inst) with
      | Ok vm_name =>
          match collect_disks api zone vm_name (default [] (i_disks inst)) vm_disk_data with
          | (vm_disk_data', Ok _) => collect_instances api zone rest vm_disk_data'
          | (vm_disk_data', Raise e) => (vm_disk_data', Raise e)
          end
      | Raise e => (vm_disk_data, Raise e)
      end
  end.

(** Lines 30-76: every zone; the handler of line 75 keeps what the zone
    appended before the exception and goes on with the next zone. *)
Fixpoint collect_zones (api : compute_api) (zones : list string)
    (vm_disk_data : list vm_disk) : list vm_disk :=
  match zones with
  | [] => vm_disk_data
  | zone :: rest =>
      collect_zones api rest
        match instances_list api zone with
        | Ok instances => fst (collect_instances api zone instances vm_disk_data)
        | Raise _ => vm_disk_data
        end
  end.

Definition get_vm_disk_data (api : compute_api) : res (list vm_disk) :=
  zones ← zones_list api;
  Ok (collect_zones api zones []).

(** ** [create_excel_report] *)

(** The cells of the sheet that have a value, by row and column. *)
Definition worksheet : Type := gmap (Z * Z) pyval.

(** [ws.cell(row, column).value] *)
Definition cell_value (ws : worksheet) (row column : Z) : option pyval :=
  ws !! (row, column).

(** [ws.cell(row, column).value = v] *)
Definition set_cell (ws : worksheet) (row column : Z) (v : pyval) : worksheet :=
  <[(row, column) := v]> ws.

(** Lines 102-111 *)
Definition headers : list string :=
  ["VM Name"; "Boot Disk Name"; "Boot Disk Type"; "Boot Disk Size (GB)";
   "Additional Disk Name"; "Additional Disk Type"; "Additional Disk Size (GB)"; "Zone"].

(** Lines 113-118: [enumerate(headers, col_num)]. *)
Fixpoint write_headers (col_num : Z) (hs : list string) (ws : worksheet) : worksheet :=
  match hs with
  | [] => ws
  | header :: rest => write_headers (col_num + 1) rest (set_cell ws 1 col_num (VStr header))
  end.

(** Lines 90-91 *)
Definition boot_disks (data : list vm_disk) : list vm_disk :=
  List.filter (fun r => String.eqb (v_boot_disk r) "Yes") data.

Definition additional_disks (data : list vm_disk) : list vm_disk :=
  List.filter (fun r => String.eqb (v_boot_disk r) "No") data.

(** The sheet and the locals [vm_to_row] and [row_num]. *)
Record sheet_state : Type := {
  ws : worksheet;
  vm_to_row : gmap string Z;
  row_num : Z
}.

(** Lines 130-140 *)
Definition write_boot (st : sheet_state) (boot_row : vm_disk) : sheet_state :=
  let vm_name := v_vm_name boot_row in
  let row := row_num st in
  {| vm_to_row := <[vm_name := row]> (vm_to_row st);
     ws := set_cell (set_cell (set_cell (set_cell (set_cell (ws st)
             row 1 (VStr vm_name))
             row 2 (VStr (v_disk_name boot_row)))
             row 3 (VStr (v_disk_type boot_row)))
             row 4 (VInt (v_disk_size_gb boot_row)))
             row 8 (VStr (v_zone boot_row));
     row_num := row + 1 |}.

(** Lines 153-158 and 167-172: a new row for an additional disk. *)
Definition new_additional_row (sheet : worksheet) (row : Z) (add_row : vm_disk)
  : worksheet :=
  set_cell (set_cell (set_cell (set_cell (set_cell sheet
    row 1 (VStr (v_vm_name add_row)))
    row 5 (VStr (v_disk_name add_row)))
    row 6 (VStr (v_disk_type add_row)))
    row 7 (VInt (v_disk_size_gb add_row)))
    row 8 (VStr (v_zone add_row)).

(** Lines 144-172 *)
Definition write_additional (st : sheet_state) (add_row : vm_disk) : sheet_state :=
  let vm_name := v_vm_name add_row in
  match vm_to_row st !! vm_name with
  | Some row =>
      match cell_value (ws st) row 5 with
      | Some _ =>
          {| vm_to_row := vm_to_row st;
             ws := new_additional_row (ws st) (row_num st) add_row;
             row_num := row_num st + 1 |}
      | None =>
          {| vm_to_row := vm_to_row st;
             ws := set_cell (set_cell (set_cell (ws st)
                     row 5 (VStr (v_disk_name add_row)))
                     row 6 (VStr (v_disk_type add_row)))
                     row 7 (VInt (v_disk_size_gb add_row));
             row_num := row_num st |}
      end
  | None =>
      {| vm_to_row := <[vm_name := row_num st]> (vm_to_row st);
         ws := new_additional_row (ws st) (row_num st) add_row;
         row_num := row_num st + 1 |}
  end.

(** Lines 97-126: the sheet with its header row. *)
Definition empty_sheet : sheet_state :=
  {| ws := write_headers 1 headers ∅; vm_to_row := ∅; row_num := 2 |}.

(** Lines 129-172 *)
Definition merge_rows (data : list vm_disk) : sheet_state :=
  foldl write_additional (foldl write_boot empty_sheet (boot_disks data))
    (additional_disks data).

(** [None] for [return False]; otherwise the sheet that is saved. The
    records are those [get_vm_disk_data] builds: all six keys, strings and
    an [int]. *)
Definition create_excel_report (data : list vm_disk) : option worksheet :=
  match data with
  | [] => None
  | _ => Some (ws (merge_rows data))
  end.

(** ** [main] *)

Definition main (api : compute_api) : res (option worksheet) :=
  vm_disk_data ← get_vm_disk_data api;
  match vm_disk_data with
  | [] => Ok None
  | _ => Ok (create_excel_report vm_disk_data)
  end.

End Inventory.

(** ** Notions for the sheet of the inventory *)

(** What the loops of lines 129-172 keep: [row_num] is the first free row,
    every value is in a row above it, a registered VM points to a row that
    starts with its name, and every data row has a name, a zone and a
    disk. *)
Definition sheet_inv (st : Inventory.sheet_state) : Prop :=
  (2 ≤ Inventory.row_num st)%Z
  ∧ (∀ r c, is_Some (Inventory.cell_value (Inventory.ws st) r c) →
            (1 ≤ r < Inventory.row_num st)%Z)
  ∧ (∀ vm row, Inventory.vm_to_row st !! vm = Some row →
       (2 ≤ row < Inventory.row_num st)%Z
       ∧ Inventory.cell_value (Inventory.ws st) row 1 = Some (VStr vm))
  ∧ (∀ r, (2 ≤ r < Inventory.row_num st)%Z →
       is_Some (Inventory.cell_value (Inventory.ws st) r 1)
       ∧ is_Some (Inventory.cell_value (Inventory.ws st) r 8)
       ∧ (is_Some (Inventory.cell_value (Inventory.ws st) r 2)
          ∨ is_Some (Inventory.cell_value (Inventory.ws st) r 5))).

(** A cell that the loop over the additional disks does not write again. *)
Definition frozen (st : Inventory.sheet_state) (r c : Z) : Prop :=
  (r < Inventory.row_num st)%Z
  ∧ ((c ≠ 5 ∧ c ≠ 6 ∧ c ≠ 7)
     ∨ is_Some (Inventory.cell_value (Inventory.ws st) r 5)).

(** The row in which [write_additional] puts the disk. *)
Definition target (st : Inventory.sheet_state) (add_row : Inventory.vm_disk) : Z :=
  match Inventory.vm_to_row st !! Inventory.v_vm_name add_row with
  | Some row =>
      match Inventory.cell_value (Inventory.ws st) row 5 with
      | Some _ => Inventory.row_num st
      | None => row
      end
  | None => Inventory.row_num st
  end.

(** Row [row] shows the boot disk [b]. *)
Definition boot_placed (w : Inventory.worksheet) (b : Inventory.vm_disk) (row : Z) : Prop :=
  Inventory.cell_value w row 1 = Some (VStr (Inventory.v_vm_name b))
  ∧ Inventory.cell_value w row 2 = Some (VStr (Inventory.v_disk_name b))
  ∧ Inventory.cell_value w row 3 = Some (VStr (Inventory.v_disk_type b))
  ∧ Inventory.cell_value w row 4 = Some (VInt (Inventory.v_disk_size_gb b))
  ∧ Inventory.cell_value w row 8 = Some (VStr (Inventory.v_zone b)).

(** Row [row] shows the additional disk [a]. *)
Definition placed (w : Inventory.worksheet) (a : Inventory.vm_disk) (row : Z) : Prop :=
  Inventory.cell_value w row 1 = Some (VStr (Inventory.v_vm_name a))
  ∧ Inventory.cell_value w row 5 = Some (VStr (Inventory.v_disk_name a))
  ∧ Inventory.cell_value w row 6 = Some (VStr (Inventory.v_disk_type a))
  ∧ Inventory.cell_value w row 7 = Some (VInt (Inventory.v_disk_size_gb a)).

(** ** Example inputs of the inventory *)

(** A VM with a boot disk and two additional disks, and a VM of another
    zone with an additional disk only. *)
Definition example_inventory : list Inventory.vm_disk :=
  [ {| Inventory.v_vm_name := "vm1"; Inventory.v_boot_disk := "No";
       Inventory.v_disk_name := "data1"; Inventory.v_disk_type := "pd-standard";
       Inventory.v_disk_size_gb := 200; Inventory.v_zone := "us-west1-a" |};
    {| Inventory.v_vm_name := "vm1"; Inventory.v_boot_disk := "Yes";
       Inventory.v_disk_name := "boot1"; Inventory.v_disk_type := "pd-standard";
       Inventory.v_disk_size_gb := 50; Inventory.v_zone := "us-west1-a" |};
    {| Inventory.v_vm_name := "vm1"; Inventory.v_boot_disk := "No";
       Inventory.v_disk_name := "data2"; Inventory.v_disk_type := "pd-standard";
       Inventory.v_disk_size_gb := 300; Inventory.v_zone := "us-west1-a" |};
    {| Inventory.v_vm_name := "vm2"; Inventory.v_boot_disk := "No";
       Inventory.v_disk_name := "data3"; Inventory.v_disk_type := "pd-standard";
       Inventory.v_disk_size_gb := 10; Inventory.v_zone := "us-east1-b" |} ].

(** What one zone adds to [vm_disk_data]: lines 31-76 from an empty list. *)
Definition inventory_zone_part (api : Inventory.compute_api) (zone : string)
  : list Inventory.vm_disk :=
  match Inventory.instances_list api zone with
  | Ok instances => fst (Inventory.collect_instances api zone instances [])
  | Raise _ => []
  end.

(** The record comes from an attached disk of a listed instance of its
    zone. *)
Definition listed_disk (api : Inventory.compute_api) (r : Inventory.vm_disk) : Prop :=
  ∃ instances inst disk,
    Inventory.instances_list api (Inventory.v_zone r) = Ok instances
    ∧ inst ∈ instances
    ∧ Inventory.i_name inst = Some (Inventory.v_vm_name r)
    ∧ disk ∈ default [] (Inventory.i_disks inst)
    ∧ Inventory.disk_entry api (Inventory.v_zone r) (Inventory.v_vm_name r) disk
      = Ok (Some r).

(** The sheet shows the record in some data row, as a boot disk or as an
    additional disk. *)
Definition shown (w : Inventory.worksheet) (r : Inventory.vm_disk) : Prop :=
  ∃ row : Z,
    (2 ≤ row)%Z
    ∧ Inventory.cell_value w row 1 = Some (VStr (Inventory.v_vm_name r))
    ∧ ((Inventory.cell_value w row 2 = Some (VStr (Inventory.v_disk_name r))
        ∧ Inventory.cell_value w row 3 = Some (VStr (Inventory.v_disk_type r))
        ∧ Inventory.cell_value w row 4 = Some (VInt (Inventory.v_disk_size_gb r)))
       ∨ (Inventory.cell_value w row 5 = Some (VStr (Inventory.v_disk_name r))
          ∧ Inventory.cell_value w row 6 = Some (VStr (Inventory.v_disk_type r))
          ∧ Inventory.cell_value w row 7 = Some (VInt (Inventory.v_disk_size_gb r)))).

(** A standard disk of 50 GB, whatever the name. *)
Definition standard_50 : Inventory.disk_info :=
  {| Inventory.di_type := Some "zones/us-west1-a/diskTypes/pd-standard";
     Inventory.di_sizeGb := Some "50" |}.

(** An attached disk with all its fields. *)
Definition vm_attached_disk (name : string) (boot : bool) : Inventory.attached_disk :=
  {| Inventory.a_deviceName := Some name;
     Inventory.a_boot := Some boot;
     Inventory.a_source := Some ("zones/us-west1-a/disks/" ++ name) |}.

(** A project with two instances in its first zone: the second disk of the
    first instance cannot be read; the second zone cannot be listed. *)
Definition inventory_api : Inventory.compute_api :=
  {| Inventory.zones_list := Ok ["us-west1-a"; "us-west1-b"];
     Inventory.instances_list := fun zone =>
       if String.eqb zone "us-west1-a"
       then Ok [ {| Inventory.i_name := Some "vm1";
                    Inventory.i_disks := Some [vm_attached_disk "boot1" true; vm_attached_disk "gone" false;
                                               vm_attached_disk "data1" false] |};
                 {| Inventory.i_name := Some "vm2";
                    Inventory.i_disks := Some [vm_attached_disk "boot2" true] |} ]
       else Raise ApiError;
     Inventory.disks_get := fun _ disk =>
       if String.eqb disk "gone" then Raise ApiError else Ok standard_50 |}.

(** The record of the boot disk of vm1. *)
Definition boot1_record : Inventory.vm_disk :=
  {| Inventory.v_vm_name := "vm1"; Inventory.v_boot_disk := "Yes";
     Inventory.v_disk_name := "boot1"; Inventory.v_disk_type := "pd-standard";
     Inventory.v_disk_size_gb := 50; Inventory.v_zone := "us-west1-a" |}.

(** * [new_report.py]: the read step *)
Module Conversion.






End Conversion.


(** * Properties *)

(** ** The exception monad *)

Lemma bind_Ok {A B : Type} (m : res A) (f : A -> res B) (b : B) :
  m ≫= f = Ok b ↔ ∃ a, m = Ok a ∧ f a = Ok b.
Proof.
  destruct m as [a|e]; simpl; split.
  - intros H. exists a. auto.
  - intros (a' & Ha & H). congruence.
  - discriminate.
  - intros (a' & Ha & _). discriminate.
Qed.

Lemma bind_Raise_l {A B : Type} (f : A -> res B) (e : exn) : Raise e ≫= f = Raise e.
Proof. reflexivity. Qed.

Lemma getitem_Ok {V : Type} (d : gmap string V) (k : string) (v : V) :
  getitem d k = Ok v ↔ d !! k = Some v.
Proof. unfold getitem. destruct (d !! k); split; congruence. Qed.

Lemma getitem_Some {V : Type} (d : gmap string V) (k : string) (v : V) :
  d !! k = Some v → getitem d k = Ok v.
Proof. apply getitem_Ok. Qed.

(** Splits a hypothesis [m ≫= f = Ok b] into its steps. *)
Ltac bind_inv H :=
  repeat match type of H with
         | _ ≫= _ = Ok _ =>
             let a := fresh "a" in
             let Ha := fresh "Ha" in
             apply bind_Ok in H; destruct H as (a & Ha & H)
         end.

(** Two doubles differ: compare their decoded forms. *)
Ltac float_neq :=
  let H := fresh in
  intros H; apply (f_equal Prim2SF) in H; vm_compute in H; discriminate H.

(** ** The number and string primitives on known values *)

(** [round(0.125, 2) == 0.12] (a tie, to even), [round(2.675, 2) == 2.67]
    (the double is below the tie), [round(-0.001, 2) == -0.0]; numpy's
    scalar gives 2.68 for the second. *)
Example py_round_values :
  py_round 0.125 2 = 0.12%float
  ∧ py_round 2.675 2 = 2.67%float
  ∧ py_round (-0.001) 2 = (-0)%float
  ∧ py_round 41.17647058823529 1 = 41.2%float
  ∧ np_round 2.675 2 = 2.68%float
  ∧ np_round 41.17647058823529 1 = 41.2%float.
Proof. repeat split; vm_compute; reflexivity. Qed.

(** [0.17 - 0.1 == 0.07] holds for doubles, [0.51 - 0.3 == 0.21] does not. *)
Example float_sub_values :
  (0.17 - 0.1 = 0.07)%float ∧ (0.51 - 0.3)%float ≠ 0.21%float.
Proof. split; [vm_compute; reflexivity|float_neq]. Qed.

Example int_to_float_values :
  int_to_float 100 = Ok 100%float
  ∧ int_to_float (2 ^ 53 + 1) = Ok 9007199254740992%float
  ∧ int_to_float (10 ^ 400) = Raise OverflowError.
Proof. repeat split; vm_compute; reflexivity. Qed.

Example py_int_values :
  py_int "100" = Ok 100
  ∧ py_int " +1_000 " = Ok 1000
  ∧ py_int "-5" = Ok (-5)
  ∧ py_int "1__0" = Raise ValueError
  ∧ py_int "" = Raise ValueError
  ∧ py_int "12a" = Raise ValueError.
Proof. repeat split; reflexivity. Qed.

(** White space around the digits: a tab and U+00A0 are skipped, the unit
    separator (31) is not. *)
Example py_int_white_space :
  py_int (String (ascii_of_nat 9) "7") = Ok 7
  ∧ py_int (String (ascii_of_nat 160) "7") = Ok 7
  ∧ py_int (String (ascii_of_nat 31) "7") = Raise ValueError.
Proof. repeat split; reflexivity. Qed.

Example string_values :
  split_on "-" "us-west1-a" = ["us"; "west1"; "a"]
  ∧ split_on "-" "a-b-" = ["a"; "b"; ""]
  ∧ split_on "-" "" = [""]
  ∧ last_segment "/" "zones/us-west1-a/diskTypes/pd-ssd" = "pd-ssd"
  ∧ slice_until "us-west1-a" (-2) = "us-west1"
  ∧ slice_until "a" (-2) = ""
  ∧ endswith "projects/p/disks/d1" "d1" = true
  ∧ startswith "us-west1-a" "us-west1-" = true.
Proof. repeat split; reflexivity. Qed.

(** ** The price table *)

Lemma DISK_PRICES_default : DISK_PRICES !! "default" = Some standard_prices.
Proof. reflexivity. Qed.

Lemma DISK_PRICES_lookup (region : string) (entry : gmap string float) :
  DISK_PRICES !! region = Some entry → entry = standard_prices.
Proof.
  unfold DISK_PRICES. intros H.
  apply lookup_insert_Some in H as [[_ <-]|[_ H]]; [reflexivity|].
  apply lookup_singleton_Some in H as [_ <-]. reflexivity.
Qed.

Lemma DISK_PRICES_get (region : pyval) :
  dict_get DISK_PRICES region standard_prices = standard_prices.
Proof.
  destruct region as [r| |]; simpl; try reflexivity.
  destruct (DISK_PRICES !! r) eqn:E; simpl; [|reflexivity].
  eapply DISK_PRICES_lookup, E.
Qed.

(** With the module's table every region pays the same two prices. *)
Lemma disk_costs_DISK_PRICES (disk : pydict) (region size_gb : pyval) :
  disk !! "Region" = Some region →
  disk !! "Disk Size (GB)" = Some size_gb →
  disk_costs DISK_PRICES disk =
    (size ← as_float size_gb;
     Ok {| current_cost := size * 0.17;
           balanced_cost := size * 0.10;
           monthly_savings := size * 0.17 - size * 0.10;
           annual_savings := (size * 0.17 - size * 0.10) * 12 |}%float).
Proof.
  intros Hr Hs. unfold disk_costs.
  rewrite (getitem_Some _ _ _ Hr), (getitem_Some _ _ _ Hs). simpl.
  rewrite (getitem_Some _ _ _ DISK_PRICES_default). simpl.
  rewrite DISK_PRICES_get.
  destruct (as_float size_gb); reflexivity.
Qed.

(** ** The loop body, step by step *)

Lemma bind_Ok_l {A B : Type} (a : A) (f : A -> res B) : Ok a ≫= f = f a.
Proof. reflexivity. Qed.

(** Lookups in a dict display: by the keys, without computing the values. *)
Ltac lookup_literal :=
  rewrite ?list_to_map_cons;
  repeat first [ rewrite lookup_insert_eq
               | rewrite lookup_insert_ne by discriminate ];
  rewrite ?lookup_empty.

Lemma savings_record_Ok (prices : price_table) (disk : pydict)
    (name type size_gb zone region attached boot : pyval) (c : costs) (ratio : float) :
  disk !! "Disk Name" = Some name →
  disk !! "Disk Type" = Some type →
  disk !! "Disk Size (GB)" = Some size_gb →
  disk !! "Zone" = Some zone →
  disk !! "Region" = Some region →
  disk !! "Attached To" = Some attached →
  disk !! "Is Boot Disk" = Some boot →
  disk_costs prices disk = Ok c →
  float_truediv (monthly_savings c) (current_cost c) = Ok ratio →
  savings_record prices disk
  = Ok (record_of name type size_gb zone region attached boot c ratio).
Proof.
  intros Hn Ht Hs Hz Hr Ha Hb Hc Hq. unfold savings_record.
  rewrite Hc, bind_Ok_l.
  rewrite (getitem_Some _ _ _ Hr), bind_Ok_l, (getitem_Some _ _ _ Hs), bind_Ok_l,
    (getitem_Some _ _ _ Hn), bind_Ok_l, (getitem_Some _ _ _ Ht), bind_Ok_l,
    (getitem_Some _ _ _ Hz), bind_Ok_l, (getitem_Some _ _ _ Ha), bind_Ok_l,
    (getitem_Some _ _ _ Hb), bind_Ok_l, Hq, bind_Ok_l.
  reflexivity.
Qed.

(** Conversely a record that was built comes from local variables. *)
Lemma savings_record_inv (prices : price_table) (disk r : pydict) :
  savings_record prices disk = Ok r →
  ∃ name type size_gb zone region attached boot c ratio,
    disk !! "Disk Name" = Some name
    ∧ disk !! "Disk Type" = Some type
    ∧ disk !! "Disk Size (GB)" = Some size_gb
    ∧ disk !! "Zone" = Some zone
    ∧ disk !! "Region" = Some region
    ∧ disk !! "Attached To" = Some attached
    ∧ disk !! "Is Boot Disk" = Some boot
    ∧ disk_costs prices disk = Ok c
    ∧ float_truediv (monthly_savings c) (current_cost c) = Ok ratio
    ∧ r = record_of name type size_gb zone region attached boot c ratio.
Proof.
  unfold savings_record. intros H.
  apply bind_Ok in H as (c & Hc & H).
  apply bind_Ok in H as (region & Hr & H).
  apply bind_Ok in H as (size_gb & Hs & H).
  apply bind_Ok in H as (name & Hn & H).
  apply bind_Ok in H as (type & Ht & H).
  apply bind_Ok in H as (zone & Hz & H).
  apply bind_Ok in H as (attached & Ha & H).
  apply bind_Ok in H as (boot & Hb & H).
  apply bind_Ok in H as (ratio & Hq & H).
  injection H as <-.
  apply getitem_Ok in Hr, Hs, Hn, Ht, Hz, Ha, Hb.
  exists name, type, size_gb, zone, region, attached, boot, c, ratio.
  repeat split; assumption.
Qed.

Lemma record_of_lookup (name type size_gb zone region attached boot : pyval)
    (c : costs) (ratio : float) :
  let r := record_of name type size_gb zone region attached boot c ratio in
  r !! "Disk Name" = Some name
  ∧ r !! "Disk Type" = Some type
  ∧ r !! "Disk Size (GB)" = Some size_gb
  ∧ r !! "Zone" = Some zone
  ∧ r !! "Region" = Some region
  ∧ r !! "Attached To" = Some attached
  ∧ r !! "Is Boot Disk" = Some boot
  ∧ r !! "Current Monthly Cost (USD)" = Some (VFloat (py_round (current_cost c) 2))
  ∧ r !! "Balanced Monthly Cost (USD)" = Some (VFloat (py_round (balanced_cost c) 2))
  ∧ r !! "Monthly Savings (USD)" = Some (VFloat (py_round (monthly_savings c) 2))
  ∧ r !! "Annual Savings (USD)" = Some (VFloat (py_round (annual_savings c) 2))
  ∧ r !! "Savings Percentage" = Some (VFloat (py_round (ratio * 100) 1)).
Proof.
  intros r. unfold r, record_of.
  repeat split; lookup_literal; reflexivity.
Qed.

Lemma example_disk_lookup (name : string) (size : pyval) (zone region : string) :
  let d := example_disk name size zone region in
  d !! "Disk Name" = Some (VStr name)
  ∧ d !! "Disk Type" = Some (VStr "pd-ssd")
  ∧ d !! "Disk Size (GB)" = Some size
  ∧ d !! "Zone" = Some (VStr zone)
  ∧ d !! "Region" = Some (VStr region)
  ∧ d !! "Attached To" = Some (VStr "Not attached")
  ∧ d !! "Is Boot Disk" = Some (VStr "No").
Proof.
  intros d. unfold d, example_disk.
  repeat split; lookup_literal; reflexivity.
Qed.

(** The record of an example disk under the module's prices. *)
Lemma example_disk_record (name : string) (size_gb : pyval) (zone region : string)
    (size ratio : float) :
  as_float size_gb = Ok size →
  float_truediv (size * 0.17 - size * 0.10) (size * 0.17) = Ok ratio →
  savings_record DISK_PRICES (example_disk name size_gb zone region)
  = Ok (record_of (VStr name) (VStr "pd-ssd") size_gb (VStr zone) (VStr region)
          (VStr "Not attached") (VStr "No")
          {| current_cost := size * 0.17;
             balanced_cost := size * 0.10;
             monthly_savings := size * 0.17 - size * 0.10;
             annual_savings := (size * 0.17 - size * 0.10) * 12 |}%float
          ratio).
Proof.
  intros Hf Hq.
  destruct (example_disk_lookup name size_gb zone region)
    as (Hn & Ht & Hs & Hz & Hr & Ha & Hb).
  eapply savings_record_Ok; try eassumption.
  rewrite (disk_costs_DISK_PRICES _ _ _ Hr Hs), Hf. reflexivity.
Qed.

(** ** Columns and their sums *)

Lemma calculate_savings_with_Forall2 (prices : price_table)
    (disk_data savings_data : list pydict) :
  calculate_savings_with prices disk_data = Ok savings_data ↔
  Forall2 (fun disk r => savings_record prices disk = Ok r) disk_data savings_data.
Proof.
  revert savings_data. induction disk_data as [|disk rest IH]; intros savings_data; simpl.
  - split.
    + intros [= <-]. constructor.
    + intros H. inversion H. reflexivity.
  - split.
    + intros H. apply bind_Ok in H as (r & Hr & H).
      apply bind_Ok in H as (rs & Hrs & H). injection H as <-.
      constructor; [assumption|]. apply IH, Hrs.
    + intros H. inversion H as [|? r ? rs Hr Hrs]; subst.
      apply IH in Hrs. rewrite Hr, bind_Ok_l, Hrs, bind_Ok_l. reflexivity.
Qed.

(** A column whose every record holds a float, and its sum. *)
Lemma column_floats (k : string) (data : list pydict) (xs : list float) :
  data ≠ [] →
  Forall2 (fun (r : pydict) x => r !! k = Some (VFloat x)) data xs →
  column k data = Ok (VFloat <$> xs).
Proof.
  intros Hne H. unfold column.
  assert (existsb (fun d : pydict => bool_decide (is_Some (d !! k))) data = true) as ->.
  { destruct H as [|r x data' xs' Hr _]; [congruence|]. simpl.
    rewrite bool_decide_eq_true_2 by (rewrite Hr; eauto). reflexivity. }
  f_equal. clear Hne. induction H as [|r x data' xs' Hr _ IH]; [reflexivity|].
  rewrite !fmap_cons, Hr, IH. reflexivity.
Qed.

Lemma floats_of_VFloat (xs : list float) : floats_of (VFloat <$> xs) = Ok xs.
Proof.
  induction xs as [|x xs IH]; [reflexivity|].
  rewrite fmap_cons. simpl. rewrite IH. reflexivity.
Qed.

Lemma series_sum_floats (xs : list float) :
  xs ≠ [] → series_sum (VFloat <$> xs) = Ok (VFloat (nansum xs)).
Proof.
  intros Hne. unfold series_sum.
  destruct xs as [|x xs]; [congruence|].
  rewrite fmap_cons.
  assert (forallb is_num (VFloat <$> xs) = true) as Hnum.
  { clear. induction xs as [|y xs IH]; [reflexivity|]. rewrite fmap_cons. exact IH. }
  cbn [forallb is_int is_num is_str negb andb].
  rewrite Hnum, <- fmap_cons, floats_of_VFloat. reflexivity.
Qed.

Lemma column_sum_floats (k : string) (data : list pydict) (xs : list float) :
  data ≠ [] →
  Forall2 (fun (r : pydict) x => r !! k = Some (VFloat x)) data xs →
  column_sum k data = Ok (VFloat (nansum xs)).
Proof.
  intros Hne H. unfold column_sum.
  rewrite (column_floats _ _ _ Hne H), bind_Ok_l.
  apply series_sum_floats. intros ->. inversion H. congruence.
Qed.

(** A column whose every record holds an int. *)
Lemma column_sum_ints (k : string) (data : list pydict) (zs : list Z) :
  data ≠ [] →
  Forall2 (fun (r : pydict) z => r !! k = Some (VInt z)) data zs →
  column_sum k data = Ok (VInt (foldr Z.add 0 zs)).
Proof.
  intros Hne H. unfold column_sum, column.
  assert (existsb (fun d : pydict => bool_decide (is_Some (d !! k))) data = true) as ->.
  { destruct H as [|r x data' xs' Hr _]; [congruence|]. simpl.
    rewrite bool_decide_eq_true_2 by (rewrite Hr; eauto). reflexivity. }
  rewrite bind_Ok_l. unfold series_sum.
  assert ((fun d : pydict => default (VFloat nan) (d !! k)) <$> data = VInt <$> zs) as ->.
  { clear Hne. induction H as [|r x data' xs' Hr _ IH]; [reflexivity|].
    rewrite !fmap_cons, Hr, IH. reflexivity. }
  assert (forallb is_int (VInt <$> zs) = true) as ->.
  { clear. induction zs as [|y zs IH]; [reflexivity|]. rewrite fmap_cons. exact IH. }
  do 3 f_equal. clear. induction zs as [|y zs IH]; [reflexivity|].
  rewrite !fmap_cons, IH. reflexivity.
Qed.

(** The totals of records whose four money fields hold floats. *)
Lemma report_totals_floats (data : list pydict) (ms ans cs bs : list float) (ts : pyval) :
  data ≠ [] →
  Forall2 (fun (r : pydict) x => r !! "Monthly Savings (USD)" = Some (VFloat x)) data ms →
  Forall2 (fun (r : pydict) x => r !! "Annual Savings (USD)" = Some (VFloat x)) data ans →
  Forall2 (fun (r : pydict) x => r !! "Current Monthly Cost (USD)" = Some (VFloat x)) data cs →
  Forall2 (fun (r : pydict) x => r !! "Balanced Monthly Cost (USD)" = Some (VFloat x)) data bs →
  column_sum "Disk Size (GB)" data = Ok ts →
  report_totals data
  = Ok {| total_monthly_savings := VFloat (nansum ms);
          total_annual_savings := VFloat (nansum ans);
          total_current_cost := VFloat (nansum cs);
          total_balanced_cost := VFloat (nansum bs);
          total_disk_size := ts;
          avg_savings_pct :=
            if (0 <? nansum cs)%float
            then VFloat (nansum ms / nansum cs * 100)
            else VInt 0 |}.
Proof.
  intros Hne Hm Ha Hc Hb Hs. unfold report_totals.
  rewrite (column_sum_floats _ _ _ Hne Hm), bind_Ok_l,
    (column_sum_floats _ _ _ Hne Ha), bind_Ok_l,
    (column_sum_floats _ _ _ Hne Hc), bind_Ok_l,
    (column_sum_floats _ _ _ Hne Hb), bind_Ok_l, Hs, bind_Ok_l.
  unfold gt_zero. rewrite bind_Ok_l.
  destruct (0 <? nansum cs)%float; reflexivity.
Qed.

Lemma report_totals_nonempty (data : list pydict) (t : totals) :
  report_totals data = Ok t → data ≠ [].
Proof. intros H ->. discriminate H. Qed.

(** What "Calculate totals" computes, read off its result. *)
Lemma report_totals_inv (data : list pydict) (t : totals) :
  report_totals data = Ok t →
  column_sum "Monthly Savings (USD)" data = Ok (total_monthly_savings t)
  ∧ column_sum "Annual Savings (USD)" data = Ok (total_annual_savings t)
  ∧ column_sum "Current Monthly Cost (USD)" data = Ok (total_current_cost t)
  ∧ column_sum "Balanced Monthly Cost (USD)" data = Ok (total_balanced_cost t)
  ∧ column_sum "Disk Size (GB)" data = Ok (total_disk_size t)
  ∧ ∃ positive_cost : bool,
      gt_zero (total_current_cost t) = Ok positive_cost
      ∧ if positive_cost
        then ∃ q, np_truediv (total_monthly_savings t) (total_current_cost t) = Ok q
                  ∧ avg_savings_pct t = VFloat (q * 100)
        else avg_savings_pct t = VInt 0.
Proof.
  unfold report_totals. intros H.
  apply bind_Ok in H as (tm & Hm & H).
  apply bind_Ok in H as (ta & Ha & H).
  apply bind_Ok in H as (tc & Hc & H).
  apply bind_Ok in H as (tb & Hb & H).
  apply bind_Ok in H as (ts & Hs & H).
  apply bind_Ok in H as (positive_cost & Hp & H).
  apply bind_Ok in H as (avg & Havg & H).
  injection H as <-. simpl.
  repeat (split; [assumption|]).
  exists positive_cost. split; [assumption|].
  destruct positive_cost.
  - apply bind_Ok in Havg as (q & Hq & Havg). injection Havg as <-. eauto.
  - injection Havg as <-. reflexivity.
Qed.

(** The records of a successful call, with the local variables they were
    built from. *)
Lemma calculate_savings_with_costs (prices : price_table)
    (disk_data savings_data : list pydict) :
  calculate_savings_with prices disk_data = Ok savings_data →
  ∃ cs : list costs,
    Forall2 (fun disk c => disk_costs prices disk = Ok c) disk_data cs
    ∧ Forall2 (fun (r : pydict) c =>
        r !! "Current Monthly Cost (USD)" = Some (VFloat (py_round (current_cost c) 2))
        ∧ r !! "Balanced Monthly Cost (USD)" = Some (VFloat (py_round (balanced_cost c) 2))
        ∧ r !! "Monthly Savings (USD)" = Some (VFloat (py_round (monthly_savings c) 2))
        ∧ r !! "Annual Savings (USD)" = Some (VFloat (py_round (annual_savings c) 2)))
        savings_data cs.
Proof.
  intros H. apply calculate_savings_with_Forall2 in H.
  induction H as [|disk r disk_data savings_data Hr _ (cs & Hcs & Hfs)].
  - exists []. split; constructor.
  - apply savings_record_inv in Hr
      as (name & type & size_gb & zone & region & attached & boot & c & ratio
          & _ & _ & _ & _ & _ & _ & _ & Hc & _ & ->).
    exists (c :: cs). split; constructor; try assumption.
    destruct (record_of_lookup name type size_gb zone region attached boot c ratio)
      as (_ & _ & _ & _ & _ & _ & _ & Fc & Fb & Fm & Fa & _).
    repeat split; assumption.
Qed.

(** Two float values differ. *)
Ltac vfloat_neq :=
  let H := fresh in
  intros H; apply (f_equal decode) in H; vm_compute in H; discriminate H.

(** Evaluates [calculate_savings] on a list of example disks. *)
Ltac calculate_examples :=
  unfold calculate_savings; cbn [calculate_savings_with];
  repeat (erewrite example_disk_record;
          [rewrite bind_Ok_l | vm_compute; reflexivity | vm_compute; reflexivity]);
  rewrite ?bind_Ok_l.

(** Evaluates [report_totals] on records given as [record_of]. *)
Ltac totals_of_records :=
  erewrite report_totals_floats;
  [ reflexivity
  | discriminate
  | repeat econstructor; unfold record_of; lookup_literal; reflexivity ..
  | erewrite column_sum_ints;
    [ reflexivity
    | discriminate
    | repeat econstructor; unfold record_of; lookup_literal; reflexivity ] ].

(** ** Example runs *)

(** One 3 GB disk, through [calculate_savings] and the totals. *)
Lemma disk_3_totals :
  ∃ savings_data t c,
    calculate_savings [disk_3] = Ok savings_data
    ∧ report_totals savings_data = Ok t
    ∧ disk_costs DISK_PRICES disk_3 = Ok c
    ∧ monthly_savings c = 0.20999999999999996%float
    ∧ total_monthly_savings t = VFloat 0.21
    ∧ total_current_cost t = VFloat 0.51.
Proof.
  eexists _, _, _. split; [unfold disk_3; calculate_examples; reflexivity|].
  split; [totals_of_records|].
  split.
  { unfold disk_3.
    destruct (example_disk_lookup "d" (VInt 3) "us-west1-a" "us-west1")
      as (_ & _ & Hs & _ & Hr & _).
    rewrite (disk_costs_DISK_PRICES _ _ _ Hr Hs). reflexivity. }
  cbn [monthly_savings total_monthly_savings total_current_cost].
  repeat split; vm_compute; reflexivity.
Qed.

(** ** Strings *)

Lemma split_on_nonempty (sep : ascii) (s : string) : split_on sep s ≠ [].
Proof.
  destruct s as [|c s]; simpl; [discriminate|].
  destruct (Ascii.eqb c sep); [discriminate|].
  destruct (split_on sep s); discriminate.
Qed.

Lemma split_on_free (sep : ascii) (s : string) :
  free_of sep s = true → split_on sep s = [s].
Proof.
  induction s as [|c s IH]; simpl; [reflexivity|].
  intros [Hc Hs]%andb_true_iff. apply negb_true_iff in Hc.
  rewrite Hc, (IH Hs). reflexivity.
Qed.

Lemma split_on_app (sep : ascii) (s1 s2 : string) :
  split_on sep (s1 ++ String sep s2) = (split_on sep s1 ++ split_on sep s2)%list.
Proof.
  induction s1 as [|c s1 IH]; simpl.
  - rewrite Ascii.eqb_refl. reflexivity.
  - destruct (Ascii.eqb c sep); rewrite IH; [reflexivity|].
    destruct (split_on sep s1) as [|seg segs] eqn:E; [|reflexivity].
    destruct (split_on_nonempty _ _ E).
Qed.

Lemma join_cons_char (sep c : ascii) (seg : string) (segs : list string) :
  join sep (String c seg :: segs) = String c (join sep (seg :: segs)).
Proof. destruct segs; reflexivity. Qed.

Lemma join_split_on (sep : ascii) (s : string) : join sep (split_on sep s) = s.
Proof.
  induction s as [|c s IH]; simpl; [reflexivity|].
  destruct (Ascii.eqb_spec c sep) as [->|Hne].
  - destruct (split_on sep s) as [|seg segs] eqn:E;
      [destruct (split_on_nonempty _ _ E)|].
    simpl in *. rewrite IH. reflexivity.
  - destruct (split_on sep s) as [|seg segs] eqn:E;
      [destruct (split_on_nonempty _ _ E)|].
    rewrite join_cons_char, IH. reflexivity.
Qed.

Lemma length_app_string (s1 s2 : string) :
  String.length (s1 ++ s2) = (String.length s1 + String.length s2)%nat.
Proof. induction s1 as [|c s1 IH]; simpl; [reflexivity|]. rewrite IH. reflexivity. Qed.

Lemma substring_app_prefix (s1 s2 : string) :
  substring 0 (String.length s1) (s1 ++ s2) = s1.
Proof.
  induction s1 as [|c s1 IH]; simpl.
  - destruct s2; reflexivity.
  - rewrite IH. reflexivity.
Qed.

(** Dropping the last segment of [pre-seg]. *)
Lemma drop_last_segment_app (pre seg : string) :
  free_of "-" seg = true → drop_last_segment (pre ++ String "-" seg) = pre.
Proof.
  intros H. unfold drop_last_segment.
  rewrite split_on_app, (split_on_free _ _ H), removelast_last.
  apply join_split_on.
Qed.

(** [zone[:-2]] drops a hyphen and one character. *)
Lemma region_of_zone_app (pre : string) (a b : ascii) :
  region_of_zone (pre ++ String a (String b EmptyString)) = pre.
Proof.
  unfold region_of_zone, slice_until.
  rewrite length_app_string. cbn [String.length Z.ltb Z.compare].
  replace (Z.to_nat (Z.max 0 (Z.of_nat (String.length pre + 2) + -2)))
    with (String.length pre) by lia.
  apply substring_app_prefix.
Qed.

(** ** The collector's records *)

Lemma disk_record_lookup (api : compute_api) (zone : string) (disk : gcp_disk)
    (disk_type : string) (disk_size_gb : Z) :
  let r := disk_record api zone disk disk_type disk_size_gb in
  r !! "Disk Name" = Some (VStr (d_name disk))
  ∧ r !! "Disk Type" = Some (VStr disk_type)
  ∧ r !! "Disk Size (GB)" = Some (VInt disk_size_gb)
  ∧ r !! "Zone" = Some (VStr zone)
  ∧ r !! "Region" = Some (VStr (region_of_zone zone)).
Proof.
  intros r. unfold r, disk_record. destruct (attachment api zone disk) as [attached_to is_boot].
  repeat split; lookup_literal; reflexivity.
Qed.

Lemma collect_disks_inv (api : compute_api) (zone : string) (P : pydict → Prop)
    (disks : list gcp_disk) (disk_data : list pydict) :
  Forall P disk_data →
  (∀ disk size, disk ∈ disks → last_segment "/" (d_type disk) = "pd-ssd" →
                py_int (d_sizeGb disk) = Ok size →
                P (disk_record api zone disk "pd-ssd" size)) →
  Forall P (collect_disks api zone disks disk_data).
Proof.
  revert disk_data. induction disks as [|disk rest IH]; intros disk_data Hacc Hnew; simpl.
  - exact Hacc.
  - destruct (String.eqb_spec (last_segment "/" (d_type disk)) "pd-ssd") as [E|_].
    + destruct (py_int (d_sizeGb disk)) as [size|] eqn:Hsize; [|exact Hacc].
      apply IH.
      * apply Forall_app. split; [exact Hacc|]. constructor; [|constructor].
        rewrite E. apply Hnew; [left|exact E|exact Hsize].
      * intros d s Hd. apply Hnew. right. exact Hd.
    + apply IH; [exact Hacc|]. intros d s Hd. apply Hnew. right. exact Hd.
Qed.

Lemma collect_zones_inv (api : compute_api) (P : pydict → Prop)
    (zones : list string) (disk_data : list pydict) :
  Forall P disk_data →
  (∀ zone disks disk size, zone ∈ zones → disks_list api zone = Ok disks →
      disk ∈ disks → last_segment "/" (d_type disk) = "pd-ssd" →
      py_int (d_sizeGb disk) = Ok size →
      P (disk_record api zone disk "pd-ssd" size)) →
  Forall P (collect_zones api zones disk_data).
Proof.
  revert disk_data. induction zones as [|zone rest IH]; intros disk_data Hacc Hnew; simpl.
  - exact Hacc.
  - apply IH.
    + destruct (disks_list api zone) as [disks|] eqn:Hd; [|exact Hacc].
      apply collect_disks_inv; [exact Hacc|].
      intros disk size Hin. apply (Hnew zone disks); [left|exact Hd|exact Hin].
    + intros z ds d s Hz. apply Hnew. right. exact Hz.
Qed.

Lemma get_ssd_disk_data_collected (api : compute_api) (disk_data : list pydict) :
  get_ssd_disk_data api = Ok disk_data →
  ∃ zones, zones_list api = Ok zones
    ∧ Forall (collected_from api
                (List.filter (fun zone => startswith zone "us-west1-") zones)) disk_data.
Proof.
  unfold get_ssd_disk_data. intros H.
  apply bind_Ok in H as (zones & Hz & H). injection H as <-.
  exists zones. split; [exact Hz|].
  apply collect_zones_inv; [constructor|].
  intros zone disks disk size Hzone Hd Hin Ht Hs.
  exists zone, disks, disk, size. repeat split; assumption.
Qed.

(** ** C1: a disk of size zero *)

(** C1 (the code does not do this). For a disk whose size is the integer 0
    the loop body never returns a record, so no percentage 0 is produced:
    it raises, and the call raises with it when such a disk is first in the
    list. With the other six keys present the exception is
    ZeroDivisionError: [current_cost] is [0.0] and line 130 divides by it
    unguarded. *)
Theorem zero_size_disk_raises (disk : pydict) (rest : list pydict) :
  disk !! "Disk Size (GB)" = Some (VInt 0) →
  (∃ e, savings_record DISK_PRICES disk = Raise e)
  ∧ (∃ e, calculate_savings (disk :: rest) = Raise e)
  ∧ (is_Some (disk !! "Region") → is_Some (disk !! "Disk Name") →
     is_Some (disk !! "Disk Type") → is_Some (disk !! "Zone") →
     is_Some (disk !! "Attached To") → is_Some (disk !! "Is Boot Disk") →
     savings_record DISK_PRICES disk = Raise ZeroDivisionError
     ∧ calculate_savings (disk :: rest) = Raise ZeroDivisionError).
Proof.
  intros Hs.
  assert (∀ e, savings_record DISK_PRICES disk = Raise e →
               calculate_savings (disk :: rest) = Raise e) as Hcall.
  { intros e E. unfold calculate_savings. simpl. rewrite E. reflexivity. }
  assert (is_Some (disk !! "Region") → is_Some (disk !! "Disk Name") →
          is_Some (disk !! "Disk Type") → is_Some (disk !! "Zone") →
          is_Some (disk !! "Attached To") → is_Some (disk !! "Is Boot Disk") →
          savings_record DISK_PRICES disk = Raise ZeroDivisionError) as Hdiv.
  { intros [region Hr] [name Hn] [type Ht] [zone Hz] [attached Ha] [boot Hb].
    unfold savings_record.
    rewrite (disk_costs_DISK_PRICES _ _ _ Hr Hs).
    rewrite (getitem_Some _ _ _ Hr), (getitem_Some _ _ _ Hs),
      (getitem_Some _ _ _ Hn), (getitem_Some _ _ _ Ht), (getitem_Some _ _ _ Hz),
      (getitem_Some _ _ _ Ha), (getitem_Some _ _ _ Hb).
    reflexivity. }
  assert (∃ e, savings_record DISK_PRICES disk = Raise e) as [e E].
  { destruct (disk !! "Region") as [region|] eqn:Hr;
      [|exists (KeyError "Region"); unfold savings_record, disk_costs, getitem;
        rewrite Hr; reflexivity].
    destruct (disk !! "Disk Name") as [name|] eqn:Hn;
    [destruct (disk !! "Disk Type") as [type|] eqn:Ht;
     [destruct (disk !! "Zone") as [zone|] eqn:Hz;
      [destruct (disk !! "Attached To") as [attached|] eqn:Ha;
       [destruct (disk !! "Is Boot Disk") as [boot|] eqn:Hb|]|]|]|];
    [exists ZeroDivisionError; apply Hdiv; eauto
    |exists (KeyError "Is Boot Disk")
    |exists (KeyError "Attached To")
    |exists (KeyError "Zone")
    |exists (KeyError "Disk Type")
    |exists (KeyError "Disk Name")];
    unfold savings_record;
    rewrite (disk_costs_DISK_PRICES _ _ _ Hr Hs);
    unfold getitem; rewrite Hr, Hs, ?Hn, ?Ht, ?Hz, ?Ha, ?Hb; reflexivity. }
  split; [eauto|]. split; [eauto|].
  intros. split; [|apply Hcall]; apply Hdiv; assumption.
Qed.

Lemma zero_size_disk_raises_example :
  calculate_savings [example_disk "d3" (VInt 0) "us-west1-a" "us-west1"]
  = Raise ZeroDivisionError.
Proof.
  refine (proj2 (proj2 (proj2 (zero_size_disk_raises
            (example_disk "d3" (VInt 0) "us-west1-a" "us-west1") [] _))
            _ _ _ _ _ _)); first [reflexivity | vm_compute; eauto].
Defined.

(** ** C2: the aggregate percentage *)

Lemma column_insert_ne (k k' : string) (v : pyval) (data : list pydict) :
  k ≠ k' → column k (<[k' := v]> <$> data) = column k data.
Proof.
  intros Hne. unfold column.
  assert (∀ d : pydict, <[k' := v]> d !! k = d !! k) as E
    by (intros d; apply lookup_insert_ne; congruence).
  rewrite <- list_fmap_compose.
  assert (existsb (fun d : pydict => bool_decide (is_Some (d !! k))) (<[k' := v]> <$> data)
          = existsb (fun d : pydict => bool_decide (is_Some (d !! k))) data) as ->.
  { induction data as [|d data IH]; [reflexivity|].
    rewrite fmap_cons. simpl. rewrite E, IH. reflexivity. }
  destruct (existsb _ data); [|reflexivity].
  f_equal. apply list_fmap_ext. intros i d _. simpl. rewrite E. reflexivity.
Qed.

(** C2 (as stated, refuted): a single record without cost is a non-empty
    input; its totals are 0.0 and 0.0, the quotient of the formula is not a
    number (and a ZeroDivisionError between Python floats), and the
    percentage of the summary step is the integer 0. *)
Lemma percentage_guard_example :
  ∃ t, report_totals [zero_cost_record] = Ok t
    ∧ total_monthly_savings t = VFloat 0
    ∧ total_current_cost t = VFloat 0
    ∧ avg_savings_pct t = VInt 0
    ∧ avg_savings_pct t ≠ VFloat (0 / 0 * 100)
    ∧ float_truediv 0 0 = Raise ZeroDivisionError.
Proof.
  eexists. split; [unfold zero_cost_record; totals_of_records|].
  cbn [total_monthly_savings total_current_cost avg_savings_pct].
  split; [vm_compute; reflexivity|].
  split; [vm_compute; reflexivity|].
  split; [vm_compute; reflexivity|].
  split; [vm_compute; discriminate|reflexivity].
Qed.

(** C2 (amended). The totals are the sums of the records' monthly-savings
    and current-cost fields; when the total current cost is greater than
    zero the percentage of the summary step is
    [total_monthly_savings / total_current_cost * 100], otherwise it is the
    integer 0. The records' own percentages are not read: any value in
    that field gives the same totals. The summary of [new_report.py]
    carries the constant 41.2 instead. *)
Theorem aggregate_percentage_weighted :
  (∀ (data : list pydict) (t : totals) (tm tc : float),
      report_totals data = Ok t →
      total_monthly_savings t = VFloat tm →
      total_current_cost t = VFloat tc →
      column_sum "Monthly Savings (USD)" data = Ok (VFloat tm)
      ∧ column_sum "Current Monthly Cost (USD)" data = Ok (VFloat tc)
      ∧ avg_savings_pct t
        = if (0 <? tc)%float then VFloat (tm / tc * 100) else VInt 0)
  ∧ (∀ (data : list pydict) (v : pyval),
      report_totals (<["Savings Percentage" := v]> <$> data) = report_totals data)
  ∧ (∀ output_df : list pydict,
      NewReport.avg_savings_percentage output_df = 41.2%float).
Proof.
  split; [|split].
  - intros data t tm tc Ht Hm Hc.
    destruct (report_totals_inv _ _ Ht) as (Cm & _ & Cc & _ & _ & b & Hb & Havg).
    rewrite Hm in Cm, Havg. rewrite Hc in Cc, Hb, Havg.
    repeat (split; [assumption|]).
    injection Hb as <-.
    destruct (0 <? tc)%float; [|assumption].
    destruct Havg as (q & Hq & ->). injection Hq as <-. reflexivity.
  - intros data v. unfold report_totals, column_sum.
    rewrite !column_insert_ne by discriminate. reflexivity.
  - reflexivity.
Qed.

Lemma aggregate_percentage_weighted_witness :
  ∃ savings_data t,
    calculate_savings [disk_3] = Ok savings_data
    ∧ report_totals savings_data = Ok t
    ∧ avg_savings_pct t = VFloat (0.21 / 0.51 * 100).
Proof.
  destruct disk_3_totals as (savings_data & t & _ & Hcalc & Ht & _ & _ & Hm & Hc).
  exists savings_data, t. split; [assumption|]. split; [assumption|].
  destruct (proj1 aggregate_percentage_weighted savings_data t _ _ Ht Hm Hc)
    as (_ & _ & ->).
  reflexivity.
Defined.

(** ** C3: what the totals add up *)

(** C3 (as stated, refuted): for one 3 GB disk the unrounded monthly saving
    is 0.20999999999999996 and the total is 0.21, the sum of the field
    already rounded in the record, not the sum of the unrounded value. *)
Lemma totals_add_rounded_fields_example :
  ∃ savings_data t c,
    calculate_savings [disk_3] = Ok savings_data
    ∧ report_totals savings_data = Ok t
    ∧ disk_costs DISK_PRICES disk_3 = Ok c
    ∧ monthly_savings c = 0.20999999999999996%float
    ∧ total_monthly_savings t = VFloat 0.21
    ∧ total_monthly_savings t ≠ VFloat (nansum [monthly_savings c]).
Proof.
  destruct disk_3_totals as (savings_data & t & c & Hcalc & Ht & Hc & Hm & Htm & _).
  exists savings_data, t, c. repeat (split; [assumption|]).
  rewrite Htm, Hm. vfloat_neq.
Qed.

(** Eight fields of 0.7, the monthly savings of eight 10 GB disks, add up
    to 5.6 as numpy adds them, with eight running sums; added one after
    the other they give 5.6000000000000005. *)
Example nansum_eight_values :
  nansum (replicate 8 0.7%float) = 5.6%float
  ∧ add_all 0 (replicate 8 0.7%float) = 5.6000000000000005%float
  ∧ nansum [0.07; 0.07; 0.21]%float = add_all 0 [0.07; 0.07; 0.21]%float.
Proof. repeat split; vm_compute; reflexivity. Qed.

(** C3 (amended). Each money value is rounded to two decimals when
    [calculate_savings] builds the record, the totals of
    [create_excel_report] are the sums of these rounded fields, and the
    summary block shows each total rounded once more to two decimals. *)
Theorem totals_sum_rounded_fields (prices : price_table)
    (disk_data savings_data : list pydict) (t : totals) :
  calculate_savings_with prices disk_data = Ok savings_data →
  report_totals savings_data = Ok t →
  ∃ (cs : list costs) (s : summary),
    Forall2 (fun disk c => disk_costs prices disk = Ok c) disk_data cs
    ∧ Forall2 (fun (r : pydict) c =>
        r !! "Current Monthly Cost (USD)" = Some (VFloat (py_round (current_cost c) 2))
        ∧ r !! "Balanced Monthly Cost (USD)" = Some (VFloat (py_round (balanced_cost c) 2))
        ∧ r !! "Monthly Savings (USD)" = Some (VFloat (py_round (monthly_savings c) 2))
        ∧ r !! "Annual Savings (USD)" = Some (VFloat (py_round (annual_savings c) 2)))
        savings_data cs
    ∧ total_current_cost t
      = VFloat (nansum ((fun c => py_round (current_cost c) 2) <$> cs))
    ∧ total_balanced_cost t
      = VFloat (nansum ((fun c => py_round (balanced_cost c) 2) <$> cs))
    ∧ total_monthly_savings t
      = VFloat (nansum ((fun c => py_round (monthly_savings c) 2) <$> cs))
    ∧ total_annual_savings t
      = VFloat (nansum ((fun c => py_round (annual_savings c) 2) <$> cs))
    ∧ summary_data savings_data t = Ok s
    ∧ current_monthly_cost s
      = VFloat (np_round (nansum ((fun c => py_round (current_cost c) 2) <$> cs)) 2)
    ∧ projected_monthly_cost s
      = VFloat (np_round (nansum ((fun c => py_round (balanced_cost c) 2) <$> cs)) 2)
    ∧ potential_monthly_savings s
      = VFloat (np_round (nansum ((fun c => py_round (monthly_savings c) 2) <$> cs)) 2)
    ∧ potential_annual_savings s
      = VFloat (np_round (nansum ((fun c => py_round (annual_savings c) 2) <$> cs)) 2).
Proof.
  intros Hcalc Ht.
  pose proof (report_totals_nonempty _ _ Ht) as Hne.
  destruct (calculate_savings_with_costs _ _ _ Hcalc) as (cs & Hcs & Hfs).
  destruct (report_totals_inv _ _ Ht) as (Hm & Ha & Hc & Hb & _ & pos & _ & Havg).
  assert (∀ (k : string) (f : costs → float),
    Forall2 (fun (r : pydict) c => r !! k = Some (VFloat (f c))) savings_data cs →
    column_sum k savings_data = Ok (VFloat (nansum (f <$> cs)))) as Hcol.
  { intros k f H. apply column_sum_floats; [assumption|].
    apply Forall2_fmap_r. exact H. }
  rewrite (Hcol "Current Monthly Cost (USD)" (fun c => py_round (current_cost c) 2)) in Hc
    by (eapply Forall2_impl; [exact Hfs|]; intros r c H; apply H).
  rewrite (Hcol "Balanced Monthly Cost (USD)" (fun c => py_round (balanced_cost c) 2)) in Hb
    by (eapply Forall2_impl; [exact Hfs|]; intros r c H; apply H).
  rewrite (Hcol "Monthly Savings (USD)" (fun c => py_round (monthly_savings c) 2)) in Hm
    by (eapply Forall2_impl; [exact Hfs|]; intros r c H; apply H).
  rewrite (Hcol "Annual Savings (USD)" (fun c => py_round (annual_savings c) 2)) in Ha
    by (eapply Forall2_impl; [exact Hfs|]; intros r c H; apply H).
  injection Hc as Hc. injection Hb as Hb. injection Hm as Hm. injection Ha as Ha.
  assert (∃ p, round_scalar (avg_savings_pct t) 1 = Ok p) as [p Hp].
  { destruct pos.
    - destruct Havg as (q & _ & ->). eexists. reflexivity.
    - rewrite Havg. eexists. reflexivity. }
  exists cs. eexists. split; [exact Hcs|]. split; [exact Hfs|].
  rewrite <- Hc, <- Hb, <- Hm, <- Ha.
  repeat (split; [reflexivity|]).
  unfold summary_data. rewrite <- Hc, <- Hb, <- Hm, <- Ha, Hp.
  cbn [round_scalar]. rewrite !bind_Ok_l.
  cbn [current_monthly_cost projected_monthly_cost potential_monthly_savings
       potential_annual_savings].
  repeat split; reflexivity.
Qed.

Lemma totals_sum_rounded_fields_witness :
  ∃ savings_data t cs s,
    calculate_savings [disk_3] = Ok savings_data
    ∧ report_totals savings_data = Ok t
    ∧ Forall2 (fun disk c => disk_costs DISK_PRICES disk = Ok c) [disk_3] cs
    ∧ total_monthly_savings t
      = VFloat (nansum ((fun c => py_round (monthly_savings c) 2) <$> cs))
    ∧ summary_data savings_data t = Ok s
    ∧ potential_monthly_savings s
      = VFloat (np_round (nansum ((fun c => py_round (monthly_savings c) 2) <$> cs)) 2).
Proof.
  destruct disk_3_totals as (savings_data & t & _ & Hcalc & Ht & _).
  destruct (totals_sum_rounded_fields DISK_PRICES [disk_3] savings_data t Hcalc Ht)
    as (cs & s & Hcs & _ & _ & _ & Hm & _ & Hs & _ & _ & Hsm & _).
  exists savings_data, t, cs, s. repeat split; assumption.
Defined.

(** ** C4: the record's savings fields *)

Lemma disk_costs_relations (prices : price_table) (disk : pydict) (c : costs) :
  disk_costs prices disk = Ok c →
  monthly_savings c = (current_cost c - balanced_cost c)%float
  ∧ annual_savings c = (monthly_savings c * 12)%float.
Proof.
  unfold disk_costs. intros H. bind_inv H. injection H as <-. split; reflexivity.
Qed.

(** C4 (as stated, refuted): the fields of the record built for a 15 GB disk
    in us-west1 are 2.55, 1.5, 1.05 and 12.6, and neither
    [1.05 = 2.55 - 1.5] nor [12.6 = 1.05 * 12] holds for these doubles. *)
Lemma emitted_fields_not_exact :
  ∃ r c b m a,
    calculate_savings [disk_15] = Ok [r]
    ∧ r !! "Current Monthly Cost (USD)" = Some (VFloat c)
    ∧ r !! "Balanced Monthly Cost (USD)" = Some (VFloat b)
    ∧ r !! "Monthly Savings (USD)" = Some (VFloat m)
    ∧ r !! "Annual Savings (USD)" = Some (VFloat a)
    ∧ m ≠ (c - b)%float
    ∧ a ≠ (m * 12)%float.
Proof.
  eexists _, 2.55%float, 1.5%float, 1.05%float, 12.6%float.
  split.
  { unfold calculate_savings, calculate_savings_with, disk_15.
    erewrite example_disk_record;
      [reflexivity | reflexivity | vm_compute; reflexivity]. }
  repeat (split; [unfold record_of; lookup_literal; vm_compute; reflexivity|]).
  split; float_neq.
Qed.

(** C4 (amended). The unrounded local variables satisfy
    [monthly_savings = current_cost - balanced_cost] and
    [annual_savings = monthly_savings * 12] as float operations; each of the
    four fields of the record is the two-decimal rounding of its own local
    variable, so the monthly field is [round(current_cost - balanced_cost, 2)]
    and the annual field [round((current_cost - balanced_cost) * 12, 2)]. *)
Theorem savings_fields_round_the_locals (prices : price_table) (disk r : pydict) :
  savings_record prices disk = Ok r →
  ∃ c, disk_costs prices disk = Ok c
    ∧ monthly_savings c = (current_cost c - balanced_cost c)%float
    ∧ annual_savings c = (monthly_savings c * 12)%float
    ∧ r !! "Current Monthly Cost (USD)" = Some (VFloat (py_round (current_cost c) 2))
    ∧ r !! "Balanced Monthly Cost (USD)" = Some (VFloat (py_round (balanced_cost c) 2))
    ∧ r !! "Monthly Savings (USD)"
      = Some (VFloat (py_round (current_cost c - balanced_cost c) 2))
    ∧ r !! "Annual Savings (USD)"
      = Some (VFloat (py_round ((current_cost c - balanced_cost c) * 12) 2)).
Proof.
  intros H.
  apply savings_record_inv in H
    as (name & type & size_gb & zone & region & attached & boot & c & ratio
        & _ & _ & _ & _ & _ & _ & _ & Hc & _ & ->).
  exists c.
  destruct (disk_costs_relations _ _ _ Hc) as [Hm Ha].
  destruct (record_of_lookup name type size_gb zone region attached boot c ratio)
    as (_ & _ & _ & _ & _ & _ & _ & Fc & Fb & Fm & Fa & _).
  rewrite Ha, Hm in Fa. rewrite Hm in Fm. rewrite Ha, Hm.
  repeat split; assumption.
Qed.

Lemma savings_fields_round_the_locals_witness :
  ∃ r c, savings_record DISK_PRICES disk_15 = Ok r
    ∧ disk_costs DISK_PRICES disk_15 = Ok c
    ∧ r !! "Monthly Savings (USD)"
      = Some (VFloat (py_round (current_cost c - balanced_cost c) 2))
    ∧ r !! "Annual Savings (USD)"
      = Some (VFloat (py_round ((current_cost c - balanced_cost c) * 12) 2)).
Proof.
  assert (∃ r, savings_record DISK_PRICES disk_15 = Ok r) as [r Hr].
  { eexists. unfold disk_15. eapply example_disk_record;
      [reflexivity | vm_compute; reflexivity]. }
  exists r.
  destruct (savings_fields_round_the_locals DISK_PRICES disk_15 r Hr)
    as (c & Hc & _ & _ & _ & _ & Fm & Fa).
  exists c. repeat split; assumption.
Defined.

(** ** C5: the default prices *)

(** C5. When the disk's region is not a key of the price table, the costs
    are computed from the table's [default] entry, for both prices; so
    region eu-west9 and 100 GB give 17.0, 10.0, 7.0 and 84.0 under default
    prices 0.17 and 0.10, as local variables and as fields of the record,
    with the table of the specification and with the module's table. *)
Theorem absent_region_uses_default :
  (∀ (prices : price_table) (disk : pydict) (region : string)
     (dflt : gmap string float) (size_gb : pyval) (size ssd balanced : float),
      disk !! "Region" = Some (VStr region) →
      prices !! region = None →
      prices !! "default" = Some dflt →
      disk !! "Disk Size (GB)" = Some size_gb →
      as_float size_gb = Ok size →
      dflt !! "pd-ssd" = Some ssd →
      dflt !! "pd-balanced" = Some balanced →
      disk_costs prices disk
      = Ok {| current_cost := size * ssd;
              balanced_cost := size * balanced;
              monthly_savings := size * ssd - size * balanced;
              annual_savings := (size * ssd - size * balanced) * 12 |}%float)
  ∧ disk_costs {[ "default" := standard_prices ]}
      {[ "Region" := VStr "eu-west9"; "Disk Size (GB)" := VInt 100 ]}
    = Ok {| current_cost := 17; balanced_cost := 10;
            monthly_savings := 7; annual_savings := 84 |}%float
  ∧ disk_costs DISK_PRICES
      {[ "Region" := VStr "eu-west9"; "Disk Size (GB)" := VInt 100 ]}
    = Ok {| current_cost := 17; balanced_cost := 10;
            monthly_savings := 7; annual_savings := 84 |}%float
  ∧ (∃ r, savings_record DISK_PRICES
            (example_disk "d1" (VInt 100) "eu-west9-a" "eu-west9") = Ok r
        ∧ r !! "Current Monthly Cost (USD)" = Some (VFloat 17)
        ∧ r !! "Balanced Monthly Cost (USD)" = Some (VFloat 10)
        ∧ r !! "Monthly Savings (USD)" = Some (VFloat 7)
        ∧ r !! "Annual Savings (USD)" = Some (VFloat 84)).
Proof.
  assert (∀ (prices : price_table) (disk : pydict) (region : string)
     (dflt : gmap string float) (size_gb : pyval) (size ssd balanced : float),
      disk !! "Region" = Some (VStr region) →
      prices !! region = None →
      prices !! "default" = Some dflt →
      disk !! "Disk Size (GB)" = Some size_gb →
      as_float size_gb = Ok size →
      dflt !! "pd-ssd" = Some ssd →
      dflt !! "pd-balanced" = Some balanced →
      disk_costs prices disk
      = Ok {| current_cost := size * ssd;
              balanced_cost := size * balanced;
              monthly_savings := size * ssd - size * balanced;
              annual_savings := (size * ssd - size * balanced) * 12 |}%float)
    as general.
  { intros prices disk region dflt size_gb size ssd balanced Hr Hp Hd Hs Hf Hssd Hbal.
    unfold disk_costs.
    rewrite (getitem_Some _ _ _ Hr), bind_Ok_l, (getitem_Some _ _ _ Hs), bind_Ok_l,
      (getitem_Some _ _ _ Hd), bind_Ok_l.
    unfold dict_get. rewrite Hp. cbn [default].
    rewrite (getitem_Some _ _ _ Hssd), bind_Ok_l, Hf, bind_Ok_l,
      (getitem_Some _ _ _ Hbal), bind_Ok_l.
    reflexivity. }
  split; [exact general|]. split; [|split].
  - rewrite (general _ _ "eu-west9" standard_prices (VInt 100) 100%float
               0.17%float 0.10%float);
      [vm_compute; reflexivity | reflexivity ..].
  - rewrite (general _ _ "eu-west9" standard_prices (VInt 100) 100%float
               0.17%float 0.10%float);
      [vm_compute; reflexivity | reflexivity ..].
  - eexists. split.
    { eapply example_disk_record; [reflexivity | vm_compute; reflexivity]. }
    repeat split; unfold record_of; lookup_literal; vm_compute; reflexivity.
Qed.

Lemma absent_region_uses_default_witness :
  disk_costs {[ "default" := standard_prices ]}
    {[ "Region" := VStr "eu-west9"; "Disk Size (GB)" := VInt 100 ]}
  = Ok {| current_cost := 100 * 0.17; balanced_cost := 100 * 0.10;
          monthly_savings := 100 * 0.17 - 100 * 0.10;
          annual_savings := (100 * 0.17 - 100 * 0.10) * 12 |}%float.
Proof.
  apply (proj1 absent_region_uses_default _ _ "eu-west9" standard_prices (VInt 100));
    reflexivity.
Defined.

(** ** C6: the empty input *)

(** C6 (as stated, refuted): for the empty list no summary is produced at
    all, so none with seven zero metrics. *)
Lemma empty_input_has_no_summary :
  ¬ ∃ wb, create_excel_report [] = Ok (Some wb).
Proof. intros [wb H]. discriminate H. Qed.

(** C6 (amended). On the empty list [create_excel_report] raises nothing,
    builds no summary and no workbook and returns False (line 137); it is
    the only input for which it does so. [main] ends without a report when
    the collector found no disk. *)
Theorem empty_input_returns_false :
  create_excel_report [] = Ok None
  ∧ (∀ data, create_excel_report data = Ok None → data = [])
  ∧ (∀ api, get_ssd_disk_data api = Ok [] → main api = Ok None).
Proof.
  split; [reflexivity|]. split.
  - intros [|d data] H; [reflexivity|]. unfold create_excel_report in H.
    destruct (report_totals (d :: data)) as [t|]; [|discriminate H].
    rewrite bind_Ok_l in H.
    destruct (summary_data (d :: data) t) as [s|]; [|discriminate H].
    rewrite bind_Ok_l in H.
    destruct (detail_rows (d :: data)) as [rows|]; discriminate H.
  - intros api H. unfold main. rewrite H. reflexivity.
Qed.

(** ** C7: the order of the records *)

Lemma detail_row_record_of (name type size_gb zone region attached boot : pyval)
    (c : costs) (ratio : float) :
  detail_row (record_of name type size_gb zone region attached boot c ratio)
  = Ok [CVal name; CVal size_gb; CVal boot; CVal attached; CVal zone; CVal region;
        CVal (VFloat (py_round (current_cost c) 2));
        CVal (VFloat (py_round (balanced_cost c) 2));
        CVal (VFloat (py_round (monthly_savings c) 2));
        CVal (VFloat (py_round (annual_savings c) 2));
        CPercent (VFloat (py_round (ratio * 100) 1))].
Proof.
  destruct (record_of_lookup name type size_gb zone region attached boot c ratio)
    as (Hn & Ht & Hs & Hz & Hr & Ha & Hb & Fc & Fb & Fm & Fa & Fp).
  unfold detail_row.
  rewrite (getitem_Some _ _ _ Hn), bind_Ok_l, (getitem_Some _ _ _ Hs), bind_Ok_l,
    (getitem_Some _ _ _ Hb), bind_Ok_l, (getitem_Some _ _ _ Ha), bind_Ok_l,
    (getitem_Some _ _ _ Hz), bind_Ok_l, (getitem_Some _ _ _ Hr), bind_Ok_l,
    (getitem_Some _ _ _ Fc), bind_Ok_l, (getitem_Some _ _ _ Fb), bind_Ok_l,
    (getitem_Some _ _ _ Fm), bind_Ok_l, (getitem_Some _ _ _ Fa), bind_Ok_l,
    (getitem_Some _ _ _ Fp), bind_Ok_l.
  reflexivity.
Qed.

(** Evaluates [create_excel_report] on records given as [record_of]. *)
Ltac report_of_records :=
  unfold create_excel_report;
  erewrite report_totals_floats;
  [ rewrite bind_Ok_l
  | discriminate
  | repeat econstructor; unfold record_of; lookup_literal; reflexivity ..
  | erewrite column_sum_ints;
    [ reflexivity
    | discriminate
    | repeat econstructor; unfold record_of; lookup_literal; reflexivity ] ];
  unfold summary_data, round_scalar;
  cbn [total_current_cost total_balanced_cost total_monthly_savings
       total_annual_savings avg_savings_pct total_disk_size];
  match goal with
  | |- context [(0 <? ?x)%float] =>
      let b := eval vm_compute in (0 <? x)%float in
      replace (0 <? x)%float with b by (vm_compute; reflexivity)
  end;
  rewrite !bind_Ok_l;
  cbn [detail_rows]; rewrite !detail_row_record_of, !bind_Ok_l.


Lemma column_sum_ints_Forall (k : string) (data : list pydict) :
  data ≠ [] →
  Forall (fun r : pydict => ∃ z, r !! k = Some (VInt z)) data →
  column_sum k data
  = Ok (VInt (foldr Z.add 0
                ((fun r : pydict => int_value (default (VInt 0) (r !! k))) <$> data))).
Proof.
  intros Hne H. apply column_sum_ints; [assumption|].
  apply Forall2_fmap_r, Forall_Forall2_diag.
  eapply Forall_impl; [exact H|]. intros r [z Hz]. simpl. rewrite Hz. reflexivity.
Qed.






(** ** C8: region and zone *)

Lemma long_suffix_collected :
  get_ssd_disk_data long_suffix_api
  = Ok [disk_record long_suffix_api "us-west1-ai1a" long_suffix_disk "pd-ssd" 100].
Proof. reflexivity. Qed.

(** C8 (as stated, refuted): for the zone us-west1-ai1a the collector
    records the region us-west1-ai, while the zone without its last
    segment is us-west1; and for a zone of four segments the expression of
    [new_report.py] keeps only the first two. *)
Lemma region_is_not_zone_without_last_segment :
  (∃ r, get_ssd_disk_data long_suffix_api = Ok [r]
      ∧ r !! "Zone" = Some (VStr "us-west1-ai1a")
      ∧ r !! "Region" = Some (VStr "us-west1-ai")
      ∧ drop_last_segment "us-west1-ai1a" = "us-west1")
  ∧ NewReport.region_of_zone "us-west1-ai-a" = Ok "us-west1"
  ∧ drop_last_segment "us-west1-ai-a" = "us-west1-ai".
Proof.
  split; [|split; reflexivity].
  eexists. split; [apply long_suffix_collected|].
  destruct (disk_record_lookup long_suffix_api "us-west1-ai1a" long_suffix_disk "pd-ssd" 100)
    as (_ & _ & _ & Hz & Hr).
  split; [exact Hz|]. split; [exact Hr|]. reflexivity.
Qed.

Lemma elem_of_us_west1_zones (zone : string) (zones : list string) :
  zone ∈ List.filter (fun zone => startswith zone "us-west1-") zones →
  startswith zone "us-west1-" = true.
Proof. intros H. apply list_elem_of_In, filter_In in H. apply H. Qed.

(** C8 (amended). Every record of the collector has a zone that starts
    with us-west1- and the region [zone[:-2]]. For a zone whose last
    segment is a single character this is the zone without its last
    segment. The expression of [new_report.py] gives the zone without its
    last segment for zones of exactly three segments. *)
Theorem region_drops_single_letter_segment :
  (∀ (api : compute_api) (disk_data : list pydict) (r : pydict),
      get_ssd_disk_data api = Ok disk_data → r ∈ disk_data →
      ∃ zone, startswith zone "us-west1-" = true
            ∧ r !! "Zone" = Some (VStr zone)
            ∧ r !! "Region" = Some (VStr (region_of_zone zone)))
  ∧ (∀ (pre : string) (c : ascii),
      c ≠ "-"%char →
      region_of_zone (pre ++ String "-" (String c EmptyString)) = pre
      ∧ drop_last_segment (pre ++ String "-" (String c EmptyString)) = pre)
  ∧ (∀ a b c : string,
      free_of "-" a = true → free_of "-" b = true → free_of "-" c = true →
      NewReport.region_of_zone (a ++ String "-" (b ++ String "-" c))
      = Ok (a ++ String "-" b)
      ∧ drop_last_segment (a ++ String "-" (b ++ String "-" c)) = a ++ String "-" b).
Proof.
  split; [|split].
  - intros api disk_data r H Hr.
    apply get_ssd_disk_data_collected in H as (zones & _ & H).
    rewrite Forall_forall in H.
    destruct (H r Hr) as (zone & disks & disk & size & Hz & _ & _ & _ & _ & ->).
    exists zone. split; [eapply elem_of_us_west1_zones, Hz|].
    destruct (disk_record_lookup api zone disk "pd-ssd" size) as (_ & _ & _ & Fz & Fr).
    split; assumption.
  - intros pre c Hc. split; [apply region_of_zone_app|].
    apply drop_last_segment_app. simpl.
    destruct (Ascii.eqb_spec c "-"); [contradiction|reflexivity].
  - intros a b c Ha Hb Hc.
    assert (split_on "-" (a ++ String "-" (b ++ String "-" c)) = [a; b; c]) as E.
    { rewrite !split_on_app, !split_on_free by assumption. reflexivity. }
    unfold NewReport.region_of_zone, drop_last_segment. rewrite E. split; reflexivity.
Qed.

Lemma region_drops_single_letter_segment_witness :
  region_of_zone "us-west1-a" = "us-west1"
  ∧ drop_last_segment "us-west1-a" = "us-west1"
  ∧ NewReport.region_of_zone "us-west1-a" = Ok "us-west1".
Proof.
  destruct region_drops_single_letter_segment as (_ & Hcut & Hsplit).
  destruct (Hcut "us-west1" "a"%char) as [H1 H2]; [discriminate|].
  destruct (Hsplit "us" "west1" "a") as [H3 _]; try reflexivity.
  repeat split; assumption.
Defined.

(** ** C9: only SSD disks *)

Lemma savings_record_copies (prices : price_table) (disk r : pydict) :
  savings_record prices disk = Ok r →
  r !! "Disk Name" = disk !! "Disk Name"
  ∧ r !! "Disk Type" = disk !! "Disk Type"
  ∧ r !! "Disk Size (GB)" = disk !! "Disk Size (GB)"
  ∧ r !! "Zone" = disk !! "Zone"
  ∧ r !! "Region" = disk !! "Region".
Proof.
  intros H. apply savings_record_inv in H
    as (name & type & size_gb & zone & region & attached & boot & c & ratio
        & Hn & Ht & Hs & Hz & Hr & _ & _ & _ & _ & ->).
  destruct (record_of_lookup name type size_gb zone region attached boot c ratio)
    as (Fn & Ft & Fs & Fz & Fr & _).
  rewrite Hn, Ht, Hs, Hz, Hr. repeat split; assumption.
Qed.

Lemma detail_rows_Forall2 (data : list pydict) (rows : list (list cell)) :
  detail_rows data = Ok rows →
  Forall2 (fun disk row => detail_row disk = Ok row) data rows.
Proof.
  revert rows. induction data as [|disk rest IH]; intros rows; simpl.
  - intros [= <-]. constructor.
  - intros H. apply bind_Ok in H as (r & Hr & H).
    apply bind_Ok in H as (rs & Hrs & H). injection H as <-.
    constructor; [assumption|]. apply IH, Hrs.
Qed.

(** C9. Every record the collector returns has disk type pd-ssd and comes
    from a disk of the project whose type ends in pd-ssd;
    [calculate_savings] copies the type, so every record it returns for the
    collector's list has disk type pd-ssd; and the rows of the workbook
    [main] writes are the rows of exactly these records. *)
Theorem only_ssd_records (api : compute_api) :
  (∀ disk_data, get_ssd_disk_data api = Ok disk_data →
     ∃ zones, zones_list api = Ok zones
       ∧ Forall (fun r => is_ssd_record r
                   ∧ collected_from api
                       (List.filter (fun zone => startswith zone "us-west1-") zones) r)
           disk_data)
  ∧ (∀ disk_data savings_data,
       get_ssd_disk_data api = Ok disk_data →
       calculate_savings disk_data = Ok savings_data →
       Forall is_ssd_record savings_data)
  ∧ (∀ wb, main api = Ok (Some wb) →
       ∃ disk_data savings_data,
         get_ssd_disk_data api = Ok disk_data
         ∧ calculate_savings disk_data = Ok savings_data
         ∧ Forall is_ssd_record savings_data
         ∧ Forall2 (fun r row => detail_row r = Ok row) savings_data (wb_rows wb)).
Proof.
  assert (∀ disk_data, get_ssd_disk_data api = Ok disk_data →
     ∃ zones, zones_list api = Ok zones
       ∧ Forall (fun r => is_ssd_record r
                   ∧ collected_from api
                       (List.filter (fun zone => startswith zone "us-west1-") zones) r)
           disk_data) as Hcollect.
  { intros disk_data H.
    apply get_ssd_disk_data_collected in H as (zones & Hz & H).
    exists zones. split; [exact Hz|].
    eapply Forall_impl; [exact H|]. intros r Hr. split; [|exact Hr].
    destruct Hr as (zone & disks & disk & size & _ & _ & _ & _ & _ & ->).
    apply (disk_record_lookup api zone disk "pd-ssd" size). }
  assert (∀ disk_data savings_data,
       get_ssd_disk_data api = Ok disk_data →
       calculate_savings disk_data = Ok savings_data →
       Forall is_ssd_record savings_data) as Hsavings.
  { intros disk_data savings_data Hd Hs.
    destruct (Hcollect _ Hd) as (zones & _ & Hall).
    apply calculate_savings_with_Forall2 in Hs.
    clear Hd. induction Hs as [|disk r disk_data savings_data Hr _ IH]; [constructor|].
    inversion Hall as [|? ? [Hssd _] Hrest]; subst.
    constructor; [|apply IH, Hrest].
    unfold is_ssd_record. destruct (savings_record_copies _ _ _ Hr) as (_ & -> & _).
    exact Hssd. }
  split; [exact Hcollect|]. split; [exact Hsavings|].
  intros wb H. unfold main in H.
  apply bind_Ok in H as (disk_data & Hd & H).
  destruct disk_data as [|d disk_data]; [discriminate H|].
  apply bind_Ok in H as (savings_data & Hs & H).
  exists (d :: disk_data), savings_data.
  repeat (split; [eauto|]).
  destruct savings_data as [|r savings_data]; [discriminate H|].
  unfold create_excel_report in H.
  apply bind_Ok in H as (t & _ & H).
  apply bind_Ok in H as (s & _ & H).
  apply bind_Ok in H as (rows & Hrows & H).
  injection H as <-. apply detail_rows_Forall2, Hrows.
Qed.

Lemma only_ssd_records_witness :
  ∃ r, get_ssd_disk_data two_disk_api = Ok [r] ∧ is_ssd_record r.
Proof.
  assert (∃ r, get_ssd_disk_data two_disk_api = Ok [r]) as [r Hr]
    by (eexists; reflexivity).
  exists r. split; [exact Hr|].
  destruct (proj1 (only_ssd_records two_disk_api) _ Hr) as (zones & _ & H).
  inversion H as [|? ? [Hssd _] _]; subst. exact Hssd.
Defined.

(** ** C10: the store *)

Lemma alloc_spec (o : Store.obj) (h h' : Store.heap) (l : Store.loc) :
  Store.alloc o h = (h', l) → h !! l = None ∧ h' = <[l := o]> h.
Proof.
  unfold Store.alloc. intros [= <- <-]. split; [|reflexivity].
  apply not_elem_of_dom, is_fresh.
Qed.

(** The loop: [savings_data] grows by new locations holding the records of
    the value-level function; nothing else that existed changes. *)
Lemma savings_loop_spec (prices : price_table) (items : list Store.loc) :
  ∀ (out : Store.loc) (h : Store.heap) (acc : list Store.loc) (disks : list pydict)
    (h' : Store.heap) (r : res unit),
    h !! out = Some (Store.OList acc) →
    Forall2 (fun l d => h !! l = Some (Store.ODict d)) items disks →
    Store.savings_loop prices items out h = (h', r) →
    ∃ new : list Store.loc,
      h' !! out = Some (Store.OList (acc ++ new))
      ∧ (∀ l o, l ≠ out → h !! l = Some o → h' !! l = Some o)
      ∧ Forall (fun lr => h !! lr = None) new
      ∧ NoDup new
      ∧ match r with
        | Ok _ => ∃ rs, calculate_savings_with prices disks = Ok rs
                        ∧ Forall2 (fun lr rec => h' !! lr = Some (Store.ODict rec)) new rs
        | Raise e => calculate_savings_with prices disks = Raise e
        end.
Proof.
  induction items as [|l rest IH]; intros out h acc disks h' r Hout Hitems Hloop.
  - inversion Hitems; subst. simpl in Hloop. injection Hloop as <- <-.
    exists []. rewrite app_nil_r.
    repeat split; try (constructor || assumption || auto).
    exists []. split; [reflexivity|constructor].
  - inversion Hitems as [|? disk ? disks' Hl Hrest]; subst.
    cbn [Store.savings_loop] in Hloop. rewrite Hl in Hloop.
    cbn [calculate_savings_with].
    destruct (savings_record prices disk) as [rec|e] eqn:Hrec.
    + destruct (Store.alloc (Store.ODict rec) h) as [h1 lr] eqn:Halloc.
      apply alloc_spec in Halloc as [Hfresh ->].
      assert (lr ≠ out) as Hlr_out by congruence.
      unfold Store.append in Hloop.
      rewrite lookup_insert_ne, Hout in Hloop by congruence.
      remember (<[out := Store.OList (acc ++ [lr])]> (<[lr := Store.ODict rec]> h))
        as h2 eqn:Hh2.
      assert (∀ l' o, l' ≠ out → h !! l' = Some o → h2 !! l' = Some o) as Hframe2.
      { intros l' o Hne Hl'. rewrite Hh2.
        rewrite lookup_insert_ne, lookup_insert_ne by congruence. exact Hl'. }
      assert (h2 !! lr = Some (Store.ODict rec)) as Hlr2.
      { rewrite Hh2, lookup_insert_ne, lookup_insert_eq by congruence. reflexivity. }
      destruct (IH out h2 (acc ++ [lr])%list disks' h' r) as (new & Hout' & Hframe & Hnew & Hnd & Hres).
      { rewrite Hh2. apply lookup_insert_eq. }
      { eapply Forall2_impl; [exact Hrest|]. intros l' d Hl'.
        apply Hframe2; [congruence|exact Hl']. }
      { exact Hloop. }
      exists (lr :: new).
      split; [rewrite Hout', <- app_assoc; reflexivity|].
      split; [intros l' o Hne Hl'; apply Hframe; [exact Hne|apply Hframe2; assumption]|].
      split.
      { constructor; [exact Hfresh|].
        eapply Forall_impl; [exact Hnew|]. intros l' Hl'. cbv beta in Hl' |- *.
        destruct (h !! l') as [o|] eqn:E; [|reflexivity].
        destruct (decide (l' = out)) as [->|Hne]; [|rewrite (Hframe2 _ _ Hne E) in Hl'; discriminate].
        rewrite Hh2, lookup_insert_eq in Hl'. discriminate. }
      split.
      { constructor; [|exact Hnd]. intros Hin.
        rewrite Forall_forall in Hnew. rewrite (Hnew _ Hin) in Hlr2. discriminate. }
      rewrite bind_Ok_l.
      destruct r as [[]|e].
      * destruct Hres as (rs & -> & Hrs). rewrite bind_Ok_l.
        exists (rec :: rs). split; [reflexivity|].
        constructor; [|exact Hrs]. apply Hframe; assumption.
      * rewrite Hres. reflexivity.
    + injection Hloop as <- <-. exists []. rewrite app_nil_r.
      repeat split; try (constructor || assumption || auto).
Qed.

(** C10. Given a store in which [disk_data] is a list of dicts, a call of
    [calculate_savings], whether it returns or raises, leaves every object
    that existed before as it was: the list, each dict in it, anything
    else. When it returns, the result is a list object that did not exist
    before, of as many locations as the input has items; these locations
    did not exist before either and are pairwise distinct, and the i-th
    holds the record computed from the i-th input dict (the records of the
    value-level function). A raise is the raise of the value-level
    function. *)
Theorem calculate_savings_frame (prices : price_table) (disk_data : Store.loc)
    (h h' : Store.heap) (items : list Store.loc) (disks : list pydict) (r : res Store.loc) :
  h !! disk_data = Some (Store.OList items) →
  Forall2 (fun l d => h !! l = Some (Store.ODict d)) items disks →
  Store.calculate_savings_with prices disk_data h = (h', r) →
  (∀ l o, h !! l = Some o → h' !! l = Some o)
  ∧ h' !! disk_data = Some (Store.OList items)
  ∧ Forall2 (fun l d => h' !! l = Some (Store.ODict d)) items disks
  ∧ match r with
    | Ok savings_data =>
        h !! savings_data = None
        ∧ ∃ (new : list Store.loc) (rs : list pydict),
            h' !! savings_data = Some (Store.OList new)
            ∧ length new = length items
            ∧ NoDup new
            ∧ Forall (fun lr => h !! lr = None ∧ lr ≠ savings_data) new
            ∧ Forall2 (fun lr rec => h' !! lr = Some (Store.ODict rec)) new rs
            ∧ Forall2 (fun disk rec => savings_record prices disk = Ok rec) disks rs
            ∧ calculate_savings_with prices disks = Ok rs
    | Raise e => calculate_savings_with prices disks = Raise e
    end.
Proof.
  intros Hlist Hitems Hcall. unfold Store.calculate_savings_with in Hcall.
  destruct (Store.alloc (Store.OList []) h) as [h0 out] eqn:Halloc.
  apply alloc_spec in Halloc as [Hfresh ->].
  rewrite Hlist in Hcall.
  destruct (Store.savings_loop prices items out (<[out := Store.OList []]> h))
    as [h1 r1] eqn:Hloop.
  injection Hcall as <- <-.
  assert (∀ l o, h !! l = Some o → <[out := Store.OList []]> h !! l = Some o) as Hframe0.
  { intros l o Hl. rewrite lookup_insert_ne by congruence. exact Hl. }
  destruct (savings_loop_spec prices items out (<[out := Store.OList []]> h) []
              disks h1 r1) as
    (new & Hout & Hframe & Hnew & Hnd & Hres).
  { apply lookup_insert_eq. }
  { eapply Forall2_impl; [exact Hitems|]. intros l d. apply Hframe0. }
  { exact Hloop. }
  assert (∀ l o, h !! l = Some o → h1 !! l = Some o) as Hframe1.
  { intros l o Hl. apply Hframe; [congruence|apply Hframe0, Hl]. }
  split; [exact Hframe1|]. split; [apply Hframe1, Hlist|].
  split; [eapply Forall2_impl; [exact Hitems|]; intros l d; apply Hframe1|].
  destruct r1 as [[]|e]; cbn [fmap res_fmap]; [|exact Hres].
  split; [exact Hfresh|].
  destruct Hres as (rs & Hrs & Hrecs).
  exists new, rs. rewrite app_nil_l in Hout.
  split; [exact Hout|].
  pose proof (proj1 (calculate_savings_with_Forall2 _ _ _) Hrs) as Hpairs.
  split.
  { rewrite (Forall2_length _ _ _ Hrecs), <- (Forall2_length _ _ _ Hpairs).
    symmetry. apply (Forall2_length _ _ _ Hitems). }
  split; [exact Hnd|].
  split.
  { eapply Forall_impl; [exact Hnew|]. intros lr Hlr. cbv beta in Hlr |- *.
    destruct (decide (lr = out)) as [->|Hne].
    - rewrite lookup_insert_eq in Hlr. discriminate.
    - rewrite lookup_insert_ne in Hlr by congruence. split; assumption. }
  repeat split; assumption.
Qed.

Lemma calculate_savings_frame_witness :
  (Store.calculate_savings 2%positive aliased_store).1 !! 1%positive
  = Some (Store.ODict disk_3)
  ∧ (Store.calculate_savings 2%positive aliased_store).1 !! 2%positive
    = Some (Store.OList [1%positive; 1%positive]).
Proof.
  destruct (Store.calculate_savings 2%positive aliased_store) as [h' r] eqn:E.
  unfold Store.calculate_savings in E.
  destruct (calculate_savings_frame DISK_PRICES 2%positive aliased_store h'
              [1%positive; 1%positive] [disk_3; disk_3] r) as (Hframe & Hlist & _).
  - reflexivity.
  - repeat constructor.
  - exact E.
  - split; [apply Hframe; reflexivity|exact Hlist].
Defined.

(** * Further properties *)

(** ** [calculate_savings]: failures *)

Lemma calculate_savings_with_app (prices : price_table) (l1 l2 : list pydict) :
  calculate_savings_with prices (l1 ++ l2)
  = (rs1 ← calculate_savings_with prices l1;
     rs2 ← calculate_savings_with prices l2;
     Ok (rs1 ++ rs2)%list).
Proof.
  induction l1 as [|d l1 IH]; simpl.
  - destruct (calculate_savings_with prices l2); reflexivity.
  - destruct (savings_record prices d) as [r|e]; [|reflexivity].
    rewrite !bind_Ok_l, IH.
    destruct (calculate_savings_with prices l1) as [rs1|e]; [|reflexivity].
    rewrite !bind_Ok_l.
    destruct (calculate_savings_with prices l2); reflexivity.
Qed.

(** The loop body on a disk with the seven keys, under the module's
    prices: the record, or the exception of the size. *)
Lemma savings_record_DISK_PRICES (disk : pydict)
    (name type size_gb zone region attached boot : pyval) :
  disk !! "Disk Name" = Some name →
  disk !! "Disk Type" = Some type →
  disk !! "Disk Size (GB)" = Some size_gb →
  disk !! "Zone" = Some zone →
  disk !! "Region" = Some region →
  disk !! "Attached To" = Some attached →
  disk !! "Is Boot Disk" = Some boot →
  savings_record DISK_PRICES disk
  = (size ← as_float size_gb;
     let c := {| current_cost := size * 0.17;
                 balanced_cost := size * 0.10;
                 monthly_savings := size * 0.17 - size * 0.10;
                 annual_savings := (size * 0.17 - size * 0.10) * 12 |}%float in
     ratio ← float_truediv (monthly_savings c) (current_cost c);
     Ok (record_of name type size_gb zone region attached boot c ratio)).
Proof.
  intros Hn Ht Hs Hz Hr Ha Hb. unfold savings_record.
  rewrite (disk_costs_DISK_PRICES _ _ _ Hr Hs).
  destruct (as_float size_gb) as [size|e]; [|reflexivity].
  rewrite !bind_Ok_l.
  rewrite (getitem_Some _ _ _ Hr), bind_Ok_l, (getitem_Some _ _ _ Hs), bind_Ok_l,
    (getitem_Some _ _ _ Hn), bind_Ok_l, (getitem_Some _ _ _ Ht), bind_Ok_l,
    (getitem_Some _ _ _ Hz), bind_Ok_l, (getitem_Some _ _ _ Ha), bind_Ok_l,
    (getitem_Some _ _ _ Hb), bind_Ok_l.
  reflexivity.
Qed.

Lemma example_disk_zero_raises (name zone region : string) :
  savings_record DISK_PRICES (example_disk name (VInt 0) zone region)
  = Raise ZeroDivisionError.
Proof.
  destruct (example_disk_lookup name (VInt 0) zone region)
    as (Hn & Ht & Hs & Hz & Hr & Ha & Hb).
  rewrite (savings_record_DISK_PRICES _ _ _ _ _ _ _ _ Hn Ht Hs Hz Hr Ha Hb).
  reflexivity.
Qed.

(** X1. The batch is all or nothing: when the records before [bad] can be
    built and the loop body raises on [bad], the call raises that
    exception, whatever follows; the records already built are lost. *)
Theorem first_failure_aborts_batch (prices : price_table)
    (good : list pydict) (bad : pydict) (rest rs : list pydict) (e : exn) :
  calculate_savings_with prices good = Ok rs →
  savings_record prices bad = Raise e →
  calculate_savings_with prices (good ++ bad :: rest) = Raise e.
Proof.
  intros Hgood Hbad. rewrite calculate_savings_with_app, Hgood, bind_Ok_l.
  cbn [calculate_savings_with]. rewrite Hbad. reflexivity.
Qed.

Lemma first_failure_aborts_batch_witness :
  calculate_savings ([disk_3] ++ example_disk "d0" (VInt 0) "us-west1-a" "us-west1" :: [disk_15])
  = Raise ZeroDivisionError.
Proof.
  destruct disk_3_totals as (rs & _ & _ & Hcalc & _).
  apply (first_failure_aborts_batch DISK_PRICES [disk_3] _ [disk_15] rs); [exact Hcalc|].
  apply example_disk_zero_raises.
Defined.

(** ** [calculate_savings]: missing keys and wrong types *)

Lemma savings_record_missing_copied (disk : pydict) (region size_gb : pyval)
    (size : float) (k : string) :
  disk !! "Region" = Some region →
  disk !! "Disk Size (GB)" = Some size_gb →
  as_float size_gb = Ok size →
  first_missing copied_keys disk = Some k →
  savings_record DISK_PRICES disk = Raise (KeyError k).
Proof.
  intros Hr Hs Hf Hk. unfold savings_record.
  rewrite (disk_costs_DISK_PRICES _ _ _ Hr Hs), Hf, !bind_Ok_l.
  rewrite (getitem_Some _ _ _ Hr), bind_Ok_l, (getitem_Some _ _ _ Hs), bind_Ok_l.
  unfold copied_keys in Hk. cbn [first_missing] in Hk.
  unfold getitem.
  repeat match type of Hk with
         | (if bool_decide (is_Some (disk !! ?key)) then _ else _) = _ =>
             destruct (disk !! key) as [?|] eqn:?;
             [rewrite bool_decide_eq_true_2 in Hk by eauto; rewrite bind_Ok_l
             |rewrite bool_decide_eq_false_2 in Hk by (intros [? ?]; discriminate);
              injection Hk as <-; reflexivity]
         end.
  discriminate Hk.
Qed.

(** X2. Which KeyError a disk record without one of its keys raises, under
    the module's prices: 'Region' first, then 'Disk Size (GB)'; with both
    present and a numeric size, the first missing one of 'Disk Name',
    'Disk Type', 'Zone', 'Attached To', 'Is Boot Disk', even for size 0
    (the lookup comes before the division). *)
Theorem missing_key_raises_KeyError (disk : pydict) :
  (disk !! "Region" = None → savings_record DISK_PRICES disk = Raise (KeyError "Region"))
  ∧ (is_Some (disk !! "Region") → disk !! "Disk Size (GB)" = None →
     savings_record DISK_PRICES disk = Raise (KeyError "Disk Size (GB)"))
  ∧ (∀ size_gb size k,
       is_Some (disk !! "Region") →
       disk !! "Disk Size (GB)" = Some size_gb →
       as_float size_gb = Ok size →
       first_missing copied_keys disk = Some k →
       savings_record DISK_PRICES disk = Raise (KeyError k)).
Proof.
  split; [|split].
  - intros H. unfold savings_record, disk_costs, getitem. rewrite H. reflexivity.
  - intros [region Hr] H. unfold savings_record, disk_costs, getitem. rewrite Hr, H. reflexivity.
  - intros size_gb size k [region Hr] Hs Hf Hk.
    eapply savings_record_missing_copied; eassumption.
Qed.

Lemma missing_key_raises_KeyError_witness :
  savings_record DISK_PRICES
    {[ "Region" := VStr "us-west1"; "Disk Size (GB)" := VInt 0; "Disk Name" := VStr "d" ]}
  = Raise (KeyError "Disk Type").
Proof.
  eapply (proj2 (proj2 (missing_key_raises_KeyError _)) (VInt 0) 0%float).
  - eexists. reflexivity.
  - reflexivity.
  - reflexivity.
  - reflexivity.
Defined.

(** X3. The default entry is looked up before the region's: a price table
    without 'default' raises KeyError 'default' for every disk that has a
    region and a size, also when the disk's region is in the table. *)
Theorem default_entry_is_required (prices : price_table) (disk : pydict) :
  is_Some (disk !! "Region") →
  is_Some (disk !! "Disk Size (GB)") →
  prices !! "default" = None →
  savings_record prices disk = Raise (KeyError "default").
Proof.
  intros [region Hr] [size_gb Hs] Hd.
  unfold savings_record, disk_costs, getitem. rewrite Hr, Hs. cbn [mbind res_bind].
  rewrite Hd. reflexivity.
Qed.

Lemma default_entry_is_required_witness :
  savings_record {[ "us-west1" := standard_prices ]} disk_3 = Raise (KeyError "default").
Proof.
  apply default_entry_is_required.
  - eexists. apply (example_disk_lookup "d" (VInt 3) "us-west1-a" "us-west1").
  - eexists. apply (example_disk_lookup "d" (VInt 3) "us-west1-a" "us-west1").
  - reflexivity.
Defined.

(** X4. A size that is a string, as a CSV reader delivers it, is not
    converted: with the module's prices the loop body raises TypeError for
    every disk that has a region; an integer too large for a double raises
    OverflowError. *)
Theorem non_numeric_size_raises (disk : pydict) (size_gb : pyval) :
  is_Some (disk !! "Region") →
  disk !! "Disk Size (GB)" = Some size_gb →
  (∀ s, size_gb = VStr s → savings_record DISK_PRICES disk = Raise TypeError)
  ∧ (∀ z, size_gb = VInt z → int_to_float z = Raise OverflowError →
          savings_record DISK_PRICES disk = Raise OverflowError).
Proof.
  intros [region Hr] Hs. split.
  - intros s ->. unfold savings_record.
    rewrite (disk_costs_DISK_PRICES _ _ _ Hr Hs). reflexivity.
  - intros z -> Hz. unfold savings_record.
    rewrite (disk_costs_DISK_PRICES _ _ _ Hr Hs). cbn [as_float]. rewrite Hz. reflexivity.
Qed.

Lemma non_numeric_size_raises_witness :
  savings_record DISK_PRICES (example_disk "d" (VStr "100") "us-west1-a" "us-west1")
  = Raise TypeError.
Proof.
  eapply (proj1 (non_numeric_size_raises _ (VStr "100") _ _)). reflexivity.
  Unshelve.
  - eexists. apply (example_disk_lookup "d" (VStr "100") "us-west1-a" "us-west1").
  - apply (example_disk_lookup "d" (VStr "100") "us-west1-a" "us-west1").
Defined.

(** ** [calculate_savings]: what the records hold *)

Lemma record_of_dom (name type size_gb zone region attached boot : pyval)
    (c : costs) (ratio : float) :
  dom (record_of name type size_gb zone region attached boot c ratio)
  = (list_to_set
       ["Disk Name"; "Disk Type"; "Disk Size (GB)"; "Zone"; "Region"; "Attached To";
        "Is Boot Disk"; "Current Monthly Cost (USD)"; "Balanced Monthly Cost (USD)";
        "Monthly Savings (USD)"; "Annual Savings (USD)"; "Savings Percentage"]
     : gset string).
Proof. unfold record_of. rewrite dom_list_to_map_L. reflexivity. Qed.

(** X5. A successful call returns as many records as there are disks, in
    the same order; the i-th record has the seven descriptive fields of
    the i-th disk unchanged and exactly twelve keys, so any other key of
    the input is dropped. *)
Theorem records_follow_the_disks (prices : price_table)
    (disk_data savings_data : list pydict) :
  calculate_savings_with prices disk_data = Ok savings_data →
  length savings_data = length disk_data
  ∧ ∀ (i : nat) (disk r : pydict),
      disk_data !! i = Some disk → savings_data !! i = Some r →
      r !! "Disk Name" = disk !! "Disk Name"
      ∧ r !! "Disk Type" = disk !! "Disk Type"
      ∧ r !! "Disk Size (GB)" = disk !! "Disk Size (GB)"
      ∧ r !! "Zone" = disk !! "Zone"
      ∧ r !! "Region" = disk !! "Region"
      ∧ r !! "Attached To" = disk !! "Attached To"
      ∧ r !! "Is Boot Disk" = disk !! "Is Boot Disk"
      ∧ dom r
        = list_to_set
            ["Disk Name"; "Disk Type"; "Disk Size (GB)"; "Zone"; "Region"; "Attached To";
             "Is Boot Disk"; "Current Monthly Cost (USD)"; "Balanced Monthly Cost (USD)";
             "Monthly Savings (USD)"; "Annual Savings (USD)"; "Savings Percentage"].
Proof.
  intros H. apply calculate_savings_with_Forall2 in H.
  split; [symmetry; eapply Forall2_length, H|].
  intros i disk r Hd Hr.
  pose proof (Forall2_lookup_lr _ _ _ _ _ _ H Hd Hr) as Hrec. cbv beta in Hrec.
  apply savings_record_inv in Hrec
    as (name & type & size_gb & zone & region & attached & boot & c & ratio
        & Hn & Ht & Hs & Hz & Hrg & Ha & Hb & _ & _ & ->).
  destruct (record_of_lookup name type size_gb zone region attached boot c ratio)
    as (Fn & Ft & Fs & Fz & Fr & Fa & Fb & _).
  rewrite Hn, Ht, Hs, Hz, Hrg, Ha, Hb.
  repeat (split; [assumption|]). apply record_of_dom.
Qed.

Lemma records_follow_the_disks_witness :
  ∃ r, calculate_savings [<["Labels" := VStr "x"]> disk_3] = Ok [r]
       ∧ r !! "Disk Name" = Some (VStr "d")
       ∧ r !! "Labels" = None.
Proof.
  destruct (example_disk_lookup "d" (VInt 3) "us-west1-a" "us-west1")
    as (Hn & Ht & Hs & Hz & Hr & Ha & Hb).
  assert (∃ r, calculate_savings [<["Labels" := VStr "x"]> disk_3] = Ok [r]) as [r Hcalc].
  { unfold calculate_savings. cbn [calculate_savings_with].
    erewrite savings_record_DISK_PRICES;
      try (rewrite lookup_insert_ne by discriminate; unfold disk_3; eassumption).
    cbn [as_float]. eexists. vm_compute int_to_float. rewrite !bind_Ok_l.
    cbv zeta. cbn [monthly_savings current_cost].
    replace (float_truediv (3 * 0.17 - 3 * 0.1) (3 * 0.17))
      with (Ok ((3 * 0.17 - 3 * 0.1) / (3 * 0.17))%float) by (vm_compute; reflexivity).
    rewrite !bind_Ok_l. reflexivity. }
  exists r. split; [exact Hcalc|].
  destruct (records_follow_the_disks DISK_PRICES _ _ Hcalc) as [_ Hfields].
  destruct (Hfields 0%nat _ r eq_refl eq_refl) as (Fn & _ & _ & _ & _ & _ & _ & Hdom).
  split.
  - rewrite Fn, lookup_insert_ne by discriminate. exact Hn.
  - apply not_elem_of_dom. rewrite Hdom. vm_compute. intros H.
    repeat (apply elem_of_cons in H as [H|H]; [discriminate H|]).
    inversion H.
Defined.

(** ** [calculate_savings]: sizes up to 16 TB *)

Lemma sizes_exact_spec (k : nat) (n0 n : Z) :
  sizes_exact k n0 = true → n0 ≤ n < n0 + Z.of_nat k → size_exact n = true.
Proof.
  revert n0. induction k as [|k IH]; intros n0 H Hn; [lia|].
  cbn [sizes_exact] in H. apply andb_true_iff in H as [H0 H].
  destruct (decide (n = n0)) as [->|Hne]; [exact H0|].
  apply (IH (n0 + 1)); [exact H|lia].
Qed.

(** Every size from 1 GB to 16 TB, by evaluation. *)
Lemma sizes_exact_to_max : sizes_exact (Z.to_nat checked_disk_gb) 1 = true.
Proof. vm_cast_no_check (eq_refl true). Qed.

Lemma size_exact_in_range (n : Z) : (1 ≤ n ≤ checked_disk_gb)%Z → size_exact n = true.
Proof.
  intros Hn. apply (sizes_exact_spec (Z.to_nat checked_disk_gb) 1); [apply sizes_exact_to_max|].
  unfold checked_disk_gb in *. lia.
Qed.

(** What [size_exact] says, as equations. *)
Lemma size_exact_inv (n : Z) :
  size_exact n = true →
  ∃ x c b m a,
    int_to_float n = Ok x
    ∧ cents (17 * n) = Ok c ∧ cents (10 * n) = Ok b
    ∧ cents (7 * n) = Ok m ∧ cents (84 * n) = Ok a
    ∧ py_round (x * 0.17) 2 = c
    ∧ py_round (x * 0.10) 2 = b
    ∧ py_round (x * 0.17 - x * 0.10) 2 = m
    ∧ py_round ((x * 0.17 - x * 0.10) * 12) 2 = a
    ∧ float_truediv (x * 0.17 - x * 0.10) (x * 0.17)
      = Ok ((x * 0.17 - x * 0.10) / (x * 0.17))%float
    ∧ py_round ((x * 0.17 - x * 0.10) / (x * 0.17) * 100) 1 = 41.2%float.
Proof.
  unfold size_exact. intros H.
  destruct (int_to_float n) as [x|]; [|discriminate H].
  destruct (cents (17 * n)) as [c|]; [|discriminate H].
  destruct (cents (10 * n)) as [b|]; [|discriminate H].
  destruct (cents (7 * n)) as [m|]; [|discriminate H].
  destruct (cents (84 * n)) as [a|]; [|discriminate H].
  cbv zeta in H.
  repeat match type of H with _ && _ = true => apply andb_true_iff in H as [H ?] end.
  repeat match goal with
         | E : Leibniz.eqb _ _ = true |- _ => apply Leibniz.eqb_spec in E
         end.
  exists x, c, b, m, a. repeat (split; [assumption || reflexivity|]).
  split; [|assumption].
  unfold float_truediv.
  match goal with E : negb ?t = true |- _ => apply negb_true_iff in E; rewrite E end.
  reflexivity.
Qed.

(** The loop body on a record with an integer size in the checked range. *)
Lemma savings_record_in_range (disk : pydict) (n : Z) :
  (1 ≤ n ≤ checked_disk_gb)%Z →
  disk !! "Disk Size (GB)" = Some (VInt n) →
  is_Some (disk !! "Region") → is_Some (disk !! "Disk Name") →
  is_Some (disk !! "Disk Type") → is_Some (disk !! "Zone") →
  is_Some (disk !! "Attached To") → is_Some (disk !! "Is Boot Disk") →
  ∃ r c b m a,
    savings_record DISK_PRICES disk = Ok r
    ∧ cents (17 * n) = Ok c ∧ cents (10 * n) = Ok b
    ∧ cents (7 * n) = Ok m ∧ cents (84 * n) = Ok a
    ∧ r !! "Current Monthly Cost (USD)" = Some (VFloat c)
    ∧ r !! "Balanced Monthly Cost (USD)" = Some (VFloat b)
    ∧ r !! "Monthly Savings (USD)" = Some (VFloat m)
    ∧ r !! "Annual Savings (USD)" = Some (VFloat a)
    ∧ r !! "Savings Percentage" = Some (VFloat 41.2).
Proof.
  intros Hn Hs [region Hr] [name Hname] [type Ht] [zone Hz] [attached Ha] [boot Hb].
  destruct (size_exact_inv n (size_exact_in_range n Hn))
    as (x & c & b & m & a & Hx & Hc & Hbal & Hm & Hann & Ec & Eb & Em & Ea & Hdiv & Ep).
  rewrite (savings_record_DISK_PRICES _ _ _ _ _ _ _ _ Hname Ht Hs Hz Hr Ha Hb).
  cbn [as_float]. rewrite Hx, bind_Ok_l. cbv zeta. cbn [monthly_savings current_cost].
  rewrite Hdiv, bind_Ok_l.
  eexists _, c, b, m, a. split; [reflexivity|].
  repeat (split; [assumption|]).
  match goal with
  | |- context [record_of ?n ?t ?s ?z ?r ?at' ?bt ?cs ?q] =>
      destruct (record_of_lookup n t s z r at' bt cs q)
        as (_ & _ & _ & _ & _ & _ & _ & Fc & Fb & Fm & Fa & Fp)
  end.
  cbn [current_cost balanced_cost monthly_savings annual_savings] in Fc, Fb, Fm, Fa.
  rewrite Ec in Fc. rewrite Eb in Fb. rewrite Em in Fm. rewrite Ea in Fa. rewrite Ep in Fp.
  repeat split; assumption.
Qed.

(** X6. For every disk record with an integer size from 1 GB to 16 TB
    (16384 GB) the loop body returns a record, under the module's prices,
    whose four money fields are the doubles nearest to 0.17 n, 0.10 n,
    0.07 n and 0.84 n (17 n, 10 n, 7 n and 84 n cents) and whose
    percentage is 41.2. *)
Theorem records_are_exact_to_the_cent (disk : pydict) (n : Z) :
  (1 ≤ n ≤ checked_disk_gb)%Z →
  disk !! "Disk Size (GB)" = Some (VInt n) →
  is_Some (disk !! "Region") → is_Some (disk !! "Disk Name") →
  is_Some (disk !! "Disk Type") → is_Some (disk !! "Zone") →
  is_Some (disk !! "Attached To") → is_Some (disk !! "Is Boot Disk") →
  ∃ r c b m a,
    savings_record DISK_PRICES disk = Ok r
    ∧ cents (17 * n) = Ok c ∧ cents (10 * n) = Ok b
    ∧ cents (7 * n) = Ok m ∧ cents (84 * n) = Ok a
    ∧ r !! "Current Monthly Cost (USD)" = Some (VFloat c)
    ∧ r !! "Balanced Monthly Cost (USD)" = Some (VFloat b)
    ∧ r !! "Monthly Savings (USD)" = Some (VFloat m)
    ∧ r !! "Annual Savings (USD)" = Some (VFloat a)
    ∧ r !! "Savings Percentage" = Some (VFloat 41.2).
Proof. exact (savings_record_in_range disk n). Qed.

Lemma records_are_exact_to_the_cent_witness :
  ∃ r, savings_record DISK_PRICES (disk_of_size 16384) = Ok r
       ∧ r !! "Current Monthly Cost (USD)" = Some (VFloat 2785.28)
       ∧ r !! "Savings Percentage" = Some (VFloat 41.2).
Proof.
  destruct (example_disk_lookup "d" (VInt 16384) "us-west1-a" "us-west1")
    as (Hn & Ht & Hs & Hz & Hr & Ha & Hb).
  destruct (records_are_exact_to_the_cent (disk_of_size 16384) 16384)
    as (r & c & b & m & a & Hrec & Hc & _ & _ & _ & Fc & _ & _ & _ & Fp);
    [unfold checked_disk_gb; lia | unfold disk_of_size; eauto ..|].
  exists r. split; [exact Hrec|]. split; [|exact Fp].
  rewrite Fc. do 2 f_equal.
  assert (cents (17 * 16384) = Ok 2785.28%float) as E by (vm_compute; reflexivity).
  rewrite E in Hc. injection Hc as <-. reflexivity.
Defined.

(** ** [create_excel_report]: what it accepts *)

Lemma create_excel_report_inv (data : list pydict) (wb : workbook) :
  create_excel_report data = Ok (Some wb) →
  data ≠ []
  ∧ report_totals data = Ok (wb_totals wb)
  ∧ summary_data data (wb_totals wb) = Ok (wb_summary wb)
  ∧ detail_rows data = Ok (wb_rows wb).
Proof.
  intros H. destruct data as [|d data]; [discriminate H|].
  unfold create_excel_report in H.
  apply bind_Ok in H as (t & Ht & H).
  apply bind_Ok in H as (s & Hs & H).
  apply bind_Ok in H as (rows & Hrows & H).
  injection H as <-. cbn [wb_totals wb_summary wb_rows].
  repeat split; [discriminate|assumption..].
Qed.

Lemma summary_data_count (data : list pydict) (t : totals) (s : summary) :
  summary_data data t = Ok s →
  disk_count s = length data ∧ disk_size s = total_disk_size t.
Proof.
  unfold summary_data. intros H. bind_inv H. injection H as <-. split; reflexivity.
Qed.

Lemma detail_row_inv (disk : pydict) (row : list cell) :
  detail_row disk = Ok row →
  Forall (fun k => is_Some (disk !! k)) detail_keys
  ∧ ∃ pct, disk !! "Savings Percentage" = Some pct ∧ row !! 10%nat = Some (CPercent pct).
Proof.
  unfold detail_row. intros H.
  apply bind_Ok in H as (name & Hn & H).
  apply bind_Ok in H as (size & Hs & H).
  apply bind_Ok in H as (boot & Hb & H).
  apply bind_Ok in H as (attached & Ha & H).
  apply bind_Ok in H as (zone & Hz & H).
  apply bind_Ok in H as (region & Hr & H).
  apply bind_Ok in H as (current & Hc & H).
  apply bind_Ok in H as (balanced & Hbal & H).
  apply bind_Ok in H as (monthly & Hm & H).
  apply bind_Ok in H as (annual & Hann & H).
  apply bind_Ok in H as (pct & Hp & H).
  injection H as <-.
  apply getitem_Ok in Hn, Hs, Hb, Ha, Hz, Hr, Hc, Hbal, Hm, Hann, Hp.
  split; [|exists pct; split; [assumption|reflexivity]].
  unfold detail_keys. repeat (constructor; [eauto|]). constructor.
Qed.

(** X7. [create_excel_report] returns a workbook only for a non-empty list
    in which every record has all eleven keys of the detail table; the
    workbook then has one row per record, in order, and the count of the
    summary is the number of records. *)
Theorem workbook_needs_complete_records (data : list pydict) (wb : workbook) :
  create_excel_report data = Ok (Some wb) →
  data ≠ []
  ∧ Forall (fun r : pydict => Forall (fun k => is_Some (r !! k)) detail_keys) data
  ∧ Forall2 (fun r row => detail_row r = Ok row) data (wb_rows wb)
  ∧ length (wb_rows wb) = length data
  ∧ disk_count (wb_summary wb) = length data.
Proof.
  intros H. apply create_excel_report_inv in H as (Hne & _ & Hs & Hrows).
  apply detail_rows_Forall2 in Hrows.
  split; [exact Hne|]. split.
  { clear Hs Hne. induction Hrows as [|r row data rows Hr _ IH]; constructor.
    - apply (proj1 (detail_row_inv _ _ Hr)).
    - apply IH. }
  split; [exact Hrows|]. split; [symmetry; eapply Forall2_length, Hrows|].
  apply (summary_data_count _ _ _ Hs).
Qed.

(** The report of one zero-cost record. *)
Lemma zero_cost_report :
  ∃ wb, create_excel_report [zero_cost_record] = Ok (Some wb).
Proof. eexists. unfold zero_cost_record. report_of_records. reflexivity. Qed.

Lemma workbook_needs_complete_records_witness :
  ∃ wb, create_excel_report [zero_cost_record] = Ok (Some wb)
        ∧ length (wb_rows wb) = 1%nat
        ∧ disk_count (wb_summary wb) = 1%nat.
Proof.
  destruct zero_cost_report as [wb Hwb]. exists wb. split; [exact Hwb|].
  destruct (workbook_needs_complete_records _ _ Hwb) as (_ & _ & _ & Hl & Hc).
  split; assumption.
Defined.

(** ** [create_excel_report] after [calculate_savings] *)

Lemma disk_costs_size (prices : price_table) (disk : pydict) (c : costs) :
  disk_costs prices disk = Ok c →
  ∃ size_gb x, disk !! "Disk Size (GB)" = Some size_gb ∧ as_float size_gb = Ok x.
Proof.
  unfold disk_costs. intros H.
  apply bind_Ok in H as (region & _ & H).
  apply bind_Ok in H as (size_gb & Hs & H).
  apply bind_Ok in H as (dflt & _ & H).
  apply bind_Ok in H as (ssd & _ & H).
  apply bind_Ok in H as (x & Hx & H).
  apply getitem_Ok in Hs. eauto.
Qed.

Lemma floats_of_numeric (vals : list pyval) :
  Forall (fun v => ∃ x, as_float v = Ok x) vals → ∃ xs, floats_of vals = Ok xs.
Proof.
  induction 1 as [|v vals [x Hx] _ [xs IH]]; [exists []; reflexivity|].
  exists (x :: xs). simpl. rewrite Hx, bind_Ok_l, IH. reflexivity.
Qed.

Lemma forallb_is_num (vals : list pyval) :
  Forall (fun v => ∃ x, as_float v = Ok x) vals → forallb is_num vals = true.
Proof.
  induction 1 as [|v vals [x Hx] _ IH]; [reflexivity|].
  simpl. rewrite IH. destruct v; [discriminate Hx|reflexivity..].
Qed.

(** A column of numbers has a sum. *)
Lemma column_sum_numeric (k : string) (data : list pydict) :
  data ≠ [] →
  Forall (fun r : pydict => ∃ v x, r !! k = Some v ∧ as_float v = Ok x) data →
  ∃ t, column_sum k data = Ok t.
Proof.
  intros Hne H. unfold column_sum, column.
  assert (existsb (fun d : pydict => bool_decide (is_Some (d !! k))) data = true) as ->.
  { destruct H as [|r data' (v & x & Hr & _) _]; [congruence|]. simpl.
    rewrite bool_decide_eq_true_2 by (rewrite Hr; eauto). reflexivity. }
  rewrite bind_Ok_l. unfold series_sum.
  set (vals := (fun d : pydict => default (VFloat nan) (d !! k)) <$> data).
  assert (Forall (fun v => ∃ x, as_float v = Ok x) vals) as Hvals.
  { unfold vals. apply Forall_fmap. eapply Forall_impl; [exact H|].
    intros r (v & x & Hr & Hx). simpl. rewrite Hr. eauto. }
  destruct (forallb is_int vals); [eauto|].
  rewrite (forallb_is_num _ Hvals).
  destruct (floats_of_numeric _ Hvals) as [xs ->]. rewrite bind_Ok_l. eauto.
Qed.

(** The report of records built by the loop body. *)
Lemma report_of_savings_records (prices : price_table)
    (disk_data savings_data : list pydict) :
  calculate_savings_with prices disk_data = Ok savings_data →
  savings_data ≠ [] →
  ∃ wb, create_excel_report savings_data = Ok (Some wb).
Proof.
  intros Hcalc Hne.
  destruct (calculate_savings_with_costs _ _ _ Hcalc) as (cs & Hcs & Hfs).
  apply calculate_savings_with_Forall2 in Hcalc.
  assert (∃ ts, column_sum "Disk Size (GB)" savings_data = Ok ts) as [ts Hts].
  { apply column_sum_numeric; [exact Hne|].
    clear Hne cs Hcs Hfs. induction Hcalc as [|disk r ? ? Hr _ IH]; constructor; [|exact IH].
    destruct (savings_record_copies _ _ _ Hr) as (_ & _ & -> & _).
    apply savings_record_inv in Hr
      as (n0 & t0 & s0 & z0 & r0 & a0 & b0 & c & q0
          & _ & _ & _ & _ & _ & _ & _ & Hc & _).
    destruct (disk_costs_size _ _ _ Hc) as (size_gb & x & Hs & Hx). eauto. }
  assert (∃ rows, detail_rows savings_data = Ok rows) as [rows Hrows].
  { clear Hne cs Hcs Hfs ts Hts.
    induction Hcalc as [|disk r ? ? Hr _ [rows IH]]; [exists []; reflexivity|].
    apply savings_record_inv in Hr
      as (n0 & t0 & s0 & z0 & r0 & a0 & b0 & c & q0
          & _ & _ & _ & _ & _ & _ & _ & _ & _ & ->).
    eexists. cbn [detail_rows]. rewrite detail_row_record_of, bind_Ok_l, IH, bind_Ok_l.
    reflexivity. }
  destruct savings_data as [|r0 rest]; [congruence|].
  unfold create_excel_report.
  erewrite report_totals_floats; [|discriminate| | | | |exact Hts].
  2: { apply Forall2_fmap_r with (f := fun c => py_round (monthly_savings c) 2).
       eapply Forall2_impl; [exact Hfs|]. intros r c H. apply H. }
  2: { apply Forall2_fmap_r with (f := fun c => py_round (annual_savings c) 2).
       eapply Forall2_impl; [exact Hfs|]. intros r c H. apply H. }
  2: { apply Forall2_fmap_r with (f := fun c => py_round (current_cost c) 2).
       eapply Forall2_impl; [exact Hfs|]. intros r c H. apply H. }
  2: { apply Forall2_fmap_r with (f := fun c => py_round (balanced_cost c) 2).
       eapply Forall2_impl; [exact Hfs|]. intros r c H. apply H. }
  rewrite bind_Ok_l. unfold summary_data, round_scalar.
  cbn [total_current_cost total_balanced_cost total_monthly_savings total_annual_savings
       avg_savings_pct total_disk_size].
  rewrite !bind_Ok_l.
  match goal with |- context [if ?b then VFloat ?x else VInt 0] => destruct b end;
    rewrite !bind_Ok_l, Hrows, bind_Ok_l; eexists; reflexivity.
Qed.

(** X8. Whatever [calculate_savings] returns for a non-empty list is
    accepted by [create_excel_report]: computing the totals, the summary
    and the rows raises no exception, there is one row per disk and the
    count of the summary is the number of disks. *)
Theorem report_accepts_savings_records (prices : price_table)
    (disk_data savings_data : list pydict) :
  calculate_savings_with prices disk_data = Ok savings_data →
  disk_data ≠ [] →
  ∃ wb, create_excel_report savings_data = Ok (Some wb)
        ∧ length (wb_rows wb) = length disk_data
        ∧ disk_count (wb_summary wb) = length disk_data.
Proof.
  intros Hcalc Hne.
  pose proof (proj1 (calculate_savings_with_Forall2 _ _ _) Hcalc) as Hpairs.
  assert (savings_data ≠ []) as Hne'.
  { intros ->. inversion Hpairs. congruence. }
  destruct (report_of_savings_records _ _ _ Hcalc Hne') as [wb Hwb].
  exists wb. split; [exact Hwb|].
  apply create_excel_report_inv in Hwb as (_ & _ & Hs & Hrows).
  apply detail_rows_Forall2 in Hrows.
  rewrite (proj1 (summary_data_count _ _ _ Hs)).
  rewrite <- (Forall2_length _ _ _ Hrows), <- (Forall2_length _ _ _ Hpairs).
  split; reflexivity.
Qed.

Lemma report_accepts_savings_records_witness :
  ∃ savings_data wb,
    calculate_savings [disk_3] = Ok savings_data
    ∧ create_excel_report savings_data = Ok (Some wb)
    ∧ length (wb_rows wb) = 1%nat.
Proof.
  destruct disk_3_totals as (savings_data & _ & _ & Hcalc & _).
  destruct (report_accepts_savings_records DISK_PRICES [disk_3] savings_data Hcalc)
    as (wb & Hwb & Hl & _); [discriminate|].
  exists savings_data, wb. repeat split; assumption.
Defined.

(** ** [get_ssd_disk_data]: zone by zone *)

Lemma collect_disks_acc (api : compute_api) (zone : string) (disks : list gcp_disk)
    (disk_data : list pydict) :
  collect_disks api zone disks disk_data
  = (disk_data ++ collect_disks api zone disks [])%list.
Proof.
  revert disk_data. induction disks as [|disk rest IH]; intros disk_data; simpl.
  - rewrite app_nil_r. reflexivity.
  - destruct (String.eqb _ "pd-ssd"); [|apply IH].
    destruct (py_int (d_sizeGb disk)) as [size|]; [|rewrite app_nil_r; reflexivity].
    rewrite IH, (IH [_]), app_assoc. reflexivity.
Qed.

Lemma collect_zones_concat (api : compute_api) (zones : list string)
    (disk_data : list pydict) :
  collect_zones api zones disk_data
  = (disk_data ++ concat (zone_part api <$> zones))%list.
Proof.
  revert disk_data. induction zones as [|zone rest IH]; intros disk_data; simpl.
  - rewrite app_nil_r. reflexivity.
  - rewrite IH. unfold zone_part at 2.
    destruct (disks_list api zone) as [disks|]; [|reflexivity].
    rewrite collect_disks_acc, app_assoc. reflexivity.
Qed.

(** X9. The collector works zone by zone: its result is the concatenation,
    in the order of the zones list, of what each us-west1 zone contributes
    on its own, and a zone whose disks cannot be listed contributes nothing
    without stopping the others. *)
Theorem collector_is_zone_by_zone (api : compute_api) (zones : list string) :
  zones_list api = Ok zones →
  get_ssd_disk_data api = Ok (concat (zone_part api <$> us_west1_zones zones))
  ∧ ∀ before zone e after,
      us_west1_zones zones = (before ++ zone :: after)%list →
      disks_list api zone = Raise e →
      get_ssd_disk_data api
      = Ok (concat (zone_part api <$> before) ++ concat (zone_part api <$> after))%list.
Proof.
  intros Hz.
  assert (get_ssd_disk_data api = Ok (concat (zone_part api <$> us_west1_zones zones))) as H.
  { unfold get_ssd_disk_data. rewrite Hz, bind_Ok_l, collect_zones_concat. reflexivity. }
  split; [exact H|].
  intros before zone e after Hsplit Herr. rewrite H, Hsplit.
  rewrite fmap_app, concat_app, fmap_cons, concat_cons.
  unfold zone_part at 2. rewrite Herr. reflexivity.
Qed.

Lemma collector_is_zone_by_zone_witness :
  get_ssd_disk_data malformed_api
  = Ok (concat (zone_part malformed_api <$> ["us-west1-a"]) ++ concat (zone_part malformed_api <$> []))%list.
Proof.
  apply (proj2 (collector_is_zone_by_zone malformed_api ["us-west1-a"; "us-west1-b"] eq_refl)
           ["us-west1-a"] "us-west1-b" ApiError []); reflexivity.
Defined.

(** ** One zone *)

Lemma collect_disks_app (api : compute_api) (zone : string) (pre post : list gcp_disk) :
  Forall (fun disk => is_ssd disk = true → ∃ size, py_int (d_sizeGb disk) = Ok size) pre →
  collect_disks api zone (pre ++ post) []
  = (zone_records api zone pre ++ collect_disks api zone post [])%list.
Proof.
  unfold zone_records.
  induction 1 as [|disk rest Hd _ IH]; [reflexivity|]. simpl. unfold is_ssd in *.
  destruct (String.eqb_spec (last_segment "/" (d_type disk)) "pd-ssd") as [E|_]; [|exact IH].
  destruct (Hd eq_refl) as [size Hsize].
  rewrite fmap_cons. unfold size_of at 1. rewrite Hsize, E.
  rewrite collect_disks_acc, IH. reflexivity.
Qed.

Lemma collect_disks_valid (api : compute_api) (zone : string) (disks : list gcp_disk) :
  Forall (fun disk => is_ssd disk = true → ∃ size, py_int (d_sizeGb disk) = Ok size) disks →
  collect_disks api zone disks [] = zone_records api zone disks.
Proof.
  intros H. pose proof (collect_disks_app api zone disks [] H) as E.
  rewrite !app_nil_r in E. exact E.
Qed.

(** X10. A zone in which the size of every SSD disk is a decimal integer
    contributes exactly one record per SSD disk, in the order of the
    listing, and none for a disk of another type. *)
Theorem zone_with_valid_sizes_is_complete (api : compute_api) (zone : string)
    (disks : list gcp_disk) :
  disks_list api zone = Ok disks →
  Forall (fun disk => is_ssd disk = true → ∃ size, py_int (d_sizeGb disk) = Ok size) disks →
  zone_part api zone
  = (fun disk => disk_record api zone disk "pd-ssd" (size_of disk)) <$> List.filter is_ssd disks.
Proof.
  intros Hd Hsizes. unfold zone_part. rewrite Hd. apply (collect_disks_valid _ _ _ Hsizes).
Qed.

Lemma zone_with_valid_sizes_is_complete_witness :
  zone_part two_disk_api "us-west1-a"
  = [disk_record two_disk_api "us-west1-a"
       {| d_name := "d1"; d_type := "zones/us-west1-a/diskTypes/pd-ssd";
          d_sizeGb := "100"; d_users := None |} "pd-ssd" 100].
Proof.
  apply (zone_with_valid_sizes_is_complete two_disk_api "us-west1-a" _ eq_refl).
  repeat constructor; intros H; [exists 100; reflexivity | discriminate H].
Defined.

(** X11. A malformed size ends the zone: when the size of an SSD disk is no
    integer, the zone contributes the records of the SSD disks listed
    before it and nothing for the disks listed after it, whatever they
    are. *)
Theorem malformed_size_truncates_zone (api : compute_api) (zone : string)
    (pre post : list gcp_disk) (bad : gcp_disk) (e : exn) :
  disks_list api zone = Ok (pre ++ bad :: post)%list →
  Forall (fun disk => is_ssd disk = true → ∃ size, py_int (d_sizeGb disk) = Ok size) pre →
  is_ssd bad = true →
  py_int (d_sizeGb bad) = Raise e →
  zone_part api zone
  = (fun disk => disk_record api zone disk "pd-ssd" (size_of disk)) <$> List.filter is_ssd pre.
Proof.
  intros Hd Hpre Hbad Hsize. unfold zone_part. rewrite Hd.
  rewrite (collect_disks_app _ _ _ _ Hpre). simpl.
  unfold is_ssd in Hbad. rewrite Hbad, Hsize. apply app_nil_r.
Qed.

Lemma malformed_size_truncates_zone_witness :
  zone_part malformed_api "us-west1-a"
  = [disk_record malformed_api "us-west1-a" (ssd_disk "d1" "100" None) "pd-ssd" 100].
Proof.
  apply (malformed_size_truncates_zone malformed_api "us-west1-a"
           [ssd_disk "d1" "100" None] [ssd_disk "d3" "50" None] (ssd_disk "d2" "1e3" None)
           ValueError eq_refl).
  - repeat constructor. intros _. exists 100. reflexivity.
  - reflexivity.
  - reflexivity.
Defined.

(** ** What the collector reads *)

Lemma collect_disks_ext (api api' : compute_api) (zone : string) (disks : list gcp_disk)
    (disk_data : list pydict) :
  (∀ instance, instances_get api zone instance = instances_get api' zone instance) →
  collect_disks api zone disks disk_data = collect_disks api' zone disks disk_data.
Proof.
  intros Hi. revert disk_data. induction disks as [|disk rest IH]; intros disk_data; simpl.
  - reflexivity.
  - destruct (String.eqb _ "pd-ssd"); [|apply IH].
    destruct (py_int (d_sizeGb disk)) as [size|]; [|reflexivity].
    rewrite IH. unfold disk_record, attachment. destruct (d_users disk) as [[|user others]|];
      rewrite ?Hi; reflexivity.
Qed.

Lemma collect_zones_ext (api api' : compute_api) (zones : list string)
    (disk_data : list pydict) :
  (∀ zone, zone ∈ zones →
     disks_list api zone = disks_list api' zone
     ∧ ∀ instance, instances_get api zone instance = instances_get api' zone instance) →
  collect_zones api zones disk_data = collect_zones api' zones disk_data.
Proof.
  revert disk_data. induction zones as [|zone rest IH]; intros disk_data H; simpl.
  - reflexivity.
  - destruct (H zone) as [Hd Hi]; [left|]. rewrite <- Hd.
    destruct (disks_list api zone) as [disks|].
    + rewrite (collect_disks_ext api api' zone disks disk_data Hi).
      apply IH. intros z Hz. apply H. right. exact Hz.
    + apply IH. intros z Hz. apply H. right. exact Hz.
Qed.

(** X12. The collector reads nothing outside us-west1: two projects with
    the same list of zones that agree on the disks and the instances of
    every zone whose name starts with us-west1- give the same result,
    whatever their other zones hold. *)
Theorem other_zones_are_ignored (api api' : compute_api) :
  zones_list api = zones_list api' →
  (∀ zone, startswith zone "us-west1-" = true →
     disks_list api zone = disks_list api' zone
     ∧ ∀ instance, instances_get api zone instance = instances_get api' zone instance) →
  get_ssd_disk_data api = get_ssd_disk_data api'.
Proof.
  intros Hz H. unfold get_ssd_disk_data. rewrite <- Hz.
  destruct (zones_list api) as [zones|e]; [|reflexivity].
  rewrite !bind_Ok_l. f_equal. apply collect_zones_ext.
  intros zone Hzone. apply H.
  apply list_elem_of_In, filter_In in Hzone. apply Hzone.
Qed.

Lemma other_zones_are_ignored_witness :
  get_ssd_disk_data two_disk_api = get_ssd_disk_data two_disk_api'.
Proof.
  apply (other_zones_are_ignored two_disk_api two_disk_api' eq_refl).
  intros zone Hzone. split; [|reflexivity].
  unfold two_disk_api' at 1. cbn [disks_list]. rewrite Hzone. reflexivity.
Defined.

(** ** Attachment *)

Lemma is_boot_disk_true (disks : list attached_disk) (disk_name : string) :
  is_boot_disk disks disk_name = true
  ↔ ∃ ad, ad ∈ disks
          ∧ endswith (default "" (ad_source ad)) disk_name = true
          ∧ ad_boot ad = Some true.
Proof.
  unfold is_boot_disk. rewrite existsb_exists. split.
  - intros (ad & Hin & H). apply andb_true_iff in H as [He Hb].
    exists ad. split; [apply list_elem_of_In, Hin|]. split; [exact He|].
    destruct (ad_boot ad) as [[|]|]; [reflexivity|discriminate Hb..].
  - intros (ad & Hin & He & Hb). exists ad. split; [apply list_elem_of_In, Hin|].
    rewrite He, Hb. reflexivity.
Qed.

(** X13. A disk with users is reported as attached to the instance named
    by the last segment of its first user, whatever the other users are;
    it is a boot disk exactly when that instance could be read and lists
    a boot disk whose source ends with the name of the disk, so a failed
    lookup gives No. A disk without users is Not attached and no boot
    disk. *)
Theorem attachment_uses_first_user (api : compute_api) (zone : string) (disk : gcp_disk)
    (disk_type : string) (disk_size_gb : Z) :
  let r := disk_record api zone disk disk_type disk_size_gb in
  (∀ user others, d_users disk = Some (user :: others) →
     r !! "Attached To" = Some (VStr (last_segment "/" user))
     ∧ (r !! "Is Boot Disk" = Some (VStr "Yes") ∨ r !! "Is Boot Disk" = Some (VStr "No"))
     ∧ (r !! "Is Boot Disk" = Some (VStr "Yes")
        ↔ ∃ instance ad,
            instances_get api zone (last_segment "/" user) = Ok instance
            ∧ ad ∈ default [] instance
            ∧ endswith (default "" (ad_source ad)) (d_name disk) = true
            ∧ ad_boot ad = Some true))
  ∧ (d_users disk = None ∨ d_users disk = Some [] →
     r !! "Attached To" = Some (VStr "Not attached")
     ∧ r !! "Is Boot Disk" = Some (VStr "No")).
Proof.
  intros r. unfold r, disk_record, attachment. split.
  - intros user others ->. split; [lookup_literal; reflexivity|].
    destruct (instances_get api zone (last_segment "/" user)) as [instance|e] eqn:Hi.
    + destruct (is_boot_disk (default [] instance) (d_name disk)) eqn:Hb.
      * split; [left; lookup_literal; reflexivity|].
        split; [intros _|intros _; lookup_literal; reflexivity].
        apply is_boot_disk_true in Hb as (ad & Hin & He & Hboot).
        exists instance, ad. repeat split; assumption.
      * split; [right; lookup_literal; reflexivity|].
        split; [lookup_literal; intros H; discriminate H|].
        intros (instance' & ad & Hi' & Hin & He & Hboot).
        injection Hi' as <-.
        assert (is_boot_disk (default [] instance) (d_name disk) = true) as Hb'
          by (apply is_boot_disk_true; exists ad; repeat split; assumption).
        congruence.
    + split; [right; lookup_literal; reflexivity|].
      split; [lookup_literal; intros H; discriminate H|].
      intros (instance' & ad & Hi' & _). discriminate Hi'.
  - intros [-> | ->]; split; lookup_literal; reflexivity.
Qed.

Lemma attachment_uses_first_user_witness :
  let r := disk_record boot_disk_api "us-west1-a"
             (ssd_disk "d1" "100" (Some ["zones/us-west1-a/instances/vm1";
                                          "zones/us-west1-a/instances/vm2"])) "pd-ssd" 100 in
  r !! "Attached To" = Some (VStr "vm1") ∧ r !! "Is Boot Disk" = Some (VStr "Yes").
Proof.
  intros r.
  destruct (proj1 (attachment_uses_first_user boot_disk_api "us-west1-a"
             (ssd_disk "d1" "100" (Some ["zones/us-west1-a/instances/vm1";
                                          "zones/us-west1-a/instances/vm2"])) "pd-ssd" 100)
             "zones/us-west1-a/instances/vm1" ["zones/us-west1-a/instances/vm2"] eq_refl)
    as (Ha & _ & Hb).
  split; [exact Ha|]. apply Hb.
  exists (Some [ {| ad_source := Some "zones/us-west1-a/disks/d1"; ad_boot := Some true |} ]),
    {| ad_source := Some "zones/us-west1-a/disks/d1"; ad_boot := Some true |}.
  split; [reflexivity|]. split; [left|]. split; reflexivity.
Defined.

(** ** [main] *)

Lemma disk_record_keys (api : compute_api) (zone : string) (disk : gcp_disk)
    (disk_type : string) (disk_size_gb : Z) :
  let r := disk_record api zone disk disk_type disk_size_gb in
  r !! "Disk Size (GB)" = Some (VInt disk_size_gb)
  ∧ is_Some (r !! "Region") ∧ is_Some (r !! "Disk Name")
  ∧ is_Some (r !! "Disk Type") ∧ is_Some (r !! "Zone")
  ∧ is_Some (r !! "Attached To") ∧ is_Some (r !! "Is Boot Disk").
Proof.
  intros r. unfold r, disk_record. destruct (attachment api zone disk) as [attached_to is_boot].
  repeat split; lookup_literal; eauto.
Qed.

Lemma Forall_exists_Forall2 {A B : Type} (P : A → B → Prop) (l : list A) :
  Forall (fun a => ∃ b, P a b) l → ∃ l', Forall2 P l l'.
Proof.
  induction 1 as [|a l [b Hb] _ [l' IH]]; [exists []; constructor|].
  exists (b :: l'). constructor; assumption.
Qed.

Lemma main_Ok (api : compute_api) (disk_data savings_data : list pydict) (wb : workbook) :
  get_ssd_disk_data api = Ok disk_data →
  disk_data ≠ [] →
  calculate_savings disk_data = Ok savings_data →
  create_excel_report savings_data = Ok (Some wb) →
  main api = Ok (Some wb).
Proof.
  intros Hget Hne Hcalc Hrep. unfold main. rewrite Hget, bind_Ok_l.
  destruct disk_data; [congruence|]. rewrite Hcalc, bind_Ok_l. exact Hrep.
Qed.

(** X14. When the collector finds at least one disk and every size it
    recorded is between 1 GB and 16 TB, [main] gets through: no step
    raises, the report has one row per collected disk, the summary counts
    them, its total size is the sum of the sizes and every row shows
    41.2 percent. *)
Theorem main_reports_every_disk (api : compute_api) (disk_data : list pydict) :
  get_ssd_disk_data api = Ok disk_data →
  disk_data ≠ [] →
  Forall (fun r => 1 ≤ int_at "Disk Size (GB)" r ≤ checked_disk_gb)%Z disk_data →
  ∃ wb, main api = Ok (Some wb)
        ∧ length (wb_rows wb) = length disk_data
        ∧ disk_count (wb_summary wb) = length disk_data
        ∧ disk_size (wb_summary wb)
          = VInt (foldr Z.add 0 (int_at "Disk Size (GB)" <$> disk_data))
        ∧ Forall (fun row => row !! 10%nat = Some (CPercent (VFloat 41.2))) (wb_rows wb).
Proof.
  intros Hget Hne Hrange.
  destruct (get_ssd_disk_data_collected _ _ Hget) as (zones & _ & Hcoll).
  assert (Forall (fun d : pydict => ∃ r : pydict,
            savings_record DISK_PRICES d = Ok r
            ∧ r !! "Savings Percentage" = Some (VFloat 41.2)
            ∧ (∃ z, r !! "Disk Size (GB)" = Some (VInt z))
            ∧ int_at "Disk Size (GB)" r = int_at "Disk Size (GB)" d) disk_data) as Hrecs.
  { apply Forall_forall. intros d Hd.
    rewrite Forall_forall in Hrange, Hcoll.
    specialize (Hrange d Hd).
    destruct (Hcoll d Hd) as (zone & disks & disk & size & _ & _ & _ & _ & _ & ->).
    destruct (disk_record_keys api zone disk "pd-ssd" size)
      as (Hs & Hr & Hn & Ht & Hz & Ha & Hb).
    unfold int_at in Hrange. rewrite Hs in Hrange. simpl in Hrange.
    destruct (savings_record_in_range _ size Hrange Hs Hr Hn Ht Hz Ha Hb)
      as (r & c & b & m & a & Hrec & _ & _ & _ & _ & _ & _ & _ & _ & Hp).
    exists r. split; [exact Hrec|]. split; [exact Hp|].
    destruct (savings_record_copies _ _ _ Hrec) as (_ & _ & Hsize & _).
    unfold int_at. rewrite Hsize, Hs. split; [eauto|reflexivity]. }
  apply Forall_exists_Forall2 in Hrecs as [savings_data Hpairs].
  assert (calculate_savings disk_data = Ok savings_data) as Hcalc.
  { apply calculate_savings_with_Forall2.
    eapply Forall2_impl; [exact Hpairs|]. intros d r H. apply H. }
  assert (savings_data ≠ []) as Hne'.
  { intros ->. inversion Hpairs. congruence. }
  destruct (report_of_savings_records _ _ _ Hcalc Hne') as [wb Hwb].
  exists wb. split; [exact (main_Ok _ _ _ _ Hget Hne Hcalc Hwb)|].
  apply create_excel_report_inv in Hwb as (_ & Htot & Hsum & Hrows).
  apply detail_rows_Forall2 in Hrows.
  destruct (summary_data_count _ _ _ Hsum) as [Hcount Hsize].
  rewrite Hcount, Hsize, <- (Forall2_length _ _ _ Hrows), <- (Forall2_length _ _ _ Hpairs).
  split; [reflexivity|]. split; [reflexivity|]. split.
  - apply report_totals_inv in Htot as (_ & _ & _ & _ & Hcol & _).
    rewrite column_sum_ints_Forall in Hcol.
    + injection Hcol as <-. do 2 f_equal.
      clear -Hpairs. induction Hpairs as [|d r ds rs (_ & _ & _ & E) _ IH]; [reflexivity|].
      rewrite !fmap_cons, IH. f_equal. exact E.
    + exact Hne'.
    + clear -Hpairs. induction Hpairs as [|d r ds rs (_ & _ & E & _) _ IH]; constructor;
        assumption.
  - clear -Hpairs Hrows. revert disk_data Hpairs.
    induction Hrows as [|r row rs rows Hrow _ IH]; intros disk_data Hpairs; constructor.
    + inversion Hpairs as [|d r' ds rs' (_ & Hp & _) _]; subst.
      destruct (detail_row_inv _ _ Hrow) as (_ & pct & Hpct & Hcell).
      rewrite Hp in Hpct. injection Hpct as <-. exact Hcell.
    + inversion Hpairs; subst. eapply IH. eassumption.
Qed.

Lemma two_disk_collected :
  get_ssd_disk_data two_disk_api
  = Ok [disk_record two_disk_api "us-west1-a"
          {| d_name := "d1"; d_type := "zones/us-west1-a/diskTypes/pd-ssd";
             d_sizeGb := "100"; d_users := None |} "pd-ssd" 100].
Proof. reflexivity. Qed.

Lemma main_reports_every_disk_witness :
  ∃ wb, main two_disk_api = Ok (Some wb)
        ∧ length (wb_rows wb) = 1%nat
        ∧ disk_size (wb_summary wb) = VInt 100.
Proof.
  destruct (main_reports_every_disk two_disk_api _ two_disk_collected)
    as (wb & Hmain & Hl & _ & Hs & _).
  - discriminate.
  - constructor; [|constructor]. unfold int_at.
    rewrite (proj1 (disk_record_keys _ _ _ _ _)). unfold checked_disk_gb. simpl. lia.
  - exists wb. split; [exact Hmain|]. split; [exact Hl|].
    rewrite Hs. unfold int_at. rewrite fmap_cons, (proj1 (disk_record_keys _ _ _ _ _)).
    reflexivity.
Defined.

Lemma zero_size_never_Ok (disk r : pydict) :
  disk !! "Disk Size (GB)" = Some (VInt 0) →
  savings_record DISK_PRICES disk = Ok r → False.
Proof.
  intros Hs H.
  apply savings_record_inv in H
    as (n0 & t0 & s0 & z0 & r0 & a0 & b0 & c & q0
        & _ & _ & _ & _ & Hr & _ & _ & Hc & Hdiv & _).
  rewrite (disk_costs_DISK_PRICES _ _ _ Hr Hs) in Hc.
  assert (as_float (VInt 0) = Ok 0%float) as E by reflexivity.
  rewrite E, bind_Ok_l in Hc. injection Hc as <-.
  cbn [monthly_savings current_cost] in Hdiv. vm_compute in Hdiv. discriminate Hdiv.
Qed.

(** X15. One disk of size 0 among the collected ones stops [main]: the
    savings calculation raises, so no report is produced for any disk. *)
Theorem main_fails_on_zero_size (api : compute_api) (disk_data : list pydict) (r : pydict) :
  get_ssd_disk_data api = Ok disk_data →
  r ∈ disk_data →
  r !! "Disk Size (GB)" = Some (VInt 0) →
  ∃ e, main api = Raise e.
Proof.
  intros Hget Hin Hs. unfold main. rewrite Hget, bind_Ok_l.
  destruct disk_data as [|d rest] eqn:Hd; [inversion Hin|]. rewrite <- Hd in *. clear Hd.
  destruct (calculate_savings disk_data) as [savings_data|e] eqn:Hcalc; [|eauto].
  exfalso. apply calculate_savings_with_Forall2 in Hcalc.
  apply list_elem_of_lookup in Hin as [i Hi].
  destruct (Forall2_lookup_l _ _ _ _ _ Hcalc Hi) as (r' & _ & Hr').
  exact (zero_size_never_Ok _ _ Hs Hr').
Qed.

Lemma boot_disk_collected :
  get_ssd_disk_data boot_disk_api
  = Ok [disk_record boot_disk_api "us-west1-a"
          (ssd_disk "d1" "100" (Some ["zones/us-west1-a/instances/vm1";
                                       "zones/us-west1-a/instances/vm2"])) "pd-ssd" 100;
        disk_record boot_disk_api "us-west1-a" (ssd_disk "d0" "0" None) "pd-ssd" 0].
Proof. reflexivity. Qed.

Lemma main_fails_on_zero_size_witness : ∃ e, main boot_disk_api = Raise e.
Proof.
  apply (main_fails_on_zero_size boot_disk_api _
           (disk_record boot_disk_api "us-west1-a" (ssd_disk "d0" "0" None) "pd-ssd" 0)
           boot_disk_collected).
  - do 2 constructor.
  - apply disk_record_keys.
Defined.

(** ** The sheet of the inventory *)

Section InventorySheet.
Local Open Scope Z_scope.

Lemma cell_set_cell (w : Inventory.worksheet) (row col : Z) (v : pyval) (r c : Z) :
  Inventory.cell_value (Inventory.set_cell w row col v) r c
  = if decide (r = row ∧ c = col) then Some v else Inventory.cell_value w r c.
Proof.
  unfold Inventory.cell_value, Inventory.set_cell.
  destruct (decide (r = row ∧ c = col)) as [[-> ->]|Hne].
  - apply lookup_insert_eq.
  - apply lookup_insert_ne. intros [= <- <-]. apply Hne. split; reflexivity.
Qed.

(** Reads a cell through the writes before it. *)
Ltac cells :=
  unfold Inventory.new_additional_row;
  repeat (rewrite cell_set_cell;
          match goal with
          | |- context [decide ?P] => destruct (decide P); [try lia|try lia]
          end).

Ltac cells_in H :=
  unfold Inventory.new_additional_row in H;
  repeat (rewrite cell_set_cell in H;
          match type of H with
          | context [decide ?P] => destruct (decide P); [try lia|try lia]
          end).

Lemma write_boot_spec (st : Inventory.sheet_state) (b : Inventory.vm_disk) :
  sheet_inv st →
  let st' := Inventory.write_boot st b in
  sheet_inv st'
  ∧ Inventory.row_num st' = Inventory.row_num st + 1
  ∧ boot_placed (Inventory.ws st') b (Inventory.row_num st)
  ∧ Inventory.vm_to_row st'
    = <[Inventory.v_vm_name b := Inventory.row_num st]> (Inventory.vm_to_row st)
  ∧ (∀ r c, r < Inventory.row_num st →
       Inventory.cell_value (Inventory.ws st') r c
       = Inventory.cell_value (Inventory.ws st) r c)
  ∧ (∀ r c, Inventory.row_num st ≤ r → c = 5 ∨ c = 6 ∨ c = 7 →
       Inventory.cell_value (Inventory.ws st') r c
       = Inventory.cell_value (Inventory.ws st) r c).
Proof.
  intros (Hn & Hcells & Hvm & Hrows). cbv zeta.
  unfold Inventory.write_boot. cbn [Inventory.ws Inventory.row_num Inventory.vm_to_row].
  split; [|split; [reflexivity|split; [|split; [reflexivity|split]]]].
  - unfold sheet_inv. cbn [Inventory.ws Inventory.row_num Inventory.vm_to_row].
    split; [lia|]. split; [|split].
    + intros r c H. cells_in H;
        try (specialize (Hcells r c H); lia).
    + intros vm row H.
      destruct (decide (Inventory.v_vm_name b = vm)) as [<-|Hne].
      * rewrite lookup_insert_eq in H. injection H as <-. split; [lia|]. cells. reflexivity.
      * rewrite lookup_insert_ne in H by exact Hne.
        destruct (Hvm vm row H) as [Hr H1]. split; [lia|]. cells. exact H1.
    + intros r Hr. destruct (decide (r = Inventory.row_num st)) as [->|Hne].
      * split; [cells; eauto|]. split; [cells; eauto|]. left. cells; eauto.
      * destruct (Hrows r) as (H1 & H8 & H25); [lia|].
        split; [cells; exact H1|]. split; [cells; exact H8|].
        destruct H25 as [H2|H5]; [left|right]; cells; assumption.
  - unfold boot_placed. repeat split; cells; reflexivity.
  - intros r c Hr. cells. reflexivity.
  - intros r c Hr Hc. cells. reflexivity.
Qed.

Lemma write_additional_spec (st : Inventory.sheet_state) (a : Inventory.vm_disk) :
  sheet_inv st →
  let st' := Inventory.write_additional st a in
  let t := target st a in
  sheet_inv st'
  ∧ Inventory.row_num st ≤ Inventory.row_num st' ≤ Inventory.row_num st + 1
  ∧ 2 ≤ t < Inventory.row_num st'
  ∧ Inventory.cell_value (Inventory.ws st) t 5 = None
  ∧ placed (Inventory.ws st') a t
  ∧ (∀ r c, r < Inventory.row_num st → r ≠ t ∨ (c ≠ 5 ∧ c ≠ 6 ∧ c ≠ 7) →
       Inventory.cell_value (Inventory.ws st') r c
       = Inventory.cell_value (Inventory.ws st) r c)
  ∧ (∀ vm, vm ≠ Inventory.v_vm_name a →
       Inventory.vm_to_row st' !! vm = Inventory.vm_to_row st !! vm).
Proof.
  intros (Hn & Hcells & Hvm & Hrows). cbv zeta.
  assert (∀ c, Inventory.cell_value (Inventory.ws st) (Inventory.row_num st) c = None)
    as Hfree.
  { intros c. destruct (Inventory.cell_value _ _ c) eqn:E; [|reflexivity].
    assert (is_Some (Inventory.cell_value (Inventory.ws st) (Inventory.row_num st) c)) as H
      by (rewrite E; eauto).
    apply Hcells in H. lia. }
  unfold Inventory.write_additional, target.
  destruct (Inventory.vm_to_row st !! Inventory.v_vm_name a) as [row|] eqn:Hrow.
  - destruct (Hvm _ _ Hrow) as [Hr Hname].
    destruct (Inventory.cell_value (Inventory.ws st) row 5) as [v|] eqn:H5.
    + cbn [Inventory.ws Inventory.row_num Inventory.vm_to_row].
      split; [|split; [lia|split; [lia|split; [apply Hfree|split; [|split]]]]].
      * unfold sheet_inv. cbn [Inventory.ws Inventory.row_num Inventory.vm_to_row].
        split; [lia|]. split; [|split].
        -- intros r c H. cells_in H; try (specialize (Hcells r c H); lia).
        -- intros vm row' H. destruct (Hvm vm row' H) as [Hr' H1]. split; [lia|].
           cells. exact H1.
        -- intros r Hr'. destruct (decide (r = Inventory.row_num st)) as [->|Hne].
           ++ split; [cells; eauto|]. split; [cells; eauto|]. right. cells; eauto.
           ++ destruct (Hrows r) as (H1 & H8 & H25); [lia|].
              split; [cells; exact H1|]. split; [cells; exact H8|].
              destruct H25 as [H2|H5']; [left|right]; cells; assumption.
      * unfold placed. repeat split; cells; reflexivity.
      * intros r c Hr' _. cells. reflexivity.
      * reflexivity.
    + cbn [Inventory.ws Inventory.row_num Inventory.vm_to_row].
      split; [|split; [lia|split; [lia|split; [exact H5|split; [|split]]]]].
      * unfold sheet_inv. cbn [Inventory.ws Inventory.row_num Inventory.vm_to_row].
        split; [lia|]. split; [|split].
        -- intros r c H. cells_in H; try (specialize (Hcells r c H); lia).
        -- intros vm row' H. destruct (Hvm vm row' H) as [Hr' H1]. split; [lia|].
           cells. exact H1.
        -- intros r Hr'. destruct (Hrows r) as (H1 & H8 & H25); [lia|].
           split; [cells; exact H1|]. split; [cells; exact H8|].
           destruct H25 as [H2|H5']; [left; cells; assumption|right].
           cells; eauto.
      * unfold placed. split; [cells; exact Hname|]. repeat split; cells; reflexivity.
      * intros r c Hr' Hc. cells; reflexivity.
      * reflexivity.
  - cbn [Inventory.ws Inventory.row_num Inventory.vm_to_row].
    split; [|split; [lia|split; [lia|split; [apply Hfree|split; [|split]]]]].
    + unfold sheet_inv. cbn [Inventory.ws Inventory.row_num Inventory.vm_to_row].
      split; [lia|]. split; [|split].
      * intros r c H. cells_in H; try (specialize (Hcells r c H); lia).
      * intros vm row H.
        destruct (decide (Inventory.v_vm_name a = vm)) as [<-|Hne].
        -- rewrite lookup_insert_eq in H. injection H as <-. split; [lia|]. cells. reflexivity.
        -- rewrite lookup_insert_ne in H by exact Hne.
           destruct (Hvm vm row H) as [Hr H1]. split; [lia|]. cells. exact H1.
      * intros r Hr'. destruct (decide (r = Inventory.row_num st)) as [->|Hne].
        -- split; [cells; eauto|]. split; [cells; eauto|]. right. cells; eauto.
        -- destruct (Hrows r) as (H1 & H8 & H25); [lia|].
           split; [cells; exact H1|]. split; [cells; exact H8|].
           destruct H25 as [H2|H5']; [left|right]; cells; assumption.
    + unfold placed. repeat split; cells; reflexivity.
    + intros r c Hr' _. cells. reflexivity.
    + intros vm Hne. apply lookup_insert_ne. congruence.
Qed.

Lemma write_headers_cell (n : Z) (hs : list string) (w : Inventory.worksheet) (r c : Z) :
  Inventory.cell_value (Inventory.write_headers n hs w) r c
  = match (if decide (r = 1 ∧ n ≤ c) then hs !! Z.to_nat (c - n) else None) with
    | Some h => Some (VStr h)
    | None => Inventory.cell_value w r c
    end.
Proof.
  revert n w. induction hs as [|h rest IH]; intros n w; simpl.
  - destruct (decide (r = 1 ∧ n ≤ c)); reflexivity.
  - rewrite IH, cell_set_cell.
    destruct (decide (r = 1 ∧ n + 1 ≤ c)) as [[-> Hc]|Hc].
    + destruct (decide (1 = 1 ∧ n ≤ c)) as [_|?]; [|lia].
      replace (Z.to_nat (c - n)) with (S (Z.to_nat (c - (n + 1)))) by lia.
      simpl. destruct (rest !! Z.to_nat (c - (n + 1))); [reflexivity|].
      destruct (decide (1 = 1 ∧ c = n)); [lia|reflexivity].
    + destruct (decide (r = 1 ∧ n ≤ c)) as [[-> Hc']|Hc'].
      * assert (c = n) as -> by lia. rewrite Z.sub_diag. simpl.
        destruct (decide (1 = 1 ∧ n = n)); [reflexivity|lia].
      * destruct (decide (r = 1 ∧ c = n)); [lia|reflexivity].
Qed.

Lemma empty_sheet_inv : sheet_inv Inventory.empty_sheet.
Proof.
  unfold sheet_inv, Inventory.empty_sheet.
  cbn [Inventory.ws Inventory.row_num Inventory.vm_to_row].
  split; [lia|]. split; [|split].
  - intros r c H. rewrite write_headers_cell in H.
    destruct (decide (r = 1 ∧ 1 ≤ c)) as [[-> _]|_]; [lia|].
    cbv beta iota in H. exfalso. exact (lookup_empty_is_Some _ H).
  - intros vm row H. rewrite lookup_empty in H. discriminate H.
  - intros r Hr. lia.
Qed.

Lemma write_additional_frozen (st : Inventory.sheet_state) (a : Inventory.vm_disk)
    (r c : Z) :
  sheet_inv st → frozen st r c →
  Inventory.cell_value (Inventory.ws (Inventory.write_additional st a)) r c
  = Inventory.cell_value (Inventory.ws st) r c.
Proof.
  intros Hinv [Hr Hc].
  destruct (write_additional_spec st a Hinv) as (_ & _ & _ & H5 & _ & Hsame & _).
  apply Hsame; [exact Hr|].
  destruct Hc as [Hc|Hc]; [right; exact Hc|left].
  intros ->. rewrite H5 in Hc. destruct Hc as [? Hc]. discriminate Hc.
Qed.

Lemma boot_loop_spec (st : Inventory.sheet_state) (bs : list Inventory.vm_disk) :
  sheet_inv st →
  let st' := foldl Inventory.write_boot st bs in
  sheet_inv st'
  ∧ Inventory.row_num st' = Inventory.row_num st + Z.of_nat (length bs)
  ∧ (∀ r c, r < Inventory.row_num st →
       Inventory.cell_value (Inventory.ws st') r c
       = Inventory.cell_value (Inventory.ws st) r c)
  ∧ (∀ (i : nat) b, bs !! i = Some b →
       boot_placed (Inventory.ws st') b (Inventory.row_num st + Z.of_nat i))
  ∧ (∀ r c, Inventory.row_num st ≤ r → c = 5 ∨ c = 6 ∨ c = 7 →
       Inventory.cell_value (Inventory.ws st') r c = None)
  ∧ (∀ (i : nat) b, bs !! i = Some b →
       (∀ (j : nat) b', (i < j)%nat → bs !! j = Some b' →
                        Inventory.v_vm_name b' ≠ Inventory.v_vm_name b) →
       Inventory.vm_to_row st' !! Inventory.v_vm_name b
       = Some (Inventory.row_num st + Z.of_nat i)).
Proof.
  intros Hinv. cbv zeta. induction bs as [|b bs IH] using rev_ind.
  - simpl. split; [exact Hinv|]. split; [lia|]. split; [reflexivity|].
    split; [intros i b H; discriminate H|]. split; [|intros i b H; discriminate H].
    intros r c Hr Hc. destruct (Inventory.cell_value _ r c) eqn:E; [|reflexivity].
    destruct Hinv as (_ & Hcells & _).
    assert (is_Some (Inventory.cell_value (Inventory.ws st) r c)) as H by (rewrite E; eauto).
    apply Hcells in H. lia.
  - rewrite foldl_snoc. destruct IH as (Hinv' & Hnum & Hold & Hboot & Hfree & Hvm).
    destruct (write_boot_spec _ b Hinv') as (Hinv2 & Hnum2 & Hb & Hvm2 & Hold2 & Hfree2).
    split; [exact Hinv2|]. split; [rewrite Hnum2, Hnum, length_app; simpl; lia|].
    split; [intros r c Hr; rewrite Hold2 by lia; apply Hold, Hr|]. split; [|split].
    + intros i b0 Hi. apply lookup_app_Some in Hi as [Hi|[Hlen Hi]].
      * pose proof (lookup_lt_Some _ _ _ Hi) as Hlt.
        destruct (Hboot i b0 Hi) as (H1 & H2 & H3 & H4 & H8).
        unfold boot_placed. rewrite !Hold2 by lia. repeat split; assumption.
      * destruct (i - length bs)%nat as [|k] eqn:Hk; [|destruct k; discriminate Hi].
        injection Hi as <-. replace (Inventory.row_num st + Z.of_nat i) with
          (Inventory.row_num (foldl Inventory.write_boot st bs)) by lia. exact Hb.
    + intros r c Hr Hc.
      destruct (decide (r < Inventory.row_num (foldl Inventory.write_boot st bs))).
      * rewrite Hold2 by assumption. apply Hfree; assumption.
      * rewrite Hfree2 by (lia || assumption). apply Hfree; assumption.
    + intros i b0 Hi Hlast. rewrite Hvm2.
      apply lookup_app_Some in Hi as [Hi|[Hlen Hi]].
      * pose proof (lookup_lt_Some _ _ _ Hi) as Hlt.
        rewrite lookup_insert_ne.
        -- apply Hvm; [exact Hi|]. intros j b' Hj Hb'. apply (Hlast j); [exact Hj|].
           apply lookup_app_l_Some. exact Hb'.
        -- apply (Hlast (length bs)); [exact Hlt|]. apply list_lookup_middle. reflexivity.
      * destruct (i - length bs)%nat as [|k] eqn:Hk; [|destruct k; discriminate Hi].
        injection Hi as <-. rewrite lookup_insert_eq. f_equal. lia.
Qed.

Lemma placed_frozen (st : Inventory.sheet_state) (a : Inventory.vm_disk) (row c : Z) :
  sheet_inv st → placed (Inventory.ws st) a row → frozen st row c.
Proof.
  intros (_ & Hcells & _) (_ & H5 & _). split.
  - apply (Hcells row 5). rewrite H5. eauto.
  - right. rewrite H5. eauto.
Qed.

Lemma additional_loop_spec (st : Inventory.sheet_state) (adds : list Inventory.vm_disk) :
  sheet_inv st →
  let st' := foldl Inventory.write_additional st adds in
  sheet_inv st'
  ∧ Inventory.row_num st ≤ Inventory.row_num st'
    ≤ Inventory.row_num st + Z.of_nat (length adds)
  ∧ (∀ r c, frozen st r c →
       Inventory.cell_value (Inventory.ws st') r c
       = Inventory.cell_value (Inventory.ws st) r c)
  ∧ ∃ rows, NoDup rows
      ∧ Forall2 (fun a row => 2 ≤ row ∧ placed (Inventory.ws st') a row) adds rows.
Proof.
  intros Hinv. cbv zeta. induction adds as [|a adds IH] using rev_ind.
  - simpl. split; [exact Hinv|]. split; [lia|]. split; [reflexivity|].
    exists []. split; constructor.
  - rewrite foldl_snoc. destruct IH as (Hinv' & Hnum & Hfro & rows & Hnd & Hpl).
    destruct (write_additional_spec _ a Hinv')
      as (Hinv2 & Hnum2 & Ht & H5 & Hplaced & Hsame & _).
    split; [exact Hinv2|]. split; [rewrite length_app; simpl; lia|]. split.
    + intros r c Hf. rewrite write_additional_frozen; [apply Hfro, Hf|exact Hinv'|].
      destruct Hf as [Hr Hc]. split; [lia|].
      destruct Hc as [Hc|Hc]; [left; exact Hc|right].
      rewrite Hfro; [exact Hc|]. split; [exact Hr|right; exact Hc].
    + exists (rows ++ [target (foldl Inventory.write_additional st adds) a])%list. split.
      * apply NoDup_app. split; [exact Hnd|]. split; [|apply NoDup_singleton].
        intros row Hrow Ht'. apply list_elem_of_singleton in Ht'. subst row.
        apply list_elem_of_lookup in Hrow as [i Hi].
        destruct (Forall2_lookup_r _ _ _ _ _ Hpl Hi) as (a0 & _ & _ & _ & H5' & _).
        rewrite H5 in H5'. discriminate H5'.
      * apply Forall2_app.
        -- eapply Forall2_impl; [exact Hpl|]. intros a0 row [Hrow Ha0].
           split; [exact Hrow|].
           pose proof (fun c => write_additional_frozen _ a row c Hinv'
                                  (placed_frozen _ a0 row c Hinv' Ha0)) as E.
           unfold placed. rewrite !E. exact Ha0.
        -- constructor; [|constructor]. split; [lia|exact Hplaced].
Qed.

Lemma others_keep_row (st : Inventory.sheet_state) (pre : list Inventory.vm_disk)
    (vm : string) (row0 : Z) :
  sheet_inv st →
  Inventory.vm_to_row st !! vm = Some row0 →
  Inventory.cell_value (Inventory.ws st) row0 5 = None →
  Forall (fun p => Inventory.v_vm_name p ≠ vm) pre →
  let st' := foldl Inventory.write_additional st pre in
  Inventory.vm_to_row st' !! vm = Some row0
  ∧ Inventory.cell_value (Inventory.ws st') row0 5 = None.
Proof.
  intros Hinv Hvm H5. cbv zeta. induction pre as [|p pre IH] using rev_ind; intros Hpre.
  - simpl. split; assumption.
  - apply Forall_app in Hpre as [Hpre Hp]. rewrite Forall_singleton in Hp.
    destruct (IH Hpre) as [Hvm' H5']. rewrite foldl_snoc.
    destruct (additional_loop_spec st pre Hinv) as (Hinv' & _).
    destruct (write_additional_spec _ p Hinv')
      as (_ & _ & _ & _ & (Hname & _) & Hsame & Hmap).
    destruct Hinv' as (_ & _ & Hrows & _). destruct (Hrows _ _ Hvm') as [Hr0 H1].
    split; [rewrite Hmap; [exact Hvm'|]; intros E; apply Hp; symmetry; exact E|].
    rewrite Hsame; [exact H5'|lia|]. left. intros E. rewrite <- E in Hname.
    rewrite Hsame in Hname by (lia || (right; lia)). rewrite H1 in Hname.
    injection Hname as E'. congruence.
Qed.

Lemma create_excel_report_Some (data : list Inventory.vm_disk) (w : Inventory.worksheet) :
  Inventory.create_excel_report data = Some w →
  data ≠ [] ∧ w = Inventory.ws (Inventory.merge_rows data).
Proof.
  destruct data; [discriminate|]. intros [= <-]. split; [discriminate|reflexivity].
Qed.

Lemma merge_rows_boot (data : list Inventory.vm_disk) (i : nat) (b : Inventory.vm_disk) :
  Inventory.boot_disks data !! i = Some b →
  boot_placed (Inventory.ws (Inventory.merge_rows data)) b (2 + Z.of_nat i).
Proof.
  intros Hi. unfold Inventory.merge_rows.
  destruct (boot_loop_spec _ (Inventory.boot_disks data) empty_sheet_inv)
    as (Hinv & Hnum & _ & Hboot & _).
  destruct (additional_loop_spec _ (Inventory.additional_disks data) Hinv)
    as (_ & _ & Hfro & _).
  pose proof (lookup_lt_Some _ _ _ Hi) as Hlt.
  specialize (Hboot i b Hi). cbn [Inventory.row_num Inventory.empty_sheet] in Hboot, Hnum.
  unfold boot_placed. rewrite !Hfro by (split; [lia|left; lia]). exact Hboot.
Qed.

Lemma merge_rows_additional (data : list Inventory.vm_disk) :
  ∃ rows, NoDup rows
    ∧ Forall2 (fun a row => 2 ≤ row ∧ placed (Inventory.ws (Inventory.merge_rows data)) a row)
        (Inventory.additional_disks data) rows.
Proof.
  unfold Inventory.merge_rows.
  destruct (boot_loop_spec _ (Inventory.boot_disks data) empty_sheet_inv) as (Hinv & _).
  apply (additional_loop_spec _ (Inventory.additional_disks data) Hinv).
Qed.

(** X16. The boot disks come first and in the order of the data: the i-th
    record with Boot Disk Yes is shown in row 2 + i, with the VM name, the
    name, type and size of the disk in columns 1 to 4 and the zone in
    column 8, and nothing written later changes these cells. *)
Theorem boot_disks_fill_the_first_rows (data : list Inventory.vm_disk)
    (w : Inventory.worksheet) (i : nat) (b : Inventory.vm_disk) :
  Inventory.create_excel_report data = Some w →
  Inventory.boot_disks data !! i = Some b →
  Inventory.cell_value w (2 + Z.of_nat i) 1 = Some (VStr (Inventory.v_vm_name b))
  ∧ Inventory.cell_value w (2 + Z.of_nat i) 2 = Some (VStr (Inventory.v_disk_name b))
  ∧ Inventory.cell_value w (2 + Z.of_nat i) 3 = Some (VStr (Inventory.v_disk_type b))
  ∧ Inventory.cell_value w (2 + Z.of_nat i) 4 = Some (VInt (Inventory.v_disk_size_gb b))
  ∧ Inventory.cell_value w (2 + Z.of_nat i) 8 = Some (VStr (Inventory.v_zone b)).
Proof.
  intros Hrep Hi. apply create_excel_report_Some in Hrep as [_ ->].
  exact (merge_rows_boot data i b Hi).
Qed.

Lemma boot_disks_fill_the_first_rows_witness :
  ∃ w, Inventory.create_excel_report example_inventory = Some w
       ∧ Inventory.cell_value w 2 2 = Some (VStr "boot1")
       ∧ Inventory.cell_value w 2 4 = Some (VInt 50).
Proof.
  eexists. split; [reflexivity|].
  destruct (boot_disks_fill_the_first_rows example_inventory _ 0
              {| Inventory.v_vm_name := "vm1"; Inventory.v_boot_disk := "Yes";
                 Inventory.v_disk_name := "boot1"; Inventory.v_disk_type := "pd-standard";
                 Inventory.v_disk_size_gb := 50; Inventory.v_zone := "us-west1-a" |}
              eq_refl eq_refl) as (_ & H2 & _ & H4 & _).
  split; [exact H2|exact H4].
Defined.

(** X17. No additional disk is lost or overwritten: the records with Boot
    Disk No can be matched, in order, with pairwise different data rows
    such that the row of a record starts with its VM name and shows its
    disk name, type and size in columns 5 to 7. *)
Theorem additional_disks_have_their_own_rows (data : list Inventory.vm_disk)
    (w : Inventory.worksheet) :
  Inventory.create_excel_report data = Some w →
  ∃ rows : list Z,
    NoDup rows
    ∧ Forall2 (fun a row =>
        2 ≤ row
        ∧ Inventory.cell_value w row 1 = Some (VStr (Inventory.v_vm_name a))
        ∧ Inventory.cell_value w row 5 = Some (VStr (Inventory.v_disk_name a))
        ∧ Inventory.cell_value w row 6 = Some (VStr (Inventory.v_disk_type a))
        ∧ Inventory.cell_value w row 7 = Some (VInt (Inventory.v_disk_size_gb a)))
        (Inventory.additional_disks data) rows.
Proof.
  intros Hrep. apply create_excel_report_Some in Hrep as [_ ->].
  exact (merge_rows_additional data).
Qed.

Lemma additional_disks_have_their_own_rows_witness :
  ∃ (w : Inventory.worksheet) (rows : list Z),
    Inventory.create_excel_report example_inventory = Some w
    ∧ NoDup rows ∧ length rows = 3%nat.
Proof.
  eexists.
  destruct (additional_disks_have_their_own_rows example_inventory _ eq_refl)
    as (rows & Hnd & Hall).
  exists rows. split; [reflexivity|]. split; [exact Hnd|].
  symmetry. exact (Forall2_length _ _ _ Hall).
Defined.

(** X18. A VM's boot disk and its first additional disk share a row: when
    [b] is the last boot record of its VM name and [a] the first
    additional record with that name, row 2 + i of [b] shows [b] in columns
    1 to 4 and [a] in columns 5 to 7; column 8 keeps the zone of [b],
    whatever the zone of [a] is. *)
Theorem first_additional_disk_joins_boot_row (data : list Inventory.vm_disk)
    (w : Inventory.worksheet) (i : nat) (b a : Inventory.vm_disk)
    (pre post : list Inventory.vm_disk) :
  Inventory.create_excel_report data = Some w →
  Inventory.boot_disks data !! i = Some b →
  (∀ (j : nat) b', (i < j)%nat → Inventory.boot_disks data !! j = Some b' →
                   Inventory.v_vm_name b' ≠ Inventory.v_vm_name b) →
  Inventory.additional_disks data = (pre ++ a :: post)%list →
  Inventory.v_vm_name a = Inventory.v_vm_name b →
  Forall (fun p => Inventory.v_vm_name p ≠ Inventory.v_vm_name b) pre →
  Inventory.cell_value w (2 + Z.of_nat i) 1 = Some (VStr (Inventory.v_vm_name b))
  ∧ Inventory.cell_value w (2 + Z.of_nat i) 2 = Some (VStr (Inventory.v_disk_name b))
  ∧ Inventory.cell_value w (2 + Z.of_nat i) 3 = Some (VStr (Inventory.v_disk_type b))
  ∧ Inventory.cell_value w (2 + Z.of_nat i) 4 = Some (VInt (Inventory.v_disk_size_gb b))
  ∧ Inventory.cell_value w (2 + Z.of_nat i) 5 = Some (VStr (Inventory.v_disk_name a))
  ∧ Inventory.cell_value w (2 + Z.of_nat i) 6 = Some (VStr (Inventory.v_disk_type a))
  ∧ Inventory.cell_value w (2 + Z.of_nat i) 7 = Some (VInt (Inventory.v_disk_size_gb a))
  ∧ Inventory.cell_value w (2 + Z.of_nat i) 8 = Some (VStr (Inventory.v_zone b)).
Proof.
  intros Hrep Hi Hlast Hadds Hname Hpre.
  pose proof (merge_rows_boot data i b Hi) as (B1 & B2 & B3 & B4 & B8).
  apply create_excel_report_Some in Hrep as [_ ->].
  repeat (split; [assumption|]).
  enough (Inventory.cell_value (Inventory.ws (Inventory.merge_rows data)) (2 + Z.of_nat i) 5
            = Some (VStr (Inventory.v_disk_name a))
          ∧ Inventory.cell_value (Inventory.ws (Inventory.merge_rows data)) (2 + Z.of_nat i) 6
            = Some (VStr (Inventory.v_disk_type a))
          ∧ Inventory.cell_value (Inventory.ws (Inventory.merge_rows data)) (2 + Z.of_nat i) 7
            = Some (VInt (Inventory.v_disk_size_gb a))) as (H5 & H6 & H7)
    by (repeat split; assumption).
  unfold Inventory.merge_rows. rewrite Hadds, foldl_app. cbn [foldl].
  destruct (boot_loop_spec _ (Inventory.boot_disks data) empty_sheet_inv)
    as (Hinv1 & _ & _ & _ & Hfree & Hvm).
  specialize (Hvm i b Hi Hlast). cbn [Inventory.row_num Inventory.empty_sheet] in Hvm, Hfree.
  set (st1 := foldl Inventory.write_boot Inventory.empty_sheet (Inventory.boot_disks data))
    in *.
  destruct (others_keep_row st1 pre _ _ Hinv1 Hvm (Hfree (2 + Z.of_nat i) 5 ltac:(lia) ltac:(lia)) Hpre)
    as [Hvm2 H52].
  destruct (additional_loop_spec st1 pre Hinv1) as (Hinv2 & _).
  set (st2 := foldl Inventory.write_additional st1 pre) in *.
  destruct (write_additional_spec st2 a Hinv2) as (Hinv3 & _ & _ & _ & Hplaced & _).
  assert (target st2 a = 2 + Z.of_nat i) as Ht.
  { unfold target. rewrite Hname, Hvm2, H52. reflexivity. }
  rewrite Ht in Hplaced.
  destruct (additional_loop_spec (Inventory.write_additional st2 a) post Hinv3)
    as (_ & _ & Hfro & _).
  pose proof (fun c => Hfro _ c (placed_frozen _ a _ c Hinv3 Hplaced)) as E.
  rewrite !E. destruct Hplaced as (_ & P5 & P6 & P7). repeat split; assumption.
Qed.

Lemma first_additional_disk_joins_boot_row_witness :
  ∃ w, Inventory.create_excel_report example_inventory = Some w
       ∧ Inventory.cell_value w 2 2 = Some (VStr "boot1")
       ∧ Inventory.cell_value w 2 5 = Some (VStr "data1").
Proof.
  eexists. split; [reflexivity|].
  destruct (first_additional_disk_joins_boot_row example_inventory _ 0
              {| Inventory.v_vm_name := "vm1"; Inventory.v_boot_disk := "Yes";
                 Inventory.v_disk_name := "boot1"; Inventory.v_disk_type := "pd-standard";
                 Inventory.v_disk_size_gb := 50; Inventory.v_zone := "us-west1-a" |}
              {| Inventory.v_vm_name := "vm1"; Inventory.v_boot_disk := "No";
                 Inventory.v_disk_name := "data1"; Inventory.v_disk_type := "pd-standard";
                 Inventory.v_disk_size_gb := 200; Inventory.v_zone := "us-west1-a" |}
              [] (skipn 1 (Inventory.additional_disks example_inventory)) eq_refl eq_refl)
    as (_ & H2 & _ & _ & H5 & _).
  - intros [|[|j]] b' Hj Hb'; [lia|discriminate Hb'..].
  - reflexivity.
  - reflexivity.
  - constructor.
  - split; [exact H2|exact H5].
Defined.

(** X19. The data rows have no gap and the header stays: after the header
    row, rows 2 to n - 1 all start with a VM name, end with a zone and show
    a boot disk or an additional disk, nothing is written from row n on,
    and n - 2 lies between the number of boot disks and the number of all
    boot and additional disks. *)
Theorem data_rows_are_contiguous (data : list Inventory.vm_disk) (w : Inventory.worksheet) :
  Inventory.create_excel_report data = Some w →
  (∀ (c : nat) h, Inventory.headers !! c = Some h →
     Inventory.cell_value w 1 (Z.of_nat c + 1) = Some (VStr h))
  ∧ ∃ n : Z,
      2 + Z.of_nat (length (Inventory.boot_disks data)) ≤ n
      ∧ n ≤ 2 + Z.of_nat (length (Inventory.boot_disks data))
              + Z.of_nat (length (Inventory.additional_disks data))
      ∧ (∀ r c, is_Some (Inventory.cell_value w r c) → 1 ≤ r < n)
      ∧ (∀ r, 2 ≤ r < n →
           is_Some (Inventory.cell_value w r 1)
           ∧ is_Some (Inventory.cell_value w r 8)
           ∧ (is_Some (Inventory.cell_value w r 2) ∨ is_Some (Inventory.cell_value w r 5))).
Proof.
  intros Hrep. apply create_excel_report_Some in Hrep as [_ ->].
  unfold Inventory.merge_rows.
  destruct (boot_loop_spec _ (Inventory.boot_disks data) empty_sheet_inv)
    as (Hinv1 & Hnum1 & Hold1 & _).
  destruct (additional_loop_spec _ (Inventory.additional_disks data) Hinv1)
    as (Hinv2 & Hnum2 & Hfro & _).
  cbn [Inventory.row_num Inventory.empty_sheet] in Hnum1, Hold1.
  split.
  - intros c h Hc. pose proof (lookup_lt_Some _ _ _ Hc) as Hlt.
    assert (0 ≤ Z.of_nat (length (Inventory.boot_disks data))) by lia.
    rewrite Hfro.
    + rewrite Hold1 by lia. cbn [Inventory.ws Inventory.empty_sheet].
      rewrite write_headers_cell.
      destruct (decide (1 = 1 ∧ 1 ≤ Z.of_nat c + 1)) as [_|?]; [|lia].
      replace (Z.to_nat (Z.of_nat c + 1 - 1)) with c by lia. rewrite Hc. reflexivity.
    + split; [lia|]. right. rewrite Hold1 by lia. cbn [Inventory.ws Inventory.empty_sheet].
      rewrite write_headers_cell. simpl. eauto.
  - destruct Hinv2 as (_ & Hcells & _ & Hrows).
    eexists. split; [|split; [|split; [exact Hcells|exact Hrows]]]; lia.
Qed.

Lemma data_rows_are_contiguous_witness :
  ∃ w, Inventory.create_excel_report example_inventory = Some w
       ∧ Inventory.cell_value w 1 1 = Some (VStr "VM Name").
Proof.
  eexists. split; [reflexivity|].
  exact (proj1 (data_rows_are_contiguous example_inventory _ eq_refl) 0%nat "VM Name" eq_refl).
Defined.

End InventorySheet.

(** ** [get_vm_disk_data] *)

Lemma disk_entry_Some (api : Inventory.compute_api) (zone vm_name : string)
    (disk : Inventory.attached_disk) (r : Inventory.vm_disk) :
  Inventory.disk_entry api zone vm_name disk = Ok (Some r) →
  Inventory.v_vm_name r = vm_name
  ∧ Inventory.v_zone r = zone
  ∧ Inventory.v_disk_type r = "pd-standard"
  ∧ (Inventory.v_boot_disk r = "Yes" ∨ Inventory.v_boot_disk r = "No").
Proof.
  unfold Inventory.disk_entry. intros H.
  apply bind_Ok in H as (disk_name & _ & H).
  apply bind_Ok in H as (is_boot & _ & H).
  apply bind_Ok in H as (disk_url & _ & H).
  apply bind_Ok in H as (disk_info & _ & H).
  apply bind_Ok in H as (disk_type_url & _ & H). cbv zeta in H.
  destruct (String.eqb_spec (last_segment "/" disk_type_url) "pd-standard") as [E|_];
    [|discriminate H].
  apply bind_Ok in H as (sizeGb & _ & H).
  apply bind_Ok in H as (disk_size_gb & _ & H).
  injection H as <-. cbn. repeat split; [exact E|]. destruct is_boot; [left|right]; reflexivity.
Qed.

Lemma collect_disks_Forall (api : Inventory.compute_api) (zone vm_name : string)
    (P : Inventory.vm_disk → Prop) (disks : list Inventory.attached_disk)
    (acc : list Inventory.vm_disk) :
  Forall P acc →
  (∀ disk r, disk ∈ disks → Inventory.disk_entry api zone vm_name disk = Ok (Some r) → P r) →
  Forall P (fst (Inventory.collect_disks api zone vm_name disks acc)).
Proof.
  revert acc. induction disks as [|disk rest IH]; intros acc Hacc Hnew; simpl.
  - exact Hacc.
  - destruct (Inventory.disk_entry api zone vm_name disk) as [[r|]|e] eqn:Hd.
    + apply IH.
      * apply Forall_app. split; [exact Hacc|]. constructor; [|constructor].
        apply (Hnew disk); [left|exact Hd].
      * intros d r' Hin. apply Hnew. right. exact Hin.
    + apply IH; [exact Hacc|]. intros d r' Hin. apply Hnew. right. exact Hin.
    + exact Hacc.
Qed.

Lemma collect_instances_Forall (api : Inventory.compute_api) (zone : string)
    (P : Inventory.vm_disk → Prop) (instances : list Inventory.instance)
    (acc : list Inventory.vm_disk) :
  Forall P acc →
  (∀ inst vm_name disk r, inst ∈ instances → Inventory.i_name inst = Some vm_name →
     disk ∈ default [] (Inventory.i_disks inst) →
     Inventory.disk_entry api zone vm_name disk = Ok (Some r) → P r) →
  Forall P (fst (Inventory.collect_instances api zone instances acc)).
Proof.
  revert acc. induction instances as [|inst rest IH]; intros acc Hacc Hnew; simpl.
  - exact Hacc.
  - destruct (Inventory.i_name inst) as [vm_name|] eqn:Hname; simpl; [|exact Hacc].
    pose proof (collect_disks_Forall api zone vm_name P
                  (default [] (Inventory.i_disks inst)) acc Hacc) as Hd.
    destruct (Inventory.collect_disks api zone vm_name
                (default [] (Inventory.i_disks inst)) acc) as [acc' [[]|e]]; simpl in Hd.
    + apply IH.
      * apply Hd. intros disk r Hin. apply (Hnew inst); [left|exact Hname|exact Hin].
      * intros i v d r Hin. apply Hnew. right. exact Hin.
    + apply Hd. intros disk r Hin. apply (Hnew inst); [left|exact Hname|exact Hin].
Qed.

Lemma inventory_collect_zones_Forall (api : Inventory.compute_api)
    (P : Inventory.vm_disk → Prop) (zones : list string) (acc : list Inventory.vm_disk) :
  Forall P acc →
  (∀ zone instances inst vm_name disk r, zone ∈ zones →
     Inventory.instances_list api zone = Ok instances →
     inst ∈ instances → Inventory.i_name inst = Some vm_name →
     disk ∈ default [] (Inventory.i_disks inst) →
     Inventory.disk_entry api zone vm_name disk = Ok (Some r) → P r) →
  Forall P (Inventory.collect_zones api zones acc).
Proof.
  revert acc. induction zones as [|zone rest IH]; intros acc Hacc Hnew; simpl.
  - exact Hacc.
  - apply IH.
    + destruct (Inventory.instances_list api zone) as [instances|] eqn:Hi; [|exact Hacc].
      apply collect_instances_Forall; [exact Hacc|].
      intros inst v d r. apply (Hnew zone); [left|exact Hi].
    + intros z ins i v d r Hin. apply Hnew. right. exact Hin.
Qed.

Lemma get_vm_disk_data_listed (api : Inventory.compute_api) (data : list Inventory.vm_disk) :
  Inventory.get_vm_disk_data api = Ok data →
  ∃ zones, Inventory.zones_list api = Ok zones
    ∧ Forall (fun r =>
        Inventory.v_disk_type r = "pd-standard"
        ∧ (Inventory.v_boot_disk r = "Yes" ∨ Inventory.v_boot_disk r = "No")
        ∧ Inventory.v_zone r ∈ zones
        ∧ listed_disk api r) data.
Proof.
  unfold Inventory.get_vm_disk_data. intros H.
  apply bind_Ok in H as (zones & Hz & H). injection H as <-.
  exists zones. split; [exact Hz|].
  apply inventory_collect_zones_Forall; [constructor|].
  intros zone instances inst vm_name disk r Hzone Hi Hinst Hname Hdisk Hentry.
  destruct (disk_entry_Some _ _ _ _ _ Hentry) as (Hvm & Hzn & Ht & Hb).
  split; [exact Ht|]. split; [exact Hb|]. rewrite Hzn. split; [exact Hzone|].
  exists instances, inst, disk. rewrite Hzn, Hvm. repeat split; assumption.
Qed.

(** X20. Every record of the inventory collector is a pd-standard disk
    with Boot Disk Yes or No, in a zone of the project, and comes from a
    disk attached to a listed instance of that zone whose details could be
    read. *)
Theorem inventory_records_are_standard_disks (api : Inventory.compute_api)
    (data : list Inventory.vm_disk) :
  Inventory.get_vm_disk_data api = Ok data →
  ∃ zones, Inventory.zones_list api = Ok zones
    ∧ Forall (fun r =>
        Inventory.v_disk_type r = "pd-standard"
        ∧ (Inventory.v_boot_disk r = "Yes" ∨ Inventory.v_boot_disk r = "No")
        ∧ Inventory.v_zone r ∈ zones
        ∧ listed_disk api r) data.
Proof. exact (get_vm_disk_data_listed api data). Qed.

Lemma inventory_api_data :
  Inventory.get_vm_disk_data inventory_api = Ok [boot1_record].
Proof. reflexivity. Qed.

Lemma inventory_records_are_standard_disks_witness :
  Inventory.v_disk_type boot1_record = "pd-standard"
  ∧ Inventory.v_zone boot1_record ∈ ["us-west1-a"; "us-west1-b"].
Proof.
  destruct (inventory_records_are_standard_disks inventory_api _ inventory_api_data)
    as (zones & Hz & Hall).
  injection Hz as <-. apply Forall_cons in Hall as [(Ht & _ & Hzone & _) _].
  split; [exact Ht|exact Hzone].
Defined.

(** ** Zone by zone *)

Lemma inventory_collect_disks_acc (api : Inventory.compute_api) (zone vm_name : string)
    (disks : list Inventory.attached_disk) (acc : list Inventory.vm_disk) :
  Inventory.collect_disks api zone vm_name disks acc
  = ((acc ++ fst (Inventory.collect_disks api zone vm_name disks []))%list,
     snd (Inventory.collect_disks api zone vm_name disks [])).
Proof.
  revert acc. induction disks as [|disk rest IH]; intros acc; simpl.
  - rewrite app_nil_r. reflexivity.
  - destruct (Inventory.disk_entry api zone vm_name disk) as [[r|]|e].
    + rewrite IH, (IH [r]). simpl. rewrite <- app_assoc. reflexivity.
    + apply IH.
    + simpl. rewrite app_nil_r. reflexivity.
Qed.

Lemma inventory_collect_instances_acc (api : Inventory.compute_api) (zone : string)
    (instances : list Inventory.instance) (acc : list Inventory.vm_disk) :
  Inventory.collect_instances api zone instances acc
  = ((acc ++ fst (Inventory.collect_instances api zone instances []))%list,
     snd (Inventory.collect_instances api zone instances [])).
Proof.
  revert acc. induction instances as [|inst rest IH]; intros acc; simpl.
  - rewrite app_nil_r. reflexivity.
  - destruct (Inventory.i_name inst) as [vm_name|]; simpl;
      [|rewrite app_nil_r; reflexivity].
    rewrite (inventory_collect_disks_acc api zone vm_name _ acc).
    destruct (Inventory.collect_disks api zone vm_name
                (default [] (Inventory.i_disks inst)) []) as [recs [[]|e]]; simpl.
    + rewrite IH, (IH recs). simpl. rewrite <- app_assoc. reflexivity.
    + reflexivity.
Qed.

Lemma inventory_collect_zones_concat (api : Inventory.compute_api) (zones : list string)
    (acc : list Inventory.vm_disk) :
  Inventory.collect_zones api zones acc
  = (acc ++ concat (inventory_zone_part api <$> zones))%list.
Proof.
  revert acc. induction zones as [|zone rest IH]; intros acc; simpl.
  - rewrite app_nil_r. reflexivity.
  - rewrite IH. unfold inventory_zone_part at 2.
    destruct (Inventory.instances_list api zone) as [instances|]; [|reflexivity].
    rewrite inventory_collect_instances_acc. simpl. rewrite app_assoc. reflexivity.
Qed.

Lemma inventory_collect_disks_app (api : Inventory.compute_api) (zone vm_name : string)
    (pre post : list Inventory.attached_disk) (acc recs : list Inventory.vm_disk) :
  Inventory.collect_disks api zone vm_name pre acc = (recs, Ok tt) →
  Inventory.collect_disks api zone vm_name (pre ++ post) acc
  = Inventory.collect_disks api zone vm_name post recs.
Proof.
  revert acc. induction pre as [|disk rest IH]; intros acc H; simpl in *.
  - injection H as <-. reflexivity.
  - destruct (Inventory.disk_entry api zone vm_name disk) as [[r|]|e];
      [apply IH, H|apply IH, H|discriminate H].
Qed.

Lemma inventory_collect_instances_app (api : Inventory.compute_api) (zone : string)
    (before after : list Inventory.instance) (acc recs : list Inventory.vm_disk) :
  Inventory.collect_instances api zone before acc = (recs, Ok tt) →
  Inventory.collect_instances api zone (before ++ after) acc
  = Inventory.collect_instances api zone after recs.
Proof.
  revert acc. induction before as [|inst rest IH]; intros acc H; simpl in *.
  - injection H as <-. reflexivity.
  - destruct (Inventory.i_name inst) as [vm_name|]; simpl in *; [|discriminate H].
    destruct (Inventory.collect_disks api zone vm_name
                (default [] (Inventory.i_disks inst)) acc) as [acc' [[]|e]];
      [apply IH, H|discriminate H].
Qed.

(** X21. The inventory collector works zone by zone over all zones of the
    project: its result is the concatenation, in the order of the zones
    list, of what each zone contributes on its own, and a zone whose
    instances cannot be listed contributes nothing without stopping the
    others. *)
Theorem inventory_is_zone_by_zone (api : Inventory.compute_api) (zones : list string) :
  Inventory.zones_list api = Ok zones →
  Inventory.get_vm_disk_data api = Ok (concat (inventory_zone_part api <$> zones))
  ∧ ∀ before zone e after,
      zones = (before ++ zone :: after)%list →
      Inventory.instances_list api zone = Raise e →
      Inventory.get_vm_disk_data api
      = Ok (concat (inventory_zone_part api <$> before)
            ++ concat (inventory_zone_part api <$> after))%list.
Proof.
  intros Hz.
  assert (Inventory.get_vm_disk_data api
          = Ok (concat (inventory_zone_part api <$> zones))) as H.
  { unfold Inventory.get_vm_disk_data.
    rewrite Hz, bind_Ok_l, inventory_collect_zones_concat. reflexivity. }
  split; [exact H|].
  intros before zone e after Hsplit Herr. rewrite H, Hsplit.
  rewrite fmap_app, concat_app, fmap_cons, concat_cons.
  unfold inventory_zone_part at 2. rewrite Herr. reflexivity.
Qed.

Lemma inventory_is_zone_by_zone_witness :
  Inventory.get_vm_disk_data inventory_api
  = Ok (concat (inventory_zone_part inventory_api <$> ["us-west1-a"])
        ++ concat (inventory_zone_part inventory_api <$> []))%list.
Proof.
  apply (proj2 (inventory_is_zone_by_zone inventory_api ["us-west1-a"; "us-west1-b"] eq_refl)
           ["us-west1-a"] "us-west1-b" ApiError []); reflexivity.
Defined.

(** X22. One attached disk that cannot be processed ends its zone: when
    reading a disk raises (a missing field, a failed lookup of its details,
    a size that is no integer), whatever its type, the zone contributes
    the records appended before it and nothing for the later disks of the
    instance or for the later instances of the zone. *)
Theorem failed_disk_ends_the_zone (api : Inventory.compute_api) (zone vm_name : string)
    (before after : list Inventory.instance) (inst : Inventory.instance)
    (pre post : list Inventory.attached_disk) (bad : Inventory.attached_disk)
    (recs1 recs2 : list Inventory.vm_disk) (e : exn) :
  Inventory.instances_list api zone = Ok (before ++ inst :: after)%list →
  Inventory.collect_instances api zone before [] = (recs1, Ok tt) →
  Inventory.i_name inst = Some vm_name →
  Inventory.i_disks inst = Some (pre ++ bad :: post)%list →
  Inventory.collect_disks api zone vm_name pre [] = (recs2, Ok tt) →
  Inventory.disk_entry api zone vm_name bad = Raise e →
  inventory_zone_part api zone = (recs1 ++ recs2)%list.
Proof.
  intros Hlist Hbefore Hname Hdisks Hpre Hbad.
  unfold inventory_zone_part. rewrite Hlist.
  rewrite (inventory_collect_instances_app _ _ _ _ _ _ Hbefore).
  cbn [Inventory.collect_instances]. rewrite Hname, Hdisks. cbn [Inventory.field default].
  rewrite inventory_collect_disks_acc. unfold id.
  rewrite (inventory_collect_disks_app _ _ _ _ _ _ _ Hpre).
  cbn [Inventory.collect_disks]. rewrite Hbad. reflexivity.
Qed.

Lemma failed_disk_ends_the_zone_witness :
  inventory_zone_part inventory_api "us-west1-a" = [boot1_record].
Proof.
  apply (failed_disk_ends_the_zone inventory_api "us-west1-a" "vm1" []
           [ {| Inventory.i_name := Some "vm2";
                Inventory.i_disks := Some [vm_attached_disk "boot2" true] |} ]
           {| Inventory.i_name := Some "vm1";
              Inventory.i_disks := Some [vm_attached_disk "boot1" true; vm_attached_disk "gone" false;
                                         vm_attached_disk "data1" false] |}
           [vm_attached_disk "boot1" true] [vm_attached_disk "data1" false] (vm_attached_disk "gone" false)
           [] [boot1_record] ApiError); reflexivity.
Defined.

(** ** [main] *)

Section InventoryMain.
Local Open Scope Z_scope.

Lemma merge_rows_shown (data : list Inventory.vm_disk) (r : Inventory.vm_disk) :
  r ∈ data →
  Inventory.v_boot_disk r = "Yes" ∨ Inventory.v_boot_disk r = "No" →
  shown (Inventory.ws (Inventory.merge_rows data)) r.
Proof.
  intros Hin [Hb|Hb].
  - assert (r ∈ Inventory.boot_disks data) as Hr.
    { apply list_elem_of_In, filter_In. split; [apply list_elem_of_In, Hin|].
      rewrite Hb. reflexivity. }
    apply list_elem_of_lookup in Hr as [i Hi].
    destruct (merge_rows_boot data i r Hi) as (H1 & H2 & H3 & H4 & _).
    exists (2 + Z.of_nat i). split; [lia|]. split; [exact H1|]. left.
    repeat split; assumption.
  - assert (r ∈ Inventory.additional_disks data) as Hr.
    { apply list_elem_of_In, filter_In. split; [apply list_elem_of_In, Hin|].
      rewrite Hb. reflexivity. }
    apply list_elem_of_lookup in Hr as [i Hi].
    destruct (merge_rows_additional data) as (rows & _ & Hall).
    destruct (Forall2_lookup_l _ _ _ _ _ Hall Hi) as (row & _ & Hrow & H1 & H5 & H6 & H7).
    exists row. split; [exact Hrow|]. split; [exact H1|]. right.
    repeat split; assumption.
Qed.

(** X23. The inventory drops no disk between collecting and reporting:
    when [main] writes a sheet, every record the collector returned is
    shown in a data row that starts with its VM name, as a boot disk in
    columns 2 to 4 or as an additional disk in columns 5 to 7. *)
Theorem inventory_shows_every_collected_disk (api : Inventory.compute_api)
    (w : Inventory.worksheet) :
  Inventory.main api = Ok (Some w) →
  ∃ data, Inventory.get_vm_disk_data api = Ok data
    ∧ data ≠ []
    ∧ Forall (shown w) data.
Proof.
  unfold Inventory.main. intros H. apply bind_Ok in H as (data & Hget & H).
  exists data. split; [exact Hget|].
  destruct data as [|r0 rest] eqn:Hd; [discriminate H|]. rewrite <- Hd in *.
  injection H as H. apply create_excel_report_Some in H as [Hne ->].
  split; [exact Hne|].
  destruct (get_vm_disk_data_listed _ _ Hget) as (zones & _ & Hall).
  apply Forall_forall. intros r Hr. rewrite Forall_forall in Hall.
  apply merge_rows_shown; [exact Hr|]. apply (Hall r Hr).
Qed.

Lemma inventory_shows_every_collected_disk_witness :
  ∃ w, Inventory.main inventory_api = Ok (Some w) ∧ shown w boot1_record.
Proof.
  eexists. split; [reflexivity|].
  destruct (inventory_shows_every_collected_disk inventory_api _ eq_refl)
    as (data & Hget & _ & Hall).
  rewrite inventory_api_data in Hget. injection Hget as <-.
  apply Forall_cons in Hall as [H _]. exact H.
Defined.

End InventoryMain.

(** ** The read step of [new_report.py] *)


